(** * County building-permit scraper: extraction, sink and orchestration

    A shallow embedding of [county_permits_scraper.py] (class
    [CountyPermitScraper]) and the properties of its record extractors
    ([parse_accela_results], [parse_nashville_results], [parse_csv_permits]),
    its CSV sink ([save_to_csv], [generate_sorted_versions]) and its
    orchestrator ([scrape_bexar] ... [run_all]).

    Modelling conventions.
    - Python [str] values are [string]s over the code points 0 to 255
      (Latin-1, which holds the no-break space that [&nbsp;] parses
      to); on them [str.strip], [str.lower], [\d] and string
      comparison are those of Python.
    - A parsed page (a BeautifulSoup tree) is a [node]; the HTML parser
      itself and the browser are outside the program.
    - A permit record is the Python [dict] the code builds: an
      association list from field names to strings, in insertion order.
    - Exceptions are values of [exn]; code that can raise lives in
      [result] (pure) or in [M] (state of files, log and live browser
      sessions, kept when an exception propagates).
    - The configuration is loaded and complete; of it the modelled code
      reads [csv_headers], a parameter here.  Opening a file for
      writing, logging and sleeping do not fail.
    - The extractors' second argument [county_name] is not used by
      their bodies and is left out. *)

From Stdlib Require Import List Bool Arith ZArith Lia Ascii String.
From Stdlib Require Import Permutation Sorted DecimalString.
Import ListNotations.

Set Warnings "-register-all,-abstract-large-number".

Local Open Scope string_scope.
Local Open Scope list_scope.
Local Open Scope nat_scope.

(* ===================================================================== *)
(** ** Exceptions and the pure error monad *)
(* ===================================================================== *)

(** The exception classes the modelled code can meet.  [DriverError]
    stands for whatever selenium or webdriver-manager raises (timeouts,
    missing elements, a browser that does not start); all four are
    subclasses of Python's [Exception]. *)
Inductive exn : Type :=
| ValueError
| KeyError
| IndexError
| DriverError.

Inductive result (A : Type) : Type :=
| Ok (a : A)
| Raise (e : exn).
Arguments Ok {A} a.
Arguments Raise {A} e.

Definition rbind {A B} (r : result A) (k : A -> result B) : result B :=
  match r with
  | Ok a => k a
  | Raise e => Raise e
  end.

Declare Scope result_scope.
Delimit Scope result_scope with result.
Notation "x <- c ;; k" := (rbind c (fun x => k))
  (at level 61, c at next level, right associativity) : result_scope.

(** [l[i]] on a Python list. *)
Definition getitem {A} (l : list A) (i : nat) : result A :=
  match nth_error l i with
  | Some a => Ok a
  | None => Raise IndexError
  end.

(* ===================================================================== *)
(** ** Python string primitives *)
(* ===================================================================== *)

Module PyStr.

(** [str.isspace] on one character: TAB..CR, FS..US, the space, NEL
    (U+0085) and the no-break space (U+00A0). *)
Definition is_space (c : ascii) : bool :=
  let n := nat_of_ascii c in
  ((9 <=? n) && (n <=? 13)) || ((28 <=? n) && (n <=? 32)) || (n =? 133) || (n =? 160).

Definition is_digit (c : ascii) : bool :=
  let n := nat_of_ascii c in (48 <=? n) && (n <=? 57).

Fixpoint lstrip (s : string) : string :=
  match s with
  | EmptyString => EmptyString
  | String c s' => if is_space c then lstrip s' else s
  end.

Fixpoint rstrip (s : string) : string :=
  match s with
  | EmptyString => EmptyString
  | String c s' =>
      match rstrip s' with
      | EmptyString => if is_space c then EmptyString else String c EmptyString
      | r => String c r
      end
  end.

(** [s.strip()] *)
Definition strip (s : string) : string := rstrip (lstrip s).

(** [s.split(sep)] for a one-character separator: never empty. *)
Fixpoint split (sep : ascii) (s : string) : list string :=
  match s with
  | EmptyString => [EmptyString]
  | String c s' =>
      if Ascii.eqb c sep then EmptyString :: split sep s'
      else match split sep s' with
           | [] => [String c EmptyString]
           | w :: ws => String c w :: ws
           end
  end.

(** The capitals are A..Z and U+00C0..U+00DE without the
    multiplication sign U+00D7; each small letter lies 32 higher. *)
Definition lower_char (c : ascii) : ascii :=
  let n := nat_of_ascii c in
  if ((65 <=? n) && (n <=? 90)) || ((192 <=? n) && (n <=? 222) && negb (n =? 215))
  then ascii_of_nat (n + 32) else c.

(** [s.lower()] *)
Fixpoint lower (s : string) : string :=
  match s with
  | EmptyString => EmptyString
  | String c s' => String (lower_char c) (lower s')
  end.

(** [needle in hay] *)
Fixpoint contains (needle hay : string) : bool :=
  String.prefix needle hay ||
  match hay with
  | EmptyString => false
  | String _ hay' => contains needle hay'
  end.

Fixpoint filter (f : ascii -> bool) (s : string) : string :=
  match s with
  | EmptyString => EmptyString
  | String c s' => if f c then String c (filter f s') else filter f s'
  end.

(** [sep.join(l)] *)
Definition join (sep : string) (l : list string) : string := String.concat sep l.

(** [str(n)] for a non-negative integer. *)
Definition of_nat (n : nat) : string := NilEmpty.string_of_uint (Nat.to_uint n).

End PyStr.

(* ===================================================================== *)
(** ** The parsed page: BeautifulSoup trees *)
(* ===================================================================== *)

Module Soup.

(** A page element: a text node or a tag with its [class] attribute (the
    list of class names; empty when the attribute is absent) and its
    children.  The [BeautifulSoup] object itself is the root tag. *)
Inductive node : Type :=
| NavigableString (text : string)
| Tag (name : string) (class_ : list string) (contents : list node).

(** [tag.descendants]: every node below [n], in document order. *)
Fixpoint descendants (n : node) : list node :=
  match n with
  | NavigableString _ => []
  | Tag _ _ cs => flat_map (fun c => c :: descendants c) cs
  end.

Definition is_tag (nm : string) (n : node) : bool :=
  match n with
  | NavigableString _ => false
  | Tag nm' _ _ => String.eqb nm' nm
  end.

(** [tag.find_all(name)] *)
Definition find_all (nm : string) (n : node) : list node :=
  List.filter (is_tag nm) (descendants n).

(** [tag.find(name)]: the first match or [None]. *)
Definition find (nm : string) (n : node) : option node :=
  hd_error (find_all nm n).

Definition own_text (n : node) : string :=
  match n with
  | NavigableString t => t
  | Tag _ _ _ => EmptyString
  end.

(** [tag.get_text()]: the text nodes below the tag, concatenated. *)
Definition get_text (n : node) : string :=
  match n with
  | NavigableString t => t
  | Tag _ _ _ => String.concat EmptyString (map own_text (descendants n))
  end.

(** [re.compile(r'permit|result|record').search(s)] *)
Definition card_re_search (s : string) : bool :=
  PyStr.contains "permit" s || PyStr.contains "result" s || PyStr.contains "record" s.

(** How bs4 matches a regular expression against the multi-valued
    [class] attribute: some class name matches, or the names joined by
    spaces do. *)
Definition class_matches (re : string -> bool) (cls : list string) : bool :=
  existsb re cls || re (PyStr.join " " cls).

(** [soup.find_all(['div', 'li'], class_=re.compile(...))] *)
Definition is_card (n : node) : bool :=
  match n with
  | NavigableString _ => false
  | Tag nm cls _ =>
      (String.eqb nm "div" || String.eqb nm "li") && class_matches card_re_search cls
  end.

Definition find_all_cards (n : node) : list node :=
  List.filter is_card (descendants n).

End Soup.
Import Soup.

(* ===================================================================== *)
(** ** Permit records *)
(* ===================================================================== *)

(** A permit record is a [dict] with string keys and string values. *)
Definition permit : Type := list (string * string).

(** The keys of the dict literal every extractor builds, in the order
    the literal lists them. *)
Definition field_names : list string :=
  ["permit_number"; "issue_date"; "address"; "work_type"; "contractor"; "valuation"].

(** [d.get(k)] *)
Fixpoint dict_get (d : permit) (k : string) : option string :=
  match d with
  | [] => None
  | (k', v) :: d' => if String.eqb k' k then Some v else dict_get d' k
  end.

(** [d[k]] *)
Definition dict_getitem (d : permit) (k : string) : result string :=
  match dict_get d k with
  | Some v => Ok v
  | None => Raise KeyError
  end.

Definition dict_keys (d : permit) : list string := map fst d.
Definition dict_values (d : permit) : list string := map snd d.

(** The dict literal [{'permit_number': .., 'issue_date': .., ...}]. *)
Definition mk_permit (permit_number issue_date address work_type contractor valuation : string)
  : permit :=
  [ ("permit_number", permit_number); ("issue_date", issue_date);
    ("address", address); ("work_type", work_type);
    ("contractor", contractor); ("valuation", valuation) ].

(* ===================================================================== *)
(** ** Extractors *)
(* ===================================================================== *)

Module Extract.
Import PyStr.
Local Open Scope result_scope.

(** A [for x in xs:] loop whose body appends to the list [permits]. *)
Fixpoint for_append {A} (body : A -> result (list permit)) (xs : list A)
  (permits : list permit) : result (list permit) :=
  match xs with
  | [] => Ok permits
  | x :: xs' => new <- body x ;; for_append body xs' (permits ++ new)
  end.

(** [cols[i].get_text().strip()] *)
Definition cell (cols : list node) (i : nat) : result string :=
  td <- getitem cols i ;; Ok (strip (get_text td)).

(** Body of the row loop of [parse_accela_results]. *)
Definition accela_row (row : node) : result (list permit) :=
  let cols := find_all "td" row in
  if 6 <=? List.length cols then
    permit_number <- cell cols 0 ;;
    issue_date <- cell cols 1 ;;
    address <- cell cols 2 ;;
    work_type <- cell cols 3 ;;
    contractor <- (if 4 <? List.length cols then cell cols 4 else Ok "") ;;
    valuation <- (if 5 <? List.length cols then cell cols 5 else Ok "") ;;
    Ok [mk_permit permit_number issue_date address work_type contractor valuation]
  else Ok [].

Definition parse_accela_results (soup : node) : result (list permit) :=
  match find "table" soup with
  | Some table =>
      let rows := tl (find_all "tr" table) in
      for_append accela_row rows []
  | None => Ok []
  end.

(** Body of the table-row loop of [parse_nashville_results]. *)
Definition nashville_row (row : node) : result (list permit) :=
  let cols := find_all "td" row in
  if 4 <=? List.length cols then
    permit_number <- cell cols 0 ;;
    issue_date <- (if 1 <? List.length cols then cell cols 1 else Ok "") ;;
    address <- (if 2 <? List.length cols then cell cols 2 else Ok "") ;;
    work_type <- (if 3 <? List.length cols then cell cols 3 else Ok "") ;;
    contractor <- (if 4 <? List.length cols then cell cols 4 else Ok "") ;;
    valuation <- (if 5 <? List.length cols then cell cols 5 else Ok "") ;;
    Ok [mk_permit permit_number issue_date address work_type contractor valuation]
  else Ok [].

(** [lines[i].strip()] *)
Definition line (lines : list string) (i : nat) : result string :=
  l <- getitem lines i ;; Ok (strip l).

(** Body of the card loop of [parse_nashville_results]. *)
Definition nashville_card (elem : node) : result (list permit) :=
  let permit_text := get_text elem in
  let lines := split "010"%char permit_text in
  if 3 <=? List.length lines then
    permit_number <- line lines 0 ;;
    issue_date <- (if 1 <? List.length lines then line lines 1 else Ok "") ;;
    address <- (if 2 <? List.length lines then line lines 2 else Ok "") ;;
    Ok [mk_permit permit_number issue_date address "Unknown" "" ""]
  else Ok [].

(** The first part of [parse_nashville_results]: the value of [permits]
    when the [if not permits:] test is reached. *)
Definition nashville_table_pass (soup : node) : result (list permit) :=
  match find "table" soup with
  | Some table => for_append nashville_row (tl (find_all "tr" table)) []
  | None => Ok []
  end.

Definition parse_nashville_results (soup : node) : result (list permit) :=
  permits <- nashville_table_pass soup ;;
  match permits with
  | [] => for_append nashville_card (find_all_cards soup) permits
  | _ :: _ => Ok permits
  end.

(** [parts[i].strip()] *)
Definition part (parts : list string) (i : nat) : result string :=
  p <- getitem parts i ;; Ok (strip p).

(** Body of the line loop of [parse_csv_permits]; [if line.strip():]
    tests that the stripped line is not empty. *)
Definition csv_line (ln : string) : result (list permit) :=
  match strip ln with
  | EmptyString => Ok []
  | String _ _ =>
      let parts := split ","%char ln in
      if 6 <=? List.length parts then
        permit_number <- part parts 0 ;;
        issue_date <- part parts 1 ;;
        address <- part parts 2 ;;
        work_type <- part parts 3 ;;
        contractor <- part parts 4 ;;
        valuation <- part parts 5 ;;
        Ok [mk_permit permit_number issue_date address work_type contractor valuation]
      else Ok []
  end.

Definition parse_csv_permits (content : string) : result (list permit) :=
  let lines := split "010"%char content in
  for_append csv_line (tl lines) [].

End Extract.

(* ===================================================================== *)
(** ** Dates: [datetime.strptime(s, "%m/%d/%Y")] *)
(* ===================================================================== *)

Module Date.

(** A [datetime] whose time of day is midnight, as [strptime] with a
    date-only format and [datetime.min] produce. *)
Record datetime : Type := mk_datetime { year : nat; month : nat; day : nat }.

(** [datetime.min] *)
Definition datetime_min : datetime := mk_datetime 1 1 1.

(** [a <= b] on datetimes. *)
Definition leb (a b : datetime) : bool :=
  (year a <? year b) ||
  ((year a =? year b) &&
   ((month a <? month b) || ((month a =? month b) && (day a <=? day b)))).

Definition in_range (lo hi c : ascii) : bool :=
  (nat_of_ascii lo <=? nat_of_ascii c) && (nat_of_ascii c <=? nat_of_ascii hi).

Definition dval (c : ascii) : nat := nat_of_ascii c - 48.

(** The format is compiled by [_strptime] to the regular expression
    [(?P<m>1[0-2]|0[1-9]|[1-9])/(?P<d>3[0-1]|[1-2]\d|0[1-9]|[1-9]| [1-9])/(?P<Y>\d\d\d\d)].
    Each piece below lists the ways its group matches at the head of
    the input, in the order the regular expression tries them, with the
    value read and the rest of the input. *)
Definition re_month (s : string) : list (nat * string) :=
  (match s with
   | String "1" (String c r) => if in_range "0" "2" c then [(10 + dval c, r)] else []
   | _ => []
   end) ++
  (match s with
   | String "0" (String c r) => if in_range "1" "9" c then [(dval c, r)] else []
   | _ => []
   end) ++
  (match s with
   | String c r => if in_range "1" "9" c then [(dval c, r)] else []
   | _ => []
   end).

Definition re_day (s : string) : list (nat * string) :=
  (match s with
   | String "3" (String c r) => if in_range "0" "1" c then [(30 + dval c, r)] else []
   | _ => []
   end) ++
  (match s with
   | String t (String c r) =>
       if in_range "1" "2" t && in_range "0" "9" c then [(10 * dval t + dval c, r)] else []
   | _ => []
   end) ++
  (match s with
   | String "0" (String c r) => if in_range "1" "9" c then [(dval c, r)] else []
   | _ => []
   end) ++
  (match s with
   | String c r => if in_range "1" "9" c then [(dval c, r)] else []
   | _ => []
   end) ++
  (match s with
   | String " " (String c r) => if in_range "1" "9" c then [(dval c, r)] else []
   | _ => []
   end).

Definition re_year (s : string) : list (nat * string) :=
  match s with
  | String a (String b (String c (String d r))) =>
      if in_range "0" "9" a && in_range "0" "9" b && in_range "0" "9" c && in_range "0" "9" d
      then [(1000 * dval a + 100 * dval b + 10 * dval c + dval d, r)]
      else []
  | _ => []
  end.

Definition re_slash (s : string) : list string :=
  match s with
  | String "/" r => [r]
  | _ => []
  end.

(** [format_regex.match(data_string)]: the first way the whole
    expression matches a prefix, as (month, day, year, unmatched rest). *)
Definition re_match (s : string) : option (nat * nat * nat * string) :=
  hd_error
    (flat_map (fun ms =>
       flat_map (fun s1 =>
         flat_map (fun ds =>
           flat_map (fun s2 =>
             map (fun ys => (fst ms, fst ds, fst ys, snd ys)) (re_year s2))
           (re_slash (snd ds)))
         (re_day s1))
       (re_slash (snd ms)))
     (re_month s)).

Definition is_leap (y : nat) : bool :=
  (y mod 4 =? 0) && (negb (y mod 100 =? 0) || (y mod 400 =? 0)).

Definition days_in_month (y m : nat) : nat :=
  match m with
  | 2 => if is_leap y then 29 else 28
  | 4 | 6 | 9 | 11 => 30
  | _ => 31
  end.

(** [datetime.strptime(s, "%m/%d/%Y")]: [ValueError] when the input does
    not match, when unconverted data remains, and when the fields are
    not a date ([year 0], [02/30/2024]). *)
Definition strptime (s : string) : result datetime :=
  match re_match s with
  | None => Raise ValueError
  | Some (m, d, y, rest) =>
      match rest with
      | String _ _ => Raise ValueError
      | EmptyString =>
          if (1 <=? y) && (1 <=? m) && (m <=? 12) && (1 <=? d) && (d <=? days_in_month y m)
          then Ok (mk_datetime y m d)
          else Raise ValueError
      end
  end.

End Date.

(* ===================================================================== *)
(** ** Numbers: [float(...)] on a string of digits and dots *)
(* ===================================================================== *)

Module Float.
Local Open Scope Z_scope.

(** A non-negative binary64 value: [mant * 2 ^ expo] with [mant] odd or
    zero, or the infinity that [float] returns on overflow. *)
Inductive pyfloat : Type :=
| Finite (mant expo : Z)
| Infinity.

(** The integer [0] that the valuation key returns for an empty string
    compares like [0.0]. *)
Definition zero : pyfloat := Finite 0 0.

Fixpoint odd_part (p : positive) : positive * Z :=
  match p with
  | xO p' => let (o, k) := odd_part p' in (o, k + 1)
  | _ => (p, 0)
  end.

Definition normalize (m e : Z) : pyfloat :=
  match m with
  | Zpos p => let (o, k) := odd_part p in Finite (Zpos o) (e + k)
  | _ => Finite 0 0
  end.

(** [p / q] rounded to the nearest binary64 value, ties to even
    (53-bit significand, least exponent -1074, overflow from 2^1024). *)
Definition round_to_double (p q : Z) : pyfloat :=
  if p <=? 0 then zero else
  let l := Z.log2 p - Z.log2 q in
  let at_least_l := if 0 <=? l then q * 2 ^ l <=? p else q <=? p * 2 ^ (- l) in
  let fl := if at_least_l then l else l - 1 in
  let e := Z.max (fl - 52) (-1074) in
  let num := if e <? 0 then p * 2 ^ (- e) else p in
  let den := if e <? 0 then q else q * 2 ^ e in
  let m0 := num / den in
  let r := num mod den in
  let m := if (den <? 2 * r) || ((den =? 2 * r) && Z.odd m0) then m0 + 1 else m0 in
  if (0 <=? e) && (2 ^ 1024 <=? m * 2 ^ e) then Infinity else normalize m e.

(** [a <= b] *)
Definition leb (a b : pyfloat) : bool :=
  match a, b with
  | _, Infinity => true
  | Infinity, Finite _ _ => false
  | Finite m1 e1, Finite m2 e2 =>
      let e := Z.min e1 e2 in
      m1 * 2 ^ (e1 - e) <=? m2 * 2 ^ (e2 - e)
  end.

(** Reads a run of decimal digits: the number continued from [acc], how
    many digits were read, and the rest. *)
Fixpoint digits (s : string) (acc : Z) (n : nat) : Z * nat * string :=
  match s with
  | String c s' =>
      if PyStr.is_digit c
      then digits s' (10 * acc + Z.of_nat (nat_of_ascii c - 48)) (S n)
      else (acc, n, s)
  | EmptyString => (acc, n, s)
  end.

(** [float(s)] for [s] made of digits and dots only (what is left after
    [re.sub(r'[^\d.]', '', ...)]): digits with at most one dot and at
    least one digit, else [ValueError]. *)
Definition float_of_string (s : string) : result pyfloat :=
  let '(ip, ni, rest) := digits s 0 0%nat in
  match rest with
  | EmptyString =>
      match ni with
      | O => Raise ValueError
      | S _ => Ok (round_to_double ip 1)
      end
  | String "." rest' =>
      let '(fp, nf, rest'') := digits rest' ip 0%nat in
      match rest'' with
      | EmptyString =>
          match (ni + nf)%nat with
          | O => Raise ValueError
          | S _ => Ok (round_to_double fp (10 ^ Z.of_nat nf))
          end
      | String _ _ => Raise ValueError
      end
  | String _ _ => Raise ValueError
  end.

End Float.

(* ===================================================================== *)
(** ** [list.sort] and [sorted] with a key function *)
(* ===================================================================== *)

Module PySort.
Local Open Scope result_scope.

Section Sorting.
Context {A K : Type}.
(** [le k1 k2]: the key [k1] may come before the key [k2]. *)
Variable le : K -> K -> bool.

(** Insertion of an element that stood before all of [l] in the
    input: it goes before the first element it may precede, so equal
    keys keep their input order. *)
Fixpoint insert (x : K * A) (l : list (K * A)) : list (K * A) :=
  match l with
  | [] => [x]
  | y :: l' => if le (fst x) (fst y) then x :: y :: l' else y :: insert x l'
  end.

Fixpoint stable_sort (l : list (K * A)) : list (K * A) :=
  match l with
  | [] => []
  | x :: l' => insert x (stable_sort l')
  end.

(** The keys are computed once, front to back, before any element
    moves; the first key that raises aborts the sort. *)
Fixpoint decorate (key : A -> result K) (l : list A) : result (list (K * A)) :=
  match l with
  | [] => Ok []
  | x :: l' =>
      k <- key x ;;
      rest <- decorate key l' ;;
      Ok ((k, x) :: rest)
  end.
End Sorting.

(** [sorted(l, key=key, reverse=reverse)], also the new contents of [l]
    after [l.sort(key=key, reverse=reverse)]: a stable sort, descending
    when [reverse] is set (equal keys keep their input order in both
    directions).  When a key raises, [l.sort] leaves [l] as it was. *)
Definition py_sorted {A K} (leb : K -> K -> bool) (key : A -> result K)
  (reverse : bool) (l : list A) : result (list A) :=
  decorated <- decorate key l ;;
  Ok (map snd (stable_sort (if reverse then fun a b => leb b a else leb) decorated)).

End PySort.

(* ===================================================================== *)
(** ** Program state and the effect monad *)
(* ===================================================================== *)

(** A record sent to [logging], by level.  [LogError msg cause] is the
    record [f"{msg}: {e}"] of the [except] branches, with the exception
    itself in place of its text. *)
Inductive log_record : Type :=
| LogInfo (msg : string)
| LogWarning (msg : string)
| LogError (msg : string) (cause : exn).

(** A CSV file as the rows written to it, each a list of fields. *)
Definition csv : Type := list (list string).

(** [files]: the files written, each with its whole content, oldest
    first; [log]: the records sent to [logging], oldest first;
    [sessions]: browser sessions created and not yet quit. *)
Record state : Type := mk_state {
  files : list (string * csv);
  log : list log_record;
  sessions : nat
}.

Definition M (A : Type) : Type := state -> result A * state.

Definition ret {A} (a : A) : M A := fun st => (Ok a, st).

Definition bind {A B} (c : M A) (k : A -> M B) : M B :=
  fun st =>
    match c st with
    | (Ok a, st') => k a st'
    | (Raise e, st') => (Raise e, st')
    end.

Definition lift {A} (r : result A) : M A := fun st => (r, st).

Declare Scope M_scope.
Delimit Scope M_scope with M.
Notation "x <- c ;; k" := (bind c (fun x => k))
  (at level 61, c at next level, right associativity) : M_scope.
Notation "c ;; k" := (bind c (fun _ => k))
  (at level 61, right associativity) : M_scope.

(** [try: body  except Exception as e: handler(e)] *)
Definition try_except {A} (body : M A) (handler : exn -> M A) : M A :=
  fun st =>
    match body st with
    | (Ok a, st') => (Ok a, st')
    | (Raise e, st') => handler e st'
    end.

(** [try: body  finally: final] *)
Definition try_finally {A} (body : M A) (final : M unit) : M A :=
  fun st =>
    match body st with
    | (r, st') =>
        match final st' with
        | (Ok _, st'') => (r, st'')
        | (Raise e, st'') => (Raise e, st'')
        end
    end.

Definition logging (r : log_record) : M unit :=
  fun st => (Ok tt, mk_state (files st) (log st ++ [r]) (sessions st)).

Definition write_file (filename : string) (content : csv) : state -> state :=
  fun st => mk_state (files st ++ [(filename, content)]) (log st) (sessions st).

(* ===================================================================== *)
(** ** The sink: [save_to_csv] and [generate_sorted_versions] *)
(* ===================================================================== *)

Module Sink.
Import PyStr PySort.

(** [csv.DictWriter._dict_to_list] with the default [extrasaction] and
    [restval]: a key outside [fieldnames] is a [ValueError], a field
    the dict lacks is written as the empty string. *)
Definition dict_to_list (fieldnames : list string) (rowdict : permit) : result (list string) :=
  if forallb (fun k => existsb (String.eqb k) fieldnames) (dict_keys rowdict)
  then Ok (map (fun k => match dict_get rowdict k with
                         | Some v => v
                         | None => EmptyString
                         end) fieldnames)
  else Raise ValueError.

(** [writer.writerows(rowdicts)]: rows are converted and written one by
    one, so the rows before a failing one have been written. *)
Fixpoint writerows (fieldnames : list string) (rowdicts : list permit)
  : csv * option exn :=
  match rowdicts with
  | [] => ([], None)
  | r :: rs =>
      match dict_to_list fieldnames r with
      | Raise e => ([], Some e)
      | Ok row => let (rows, err) := writerows fieldnames rs in (row :: rows, err)
      end
  end.

(** The key of the sort in [save_to_csv]:
    [lambda x: datetime.strptime(x['issue_date'], "%m/%d/%Y")]. *)
Definition issue_date_key (x : permit) : result Date.datetime :=
  (d <- dict_getitem x "issue_date" ;; Date.strptime d)%result.

(** The entries of [sort_keys] in [generate_sorted_versions]. *)
Definition date_key (x : permit) : result Date.datetime :=
  (d <- dict_getitem x "issue_date" ;;
   match d with
   | String _ _ => d' <- dict_getitem x "issue_date" ;; Date.strptime d'
   | EmptyString => Ok Date.datetime_min
   end)%result.

(** [re.sub(r'[^\d.]', '', s)] *)
Definition digits_and_dots (s : string) : string :=
  PyStr.filter (fun c => is_digit c || Ascii.eqb c ".") s.

Definition valuation_key (x : permit) : result Float.pyfloat :=
  (v <- dict_getitem x "valuation" ;;
   match v with
   | String _ _ => v' <- dict_getitem x "valuation" ;; Float.float_of_string (digits_and_dots v')
   | EmptyString => Ok Float.zero
   end)%result.

Definition lower_key (field : string) (x : permit) : result string :=
  (v <- dict_getitem x field ;; Ok (lower v))%result.

(** One entry of [sort_keys] together with the [reverse] flag the loop
    computes for it, as the function from a list to its sorted copy. *)
Definition sort_keys : list (string * (list permit -> result (list permit))) :=
  [ ("date", py_sorted Date.leb date_key true);
    ("valuation", py_sorted Float.leb valuation_key true);
    ("address", py_sorted String.leb (lower_key "address") false);
    ("contractor", py_sorted String.leb (lower_key "contractor") false);
    ("work_type", py_sorted String.leb (lower_key "work_type") false) ].

Section WithConfig.
(** [self.csv_headers], read from the configuration file. *)
Variable csv_headers : list string.

Local Open Scope M_scope.

(** [with open(filename, 'w') as csvfile:] followed by
    [writeheader()] and [writerows(permits)]. *)
Definition write_csv (filename : string) (permits : list permit) : M unit :=
  fun st =>
    let (rows, err) := writerows csv_headers permits in
    let st' := write_file filename (csv_headers :: rows) st in
    match err with
    | None => (Ok tt, st')
    | Some e => (Raise e, st')
    end.

Definition sorted_filename (county_slug timestamp sort_name : string) : string :=
  ("data/" ++ county_slug ++ "_permits_" ++ timestamp ++ "_sorted_" ++ sort_name ++ ".csv")%string.

(** The loop [for sort_name, sort_func in sort_keys.items():]. *)
Fixpoint sorted_versions_loop (keys : list (string * (list permit -> result (list permit))))
  (permits : list permit) (county_slug timestamp : string) : M unit :=
  match keys with
  | [] => ret tt
  | (sort_name, sort) :: keys' =>
      sorted_permits <- lift (sort permits) ;;
      let filename := sorted_filename county_slug timestamp sort_name in
      write_csv filename sorted_permits ;;
      logging (LogInfo ("Saved sorted " ++ sort_name ++ " version to " ++ filename)) ;;
      sorted_versions_loop keys' permits county_slug timestamp
  end.

Definition generate_sorted_versions (permits : list permit) (county_slug timestamp : string)
  : M unit :=
  sorted_versions_loop sort_keys permits county_slug timestamp.

Definition base_filename (county_slug timestamp : string) : string :=
  ("data/" ++ county_slug ++ "_permits_" ++ timestamp ++ ".csv")%string.

(** [save_to_csv(permits, county_slug, generate_sorted)].  [now] is
    the value of [datetime.now().strftime("%Y%m%d_%H%M%S")] at the
    call.  The result is the content of the caller's list [permits]
    when the call returns: [permits.sort] works in place. *)
Definition save_to_csv (permits : list permit) (county_slug : string)
  (generate_sorted : bool) (now : string) : M (list permit) :=
  match permits with
  | [] => ret permits
  | _ :: _ =>
      let timestamp := now in
      let filename := base_filename county_slug timestamp in
      permits <- match py_sorted Date.leb issue_date_key true permits with
                 | Ok sorted => ret sorted
                 | Raise ValueError =>
                     logging (LogWarning ("Could not sort permits for " ++ county_slug
                                          ++ " by date")) ;;
                     ret permits
                 | Raise e => lift (Raise e)
                 end ;;
      write_csv filename permits ;;
      logging (LogInfo ("Saved " ++ of_nat (List.length permits) ++ " permits to "
                        ++ filename)) ;;
      (if generate_sorted
       then generate_sorted_versions permits county_slug timestamp
       else ret tt) ;;
      ret permits
  end.

End WithConfig.
End Sink.

(* ===================================================================== *)
(** ** The orchestrator: [scrape_*] and [run_all] *)
(* ===================================================================== *)

Module Scraper.
Import PyStr.

(** What the outside world does during one source's scrape:
    [launch] is the outcome of the statements of [get_driver] up to
    [webdriver.Chrome(...)] (a running browser, or the exception that
    kept it from starting), [override] the outcome of
    [driver.execute_cdp_cmd(...)] on the running browser, [page] the
    outcome of the navigation steps up to
    [BeautifulSoup(driver.page_source, ...)] (the parsed page, or the
    exception one of the steps raised), and [clock] the timestamp
    [save_to_csv] reads. *)
Record visit : Type := mk_visit {
  launch : result unit;
  override : result unit;
  page : result node;
  clock : string
}.

(** The outcome of [self.get_driver()]: the browser must start and
    accept the override. *)
Definition driver (w : visit) : result unit :=
  rbind (launch w) (fun _ => override w).

Record world : Type := mk_world {
  bexar : visit;
  hamilton : visit;
  davidson : visit;
  travis : visit
}.

Section WithConfig.
Variable csv_headers : list string.
Local Open Scope M_scope.

(** [driver = webdriver.Chrome(service=service, options=chrome_options)] *)
Definition start_browser (w : visit) : M unit :=
  fun st =>
    match launch w with
    | Ok _ => (Ok tt, mk_state (files st) (log st) (S (sessions st)))
    | Raise e => (Raise e, st)
    end.

(** [self.get_driver()]: when [execute_cdp_cmd] raises, the browser
    that was started stays open, [get_driver] has no handler. *)
Definition get_driver (w : visit) : M unit :=
  start_browser w ;;
  lift (override w).

(** [driver.quit()] *)
Definition quit : M unit :=
  fun st => (Ok tt, mk_state (files st) (log st) (pred (sessions st))).

(** The common shape of the four [scrape_*] methods; they differ in
    the county name, the slug and the extractor.  Each calls
    [self.save_to_csv(permits, slug)], leaving [generate_sorted] at its
    default [False]. *)
Definition scrape (county_name county_slug : string)
  (parse : node -> result (list permit)) (w : visit) : M unit :=
  get_driver w ;;
  try_finally
    (try_except
       (logging (LogInfo ("Starting " ++ county_name ++ " scrape")) ;;
        soup <- lift (page w) ;;
        permits <- lift (parse soup) ;;
        permits <- Sink.save_to_csv csv_headers permits county_slug false (clock w) ;;
        logging (LogInfo ("Scraped " ++ of_nat (List.length permits) ++ " permits from "
                          ++ county_name)))
       (fun e => logging (LogError ("Error scraping " ++ county_name) e)))
    quit.

Definition scrape_bexar : visit -> M unit :=
  scrape "Bexar County" "bexar" Extract.parse_accela_results.
Definition scrape_hamilton : visit -> M unit :=
  scrape "Hamilton County" "hamilton" Extract.parse_accela_results.
Definition scrape_davidson : visit -> M unit :=
  scrape "Davidson County" "davidson" Extract.parse_nashville_results.
Definition scrape_travis : visit -> M unit :=
  scrape "Travis County" "travis" Extract.parse_accela_results.

(** [run_all(generate_sorted)]: the argument is not used in the body. *)
Definition run_all (generate_sorted : bool) (w : world) : M unit :=
  logging (LogInfo "Starting full scrape cycle") ;;
  scrape_bexar (bexar w) ;;
  scrape_hamilton (hamilton w) ;;
  scrape_davidson (davidson w) ;;
  scrape_travis (travis w) ;;
  logging (LogInfo "Completed full scrape cycle").

(** [main()] with the parsed [--sort] flag. *)
Definition main (sort_flag : bool) (w : world) : M unit :=
  run_all sort_flag w.

End WithConfig.
End Scraper.

(* ===================================================================== *)
(** * Specification vocabulary *)
(* ===================================================================== *)

(** ** Whitespace and trimmed text *)

Module Whitespace.

(** The code points that count as whitespace: TAB, LF, VT, FF, CR, the
    four separators FS GS RS US, the space, NEL and the no-break
    space. *)
Definition codes : list nat := [9; 10; 11; 12; 13; 28; 29; 30; 31; 32; 133; 160].

Definition white (c : ascii) : bool := existsb (Nat.eqb (nat_of_ascii c)) codes.

Definition starts_white (s : string) : bool :=
  match s with
  | EmptyString => false
  | String c _ => white c
  end.

Fixpoint ends_white (s : string) : bool :=
  match s with
  | EmptyString => false
  | String c EmptyString => white c
  | String _ s' => ends_white s'
  end.

(** Neither the first nor the last character is whitespace. *)
Definition trimmed (s : string) : bool := negb (starts_white s) && negb (ends_white s).

Fixpoint all_white (s : string) : bool :=
  match s with
  | EmptyString => true
  | String c s' => white c && all_white s'
  end.

Fixpoint trim_left (s : string) : string :=
  match s with
  | EmptyString => EmptyString
  | String c s' => if white c then trim_left s' else s
  end.

Fixpoint trim_right (s : string) : string :=
  match s with
  | EmptyString => EmptyString
  | String c s' => if all_white s then EmptyString else String c (trim_right s')
  end.

(** [s] without its leading and trailing whitespace. *)
Definition trim (s : string) : string := trim_right (trim_left s).

End Whitespace.

(** ** What one loop iteration of each extractor appends *)

Module ExtractSpec.
Import PyStr Extract.

(** The text the extractors read from cell [i]: stripped cell text. *)
Definition cell_text (cols : list node) (i : nat) : string :=
  match nth_error cols i with
  | Some td => strip (get_text td)
  | None => EmptyString
  end.

Definition line_text (lines : list string) (i : nat) : string :=
  match nth_error lines i with
  | Some l => strip l
  | None => EmptyString
  end.

(** The rows [parse_accela_results] keeps have six cells or more. *)
Definition accela_row_permits (row : node) : list permit :=
  let cols := find_all "td" row in
  if 6 <=? List.length cols
  then [mk_permit (cell_text cols 0) (cell_text cols 1) (cell_text cols 2)
                  (cell_text cols 3) (cell_text cols 4) (cell_text cols 5)]
  else [].

(** The rows the table pass of [parse_nashville_results] keeps have
    four cells or more; cells 4 and 5 default to the empty string. *)
Definition nashville_row_permits (row : node) : list permit :=
  let cols := find_all "td" row in
  if 4 <=? List.length cols
  then [mk_permit (cell_text cols 0) (cell_text cols 1) (cell_text cols 2)
                  (cell_text cols 3) (cell_text cols 4) (cell_text cols 5)]
  else [].

(** The cards the fallback keeps have three lines or more. *)
Definition nashville_card_permits (elem : node) : list permit :=
  let lines := split "010"%char (get_text elem) in
  if 3 <=? List.length lines
  then [mk_permit (line_text lines 0) (line_text lines 1) (line_text lines 2)
                  "Unknown" "" ""]
  else [].

Definition csv_line_permits (ln : string) : list permit :=
  match strip ln with
  | EmptyString => []
  | String _ _ =>
      let parts := split ","%char ln in
      if 6 <=? List.length parts
      then [mk_permit (line_text parts 0) (line_text parts 1) (line_text parts 2)
                      (line_text parts 3) (line_text parts 4) (line_text parts 5)]
      else []
  end.

Definition nashville_table_permits (soup : node) : list permit :=
  match find "table" soup with
  | Some table => flat_map nashville_row_permits (tl (find_all "tr" table))
  | None => []
  end.

End ExtractSpec.

(** ** Records as the extractors build them *)

(** [r] is emitted by one of the three extractors on some input. *)
Definition extracted (r : permit) : Prop :=
  (exists soup ps, Extract.parse_accela_results soup = Ok ps /\ In r ps) \/
  (exists soup ps, Extract.parse_nashville_results soup = Ok ps /\ In r ps) \/
  (exists content ps, Extract.parse_csv_permits content = Ok ps /\ In r ps).

(** The six keys of the dict literal, and values without leading or
    trailing whitespace. *)
Definition six_stripped_fields (r : permit) : Prop :=
  dict_keys r = field_names /\
  Forall (fun v => Whitespace.trimmed v = true) (dict_values r).

(** ** Sample pages *)

Module Pages.

Definition td (text : string) : node := Tag "td" [] [NavigableString text].
Definition th (text : string) : node := Tag "th" [] [NavigableString text].
Definition tr (cells : list node) : node := Tag "tr" [] cells.
Definition table (rows : list node) : node := Tag "table" [] rows.
Definition document (body : list node) : node := Tag "[document]" [] body.

Definition newline : string := String "010"%char EmptyString.

Definition header_row : node :=
  tr [th "Permit"; th "Issued"; th "Address"; th "Work"; th "Contractor"; th "Value"].

(** No markup at all. *)
Definition empty_page : node := document [].

(** A results grid whose only data row has the four required cells. *)
Definition four_column_page : node :=
  document [table [header_row; tr [td "P1"; td "01/05/2024"; td "1 Main St"; td "Roof"]]].

(** The two-row grid of the end-to-end scenario. *)
Definition two_row_page : node :=
  document
    [table [header_row;
            tr [td "P1"; td "01/05/2024"; td "1 Main St"; td "Roof"; td "ACME"; td "$10,000"];
            tr [td "P2"; td "01/07/2024"; td "2 Oak Ave"; td "Addition"; td ""; td ""]]].

(** A grid whose cells are padded the way portals pad them: with
    no-break spaces (what [&nbsp;] parses to), tabs and line breaks;
    the contractor cell holds a no-break space only. *)
Definition nbsp : string := String "160"%char EmptyString.

Definition padded_page : node :=
  document
    [table [header_row;
            tr [td (newline ++ "  P1  " ++ newline); td (nbsp ++ "01/05/2024");
                td ("1 Main St" ++ nbsp); td "Roof"; td nbsp;
                td (nbsp ++ "$10,000" ++ nbsp ++ " ")]]]%string.

(** A page that has a table (only its header row) and one result card. *)
Definition table_and_card_page : node :=
  document
    [table [header_row];
     Tag "div" ["permit-card"]
       [NavigableString ("P9" ++ newline ++ "01/02/2024" ++ newline ++ " 9 Elm St ")%string]].

End Pages.

(** ** The content of a written CSV *)

(** The row [DictWriter] writes for [r]: one column per header, in the
    order of the headers, holding the record's value for that header. *)
Definition row_of (csv_headers : list string) (r : permit) : list string :=
  map (fun k => match dict_get r k with
                | Some v => v
                | None => EmptyString
                end) csv_headers.

(** The header row followed by one row per record, in list order. *)
Definition csv_of (csv_headers : list string) (records : list permit) : csv :=
  csv_headers :: map (row_of csv_headers) records.

(** A file holding exactly the records of [permits], in some order. *)
Definition written_from (csv_headers : list string) (permits : list permit)
  (f : string * csv) : Prop :=
  exists l, Permutation permits l /\ snd f = csv_of csv_headers l.

(** ** Effects of a computation on the state *)

(** [st'] comes from [st] by writing files and logging only. *)
Definition extends (st st' : state) : Prop :=
  sessions st' = sessions st /\
  (exists l, log st' = log st ++ l) /\
  (exists f, files st' = files st ++ f).

Definition preserves {A} (c : M A) : Prop := forall st, extends st (snd (c st)).

(** [issue_date] is present and [strptime] rejects it. *)
Definition date_unparseable (r : permit) : Prop :=
  exists d, dict_get r "issue_date" = Some d /\ Date.strptime d = Raise ValueError.

(** [issue_date] is present and [strptime] reads it as [t]. *)
Definition date_parses (r : permit) : Prop :=
  exists d t, dict_get r "issue_date" = Some d /\ Date.strptime d = Ok t.

(** [a] is not older than [b]: the order of the primary file. *)
Definition not_older (a b : permit) : Prop :=
  exists ta tb, Sink.issue_date_key a = Ok ta /\ Sink.issue_date_key b = Ok tb /\
                Date.leb tb ta = true.

(** ** Calendar dates written as month/day/year *)

Module DateText.
Import Date.

Definition numeral (k : nat) : ascii :=
  nth k ["0"; "1"; "2"; "3"; "4"; "5"; "6"; "7"; "8"; "9"]%char "0"%char.

Definition one (n : nat) : string := String (numeral n) EmptyString.

Definition two (n : nat) : string :=
  String (numeral (n / 10)) (String (numeral (n mod 10)) EmptyString).

Definition four (y : nat) : string :=
  String (numeral (y / 1000))
    (String (numeral (y / 100 mod 10))
       (String (numeral (y / 10 mod 10)) (String (numeral (y mod 10)) EmptyString))).

(** A month is written with two digits, or with one when it is below
    ten; so is a day, which may also be one digit after a space. *)
Definition month_texts (m : nat) : list string :=
  two m :: (if m <? 10 then [one m] else []).

Definition day_texts (d : nat) : list string :=
  two d :: (if d <? 10 then [one d; String " " (one d)] else []).

Definition leap (y : nat) : bool :=
  if y mod 400 =? 0 then true
  else if y mod 100 =? 0 then false
  else y mod 4 =? 0.

Definition month_lengths (y : nat) : list nat :=
  [31; if leap y then 29 else 28; 31; 30; 31; 30; 31; 31; 30; 31; 30; 31].

(** A day of the calendar, years 1 to 9999. *)
Definition calendar (d : datetime) : Prop :=
  1 <= year d <= 9999 /\ 1 <= month d /\
  exists n, nth_error (month_lengths (year d)) (month d - 1) = Some n /\ 1 <= day d <= n.

(** [s] is a way of writing the day [d] as month/day/year, the year
    with four digits. *)
Definition writes (d : datetime) (s : string) : Prop :=
  calendar d /\
  exists mt dt, In mt (month_texts (month d)) /\ In dt (day_texts (day d)) /\
                s = (mt ++ "/" ++ dt ++ "/" ++ four (year d))%string.

(** [a] is the same day as [b] or an earlier day. *)
Definition on_or_before (a b : datetime) : Prop :=
  year a < year b \/
  (year a = year b /\ (month a < month b \/ (month a = month b /\ day a <= day b))).

End DateText.

(** The record's issue_date is a way of writing the day [d]. *)
Definition issued (r : permit) (d : Date.datetime) : Prop :=
  exists s, dict_get r "issue_date" = Some s /\ DateText.writes d s.

(** [a] was not issued before [b], by the calendar. *)
Definition newest_first (a b : permit) : Prop :=
  forall da db, issued a da -> issued b db -> DateText.on_or_before db da.

(** ** The two halves of [save_to_csv] *)

Module SinkSpec.
Import PyStr Sink.
Local Open Scope M_scope.

(** The [try: permits.sort(...) except ValueError: ...] statement: the
    content of [permits] after it. *)
Definition sort_step (permits : list permit) (county_slug : string) : M (list permit) :=
  match PySort.py_sorted Date.leb issue_date_key true permits with
  | Ok sorted => ret sorted
  | Raise ValueError =>
      logging (LogWarning ("Could not sort permits for " ++ county_slug ++ " by date")) ;;
      ret permits
  | Raise e => lift (Raise e)
  end.

(** The statements of [save_to_csv] after the sort. *)
Definition write_step (csv_headers : list string) (county_slug : string)
  (generate_sorted : bool) (timestamp : string) (permits : list permit) : M (list permit) :=
  write_csv csv_headers (base_filename county_slug timestamp) permits ;;
  logging (LogInfo ("Saved " ++ of_nat (List.length permits) ++ " permits to "
                    ++ base_filename county_slug timestamp)) ;;
  (if generate_sorted
   then generate_sorted_versions csv_headers permits county_slug timestamp
   else ret tt) ;;
  ret permits.

(** The two records [save_to_csv] logs around the primary write. *)
Definition sort_warning (county_slug : string) : log_record :=
  LogWarning ("Could not sort permits for " ++ county_slug ++ " by date").

Definition saved_info (county_slug timestamp : string) (n : nat) : log_record :=
  LogInfo ("Saved " ++ of_nat n ++ " permits to " ++ base_filename county_slug timestamp).

End SinkSpec.

(** [issue_date] is present, not empty, and [strptime] rejects it. *)
Definition date_malformed (r : permit) : Prop :=
  exists d, dict_get r "issue_date" = Some d /\ d <> EmptyString /\
            Date.strptime d = Raise ValueError.

(** A record with the six keys of the extractors' dict literal. *)
Definition permit_record (r : permit) : Prop := dict_keys r = field_names.

(** A record has the field the date sorts read. *)
Definition dated (r : permit) : Prop := dict_get r "issue_date" <> None.

(** A record the sink can take: it has an issue_date, and each of its
    keys is a column of the header list ([DictWriter] refuses a row
    with any other key).  The records the extractors build are such
    whenever the header list names their six fields. *)
Definition sinkable (csv_headers : list string) (r : permit) : Prop :=
  dated r /\ incl (dict_keys r) csv_headers.

(** ** Sample records *)

Module Records.

Definition roof : permit :=
  mk_permit "P1" "01/05/2024" "1 Main St" "Roof" "ACME" "$10,000".
Definition addition : permit :=
  mk_permit "P2" "01/07/2024" "2 Oak Ave" "Addition" "" "".
(** A date in another format. *)
Definition iso_dated : permit :=
  mk_permit "P3" "2024-01-06" "3 Elm Rd" "Deck" "" "".

Definition initial : state := mk_state [] [] 0.

End Records.

(** ** Valuations *)


Module Valuations.



End Valuations.

(** The record a [scrape_*] method logs when its [try] body completes. *)
Definition scraped (county_name : string) (n : nat) : log_record :=
  LogInfo ("Scraped " ++ PyStr.of_nat n ++ " permits from " ++ county_name).

(** ** One source's guarded attempt, and sample worlds *)

Module ScraperSpec.
Import PyStr Scraper.
Local Open Scope M_scope.

Definition starting (county_name : string) : log_record :=
  LogInfo ("Starting " ++ county_name ++ " scrape").

Definition failed (county_name : string) (e : exn) : log_record :=
  LogError ("Error scraping " ++ county_name) e.

(** The state in which the [try] body of a source goes on after its
    first statement: the session is open and "Starting" is logged. *)
Definition started (county_name : string) (s : state) : state :=
  mk_state (files s) (log s ++ [starting county_name]) (S (sessions s)).

(** What the [except] and [finally] clauses make of the state [s] in
    which the body raised [e]: the error is logged, the session quit. *)
Definition caught (county_name : string) (e : exn) (s : state) : state :=
  mk_state (files s) (log s ++ [failed county_name e]) (pred (sessions s)).

(** What is left when the body completed with [n] records in state
    [s]: "Scraped" is logged, the session quit. *)
Definition completed (county_name : string) (n : nat) (s : state) : state :=
  mk_state (files s) (log s ++ [scraped county_name n]) (pred (sessions s)).

(** The state after a [get_driver] that raised: a browser that had
    started is still there, nothing quits it. *)
Definition stranded (w : visit) (s : state) : state :=
  match launch w with
  | Ok _ => mk_state (files s) (log s) (S (sessions s))
  | Raise _ => s
  end.

(** The states after the first and the last statement of [run_all]. *)
Definition opened (s : state) : state :=
  mk_state (files s) (log s ++ [LogInfo "Starting full scrape cycle"]) (sessions s).

Definition closed (s : state) : state :=
  mk_state (files s) (log s ++ [LogInfo "Completed full scrape cycle"]) (sessions s).

(** The body of the [try] of a [scrape_*] method, after its first
    statement (the "Starting" record). *)
Definition pipeline (csv_headers : list string) (county_name county_slug : string)
  (parse : node -> result (list permit)) (w : visit) : M unit :=
  soup <- lift (page w) ;;
  permits <- lift (parse soup) ;;
  permits <- Sink.save_to_csv csv_headers permits county_slug false (clock w) ;;
  logging (LogInfo ("Scraped " ++ of_nat (List.length permits) ++ " permits from "
                    ++ county_name)).

(** The [try ... except Exception] of a [scrape_*] method. *)
Definition attempt (csv_headers : list string) (county_name county_slug : string)
  (parse : node -> result (list permit)) (w : visit) : M unit :=
  try_except
    (logging (starting county_name) ;;
     pipeline csv_headers county_name county_slug parse w)
    (fun e => logging (failed county_name e)).

(** Every browser session of the run starts. *)
Definition sessions_start (w : world) : Prop :=
  driver (bexar w) = Ok tt /\ driver (hamilton w) = Ok tt /\
  driver (davidson w) = Ok tt /\ driver (travis w) = Ok tt.

(** A source whose page shows the two-row grid. *)
Definition grid_visit : visit :=
  mk_visit (Ok tt) (Ok tt) (Ok Pages.two_row_page) "20240108_060000".

(** A source whose navigation times out. *)
Definition timeout_visit : visit :=
  mk_visit (Ok tt) (Ok tt) (Raise DriverError) "20240108_060000".

(** A source for which the browser does not start. *)
Definition no_browser_visit : visit :=
  mk_visit (Raise DriverError) (Ok tt) (Ok Pages.two_row_page) "20240108_060000".

(** A source whose browser starts and then refuses the override. *)
Definition refused_visit : visit :=
  mk_visit (Ok tt) (Raise DriverError) (Ok Pages.two_row_page) "20240108_060000".

Definition all_grids : world := mk_world grid_visit grid_visit grid_visit grid_visit.

Definition hamilton_times_out : world :=
  mk_world grid_visit timeout_visit grid_visit grid_visit.

Definition hamilton_has_no_browser : world :=
  mk_world grid_visit no_browser_visit grid_visit grid_visit.

Definition hamilton_refuses_override : world :=
  mk_world grid_visit refused_visit grid_visit grid_visit.

End ScraperSpec.

(* ===================================================================== *)
(** * Further vocabulary: tables, orders, date windows *)
(* ===================================================================== *)

(** ** Plain result grids *)

Module Grid.
Import Whitespace.

(** A data row whose cells hold text only. *)
Definition data_row (cells : list string) : node := Pages.tr (map Pages.td cells).

(** A heading row of [th] cells. *)
Definition heading (titles : list string) : node := Pages.tr (map Pages.th titles).

(** A table with a heading row and one [tr] per entry of [rows]. *)
Definition grid (titles : list string) (rows : list (list string)) : node :=
  Pages.table (heading titles :: map data_row rows).

(** A page in which the grid is the first table: nothing in [before]
    is a table; [after] is arbitrary. *)
Definition page (before : list node) (titles : list string) (rows : list (list string))
  (after : list node) : node :=
  Pages.document (before ++ grid titles rows :: after).

(** The record read off the first six cells of a row, absent cells
    reading as the empty string. *)
Definition record_of (cells : list string) : permit :=
  mk_permit (trim (nth 0 cells "")) (trim (nth 1 cells "")) (trim (nth 2 cells ""))
            (trim (nth 3 cells "")) (trim (nth 4 cells "")) (trim (nth 5 cells "")).

Definition at_least (n : nat) (cells : list string) : bool := n <=? List.length cells.

End Grid.

(** ** Raw CSV text *)

Module CsvText.
Import PyStr.

(** [c] occurs in [s]. *)
Fixpoint has_char (c : ascii) (s : string) : bool :=
  match s with
  | EmptyString => false
  | String c' s' => Ascii.eqb c' c || has_char c s'
  end.

Definition comma : ascii := ","%char.
Definition newline : ascii := "010"%char.

(** One line of comma-separated fields. *)
Definition csv_line_of (fields : list string) : string := join "," fields.

(** The header line and one line per row, joined by line feeds. *)
Definition csv_text (header : string) (rows : list (list string)) : string :=
  join (String newline EmptyString) (header :: map csv_line_of rows).

(** A field that the naive split leaves whole. *)
Definition plain_field (f : string) : Prop :=
  has_char comma f = false /\ has_char newline f = false.

End CsvText.

(** ** Orders of the sorted variants *)

(** [a] may stand before [b] in a list sorted by [key]: ascending, or
    descending when [reverse] is set. *)
Definition in_order {K} (leb : K -> K -> bool) (key : permit -> result K) (reverse : bool)
  (a b : permit) : Prop :=
  exists ka kb, key a = Ok ka /\ key b = Ok kb /\
                (if reverse then leb kb ka else leb ka kb) = true.

(** Every sort key of [generate_sorted_versions] can be computed. *)
Definition sortable (r : permit) : Prop :=
  (exists k, Sink.date_key r = Ok k) /\
  (exists k, Sink.valuation_key r = Ok k) /\
  (exists k, Sink.lower_key "address" r = Ok k) /\
  (exists k, Sink.lower_key "contractor" r = Ok k) /\
  (exists k, Sink.lower_key "work_type" r = Ok k).

Definition date_eqb (a b : Date.datetime) : bool :=
  (Date.year a =? Date.year b) && (Date.month a =? Date.month b) &&
  (Date.day a =? Date.day b).

(** The records of [l] issued on [t], in list order. *)
Definition issued_on (t : Date.datetime) (l : list permit) : list permit :=
  List.filter (fun x => match Sink.issue_date_key x with
                        | Ok k => date_eqb t k
                        | Raise _ => false
                        end) l.

(** *** The orders of the variants, by the calendar, the amount and
    the text *)

(** The day a record counts as issued on in the date variant: the day
    its issue_date writes, or the first day of the calendar when its
    issue_date is empty. *)
Definition ranked (r : permit) (d : Date.datetime) : Prop :=
  issued r d \/ (dict_get r "issue_date" = Some EmptyString /\ d = Date.mk_datetime 1 1 1).

Definition newest_first_blank_last (a b : permit) : Prop :=
  forall da db, ranked a da -> ranked b db -> DateText.on_or_before db da.

Module Amount.
Local Open Scope Z_scope.

(** The place of [c] in [s], counted from 0. *)
Fixpoint position (c : ascii) (s : string) : option nat :=
  match s with
  | EmptyString => None
  | String c' s' => if Ascii.eqb c c' then Some O else option_map S (position c s')
  end.

(** The value of a digit is its place among the ten digits. *)
Definition digit_value (c : ascii) : option Z :=
  option_map Z.of_nat (position c "0123456789").

(** The number the digits of [s] write, read from the left, whatever
    stands between them. *)
Fixpoint read (acc : Z) (s : string) : Z :=
  match s with
  | EmptyString => acc
  | String c s' =>
      match digit_value c with
      | Some d => read (10 * acc + d) s'
      | None => read acc s'
      end
  end.

Fixpoint has_digit (s : string) : bool :=
  match s with
  | EmptyString => false
  | String c s' =>
      match digit_value c with
      | Some _ => true
      | None => has_digit s'
      end
  end.

Fixpoint has_dot (s : string) : bool :=
  match s with
  | EmptyString => false
  | String c s' => Ascii.eqb c "." || has_dot s'
  end.

(** [v] writes the whole amount [n]: digits with any currency sign and
    separators but no dot, below [2 ^ 53] (from where on a float no
    longer holds every whole number); the empty text stands for 0. *)
Definition whole (v : string) (n : Z) : Prop :=
  (v = EmptyString /\ n = 0) \/
  (has_digit v = true /\ has_dot v = false /\ n = read 0 v /\ n < 2 ^ 53).

End Amount.

Definition valued (r : permit) (n : Z) : Prop :=
  exists v, dict_get r "valuation" = Some v /\ Amount.whole v n.

Definition highest_first (a b : permit) : Prop :=
  forall na nb, valued a na -> valued b nb -> (nb <= na)%Z.

Module Caseless.

(** The code points of the capital letters: A..Z, and the Latin-1
    capitals from U+00C0 to U+00DE but for the multiplication sign. *)
Definition capitals : list nat := seq 65 26 ++ seq 192 23 ++ seq 216 7.

Definition fold_char (c : ascii) : ascii :=
  if existsb (Nat.eqb (nat_of_ascii c)) capitals
  then ascii_of_nat (nat_of_ascii c + 32)
  else c.

Fixpoint fold (s : string) : string :=
  match s with
  | EmptyString => EmptyString
  | String c s' => String (fold_char c) (fold s')
  end.

(** [x] does not come after [y] when capitals count as small letters. *)
Definition le (x y : string) : Prop := String.leb (fold x) (fold y) = true.

End Caseless.

Definition by_text (field : string) (a b : permit) : Prop :=
  forall x y, dict_get a field = Some x -> dict_get b field = Some y -> Caseless.le x y.

(** A record without the field the date sorts read. *)
Definition undated (r : permit) : Prop := dict_get r "issue_date" = None.

(** The names of the files one call of [save_to_csv] can write. *)
Definition output_names (county_slug timestamp : string) : list string :=
  Sink.base_filename county_slug timestamp ::
  map (fun k => Sink.sorted_filename county_slug timestamp (fst k)) Sink.sort_keys.

(** The primary file names of the four sources of one run. *)
Definition primary_names (w : Scraper.world) : list string :=
  [ Sink.base_filename "bexar" (Scraper.clock (Scraper.bexar w));
    Sink.base_filename "hamilton" (Scraper.clock (Scraper.hamilton w));
    Sink.base_filename "davidson" (Scraper.clock (Scraper.davidson w));
    Sink.base_filename "travis" (Scraper.clock (Scraper.travis w)) ].

(** The record [generate_sorted_versions] logs after writing a variant. *)
Definition sorted_info (county_slug timestamp sort_name : string) : log_record :=
  LogInfo ("Saved sorted " ++ sort_name ++ " version to "
           ++ Sink.sorted_filename county_slug timestamp sort_name).

(** The variant file of one sort key with [records] as its rows. *)
Definition variant (csv_headers : list string) (county_slug timestamp sort_name : string)
  (records : list permit) : string * csv :=
  (Sink.sorted_filename county_slug timestamp sort_name, csv_of csv_headers records).

(** ** The orchestrator's sources *)

(** The sources of [run_all], in the order it visits them, each with
    its slug. *)
Definition visits (w : Scraper.world) : list (string * Scraper.visit) :=
  [ ("bexar", Scraper.bexar w); ("hamilton", Scraper.hamilton w);
    ("davidson", Scraper.davidson w); ("travis", Scraper.travis w) ].

Definition primary_name (sv : string * Scraper.visit) : string :=
  Sink.base_filename (fst sv) (Scraper.clock (snd sv)).

(** The browsers a failed [get_driver] leaves running: the one that
    had started, if the failure came after the start. *)
Definition left_open (v : Scraper.visit) : nat :=
  match Scraper.launch v with
  | Ok _ => 1
  | Raise _ => 0
  end.

(** A computation that only adds files, at most one for each of
    [names] and under no other name. *)
Definition writes_within {A} (names : list string) (c : M A) : Prop :=
  forall st, exists new,
    files (snd (c st)) = files st ++ new /\
    incl (map fst new) names /\
    List.length new <= List.length names.

(** ** The search window of [scrape_davidson] *)

Module DateWindow.
Import Date.

Definition digit (k : nat) : ascii := ascii_of_nat (48 + k).

Definition two_digits (n : nat) : string :=
  String (digit (n / 10)) (String (digit (n mod 10)) EmptyString).

Definition four_digits (y : nat) : string :=
  String (digit (y / 1000))
    (String (digit (y / 100 mod 10))
       (String (digit (y / 10 mod 10)) (String (digit (y mod 10)) EmptyString))).

(** [d.strftime('%m/%d/%Y')] for a year of four digits: month and day
    zero-padded to two digits. *)
Definition strftime (d : datetime) : string :=
  (two_digits (month d) ++ "/" ++ two_digits (day d) ++ "/" ++ four_digits (year d))%string.

(** The dates a [datetime] can hold. *)
Definition valid (d : datetime) : bool :=
  (1 <=? year d) && (1 <=? month d) && (month d <=? 12) &&
  (1 <=? day d) && (day d <=? days_in_month (year d) (month d)).

(** [d - timedelta(days=1)]; there is no day before 01/01/0001. *)
Definition prev_day (d : datetime) : option datetime :=
  if 1 <? day d then Some (mk_datetime (year d) (month d) (day d - 1))
  else if 1 <? month d
       then Some (mk_datetime (year d) (month d - 1) (days_in_month (year d) (month d - 1)))
       else if 1 <? year d then Some (mk_datetime (year d - 1) 12 31)
            else None.

(** [d - timedelta(days=n)] *)
Fixpoint minus_days (n : nat) (d : datetime) : option datetime :=
  match n with
  | O => Some d
  | S n' =>
      match prev_day d with
      | Some d' => minus_days n' d'
      | None => None
      end
  end.

(** [date.toordinal]: the number of the day, 01/01/0001 being day 1. *)
Definition days_before_year (y : nat) : nat :=
  let y' := y - 1 in y' * 365 + y' / 4 - y' / 100 + y' / 400.

Fixpoint days_before_month (y m : nat) : nat :=
  match m with
  | O => 0
  | S m' =>
      match m' with
      | O => 0
      | S _ => days_before_month y m' + days_in_month y m'
      end
  end.

Definition toordinal (d : datetime) : nat :=
  days_before_year (year d) + days_before_month (year d) (month d) + day d.

(** The two strings [scrape_davidson] assigns to [issuedDateFrom] and
    [issuedDateTo] when [datetime.now()] falls on [today]:
    [week_ago = today - timedelta(days=7)], both formatted with
    ['%m/%d/%Y']. *)
Definition date_window (today : datetime) : option (string * string) :=
  match minus_days 7 today with
  | Some week_ago => Some (strftime week_ago, strftime today)
  | None => None
  end.

End DateWindow.

(** ** The stand-in scrapers of [scrape/bexar.py], [scrape/hamilton.py]
    and [scrape/austin_travis.py] *)

Module Mock.

(** The values of the stand-in records: text, or a whole number for
    [estimated_value]. *)
Inductive pyvalue : Type :=
| VStr (s : string)
| VInt (n : nat).

(** [str(v)], as the CSV writer renders a field. *)
Definition str (v : pyvalue) : string :=
  match v with
  | VStr s => s
  | VInt n => PyStr.of_nat n
  end.

Definition record : Type := list (string * pyvalue).

Definition fieldnames : list string :=
  ["county"; "permit_number"; "address"; "permit_type"; "estimated_value";
   "work_description"; "date"].

Fixpoint get (d : record) (k : string) : option pyvalue :=
  match d with
  | [] => None
  | (k', v) :: d' => if String.eqb k' k then Some v else get d' k
  end.

(** [d[k] = v]: an existing key keeps its place, a new one goes last. *)
Fixpoint setitem (d : record) (k : string) (v : pyvalue) : record :=
  match d with
  | [] => [(k, v)]
  | (k', v') :: d' =>
      if String.eqb k' k then (k', v) :: d' else (k', v') :: setitem d' k v
  end.

(** [csv.DictWriter._dict_to_list] on these records. *)
Definition dict_to_list (rowdict : record) : result (list string) :=
  if forallb (fun k => existsb (String.eqb k) fieldnames) (map fst rowdict)
  then Ok (map (fun k => match get rowdict k with
                         | Some v => str v
                         | None => EmptyString
                         end) fieldnames)
  else Raise ValueError.

Definition mk_record (county permit_number address permit_type : string)
  (estimated_value : nat) (work_description : string) : record :=
  [ ("county", VStr county); ("permit_number", VStr permit_number);
    ("address", VStr address); ("permit_type", VStr permit_type);
    ("estimated_value", VInt estimated_value);
    ("work_description", VStr work_description) ].

Definition bexar_permits : list record :=
  [ mk_record "Bexar" "BEX-001" "456 Main St, San Antonio, TX" "Residential Addition"
      75000 "Adding a master bathroom to existing home";
    mk_record "Bexar" "BEX-002" "789 Oak Ave, San Antonio, TX" "Commercial Renovation"
      200000 "Restaurant kitchen remodel" ].

Definition hamilton_permits : list record :=
  [ mk_record "Hamilton" "HAM-001" "321 Signal Mountain Rd, Chattanooga, TN"
      "Residential New Construction" 350000 "New single-family home construction";
    mk_record "Hamilton" "HAM-002" "654 Market St, Chattanooga, TN" "Commercial Addition"
      125000 "Retail store expansion" ].

Definition austin_travis_permits : list record :=
  [ mk_record "Austin-Travis" "ATX-001" "987 Congress Ave, Austin, TX"
      "Commercial Renovation" 500000 "Downtown office building renovation";
    mk_record "Austin-Travis" "ATX-002" "147 Rainey St, Austin, TX"
      "Multi-Family Construction" 800000 "New apartment complex construction" ].

(** The text [csv.writer] makes of one row with the default dialect:
    a field that holds a comma, a quote, a carriage return or a line
    feed goes between quotes with its quotes doubled, the fields are
    joined by commas, and the line ends with CR LF.  (A row that is
    one empty field is written as two quotes.) *)
Definition quotechar : ascii := "034"%char.

Definition special (c : ascii) : bool :=
  Ascii.eqb c "," || Ascii.eqb c quotechar || Ascii.eqb c "013" || Ascii.eqb c "010".

Fixpoint needs_quotes (f : string) : bool :=
  match f with
  | EmptyString => false
  | String c f' => special c || needs_quotes f'
  end.

Fixpoint doubled (f : string) : string :=
  match f with
  | EmptyString => EmptyString
  | String c f' =>
      if Ascii.eqb c quotechar then String c (String c (doubled f'))
      else String c (doubled f')
  end.

Definition field_text (f : string) : string :=
  if needs_quotes f
  then String quotechar (doubled f ++ String quotechar EmptyString)
  else f.

Definition lineterminator : string := String "013" (String "010" EmptyString).

Definition line_of (row : list string) : string :=
  (match row with
   | [EmptyString] => String quotechar (String quotechar EmptyString)
   | _ => PyStr.join "," (map field_text row)
   end ++ lineterminator)%string.

(** The loop [for permit in permits:]: each record gets the date read
    from the clock at its turn and is written as one more line at the
    end of the file.  [i] counts the records already written by this
    call. *)
Fixpoint write_rows (today : nat -> string) (i : nat) (permits : list record) (file : string)
  : result (list record) * string :=
  match permits with
  | [] => (Ok [], file)
  | permit :: rest =>
      let permit := setitem permit "date" (VStr (today i)) in
      match dict_to_list permit with
      | Raise e => (Raise e, file)
      | Ok row =>
          match write_rows today (S i) rest (file ++ line_of row) with
          | (Ok done, file') => (Ok (permit :: done), file')
          | (Raise e, file') => (Raise e, file')
          end
      end
  end.

(** The body the three stand-ins share.  [file] is the text
    [data/permits.csv] holds before the call (empty when it is absent:
    opening in append mode creates it); the header line goes in when
    its size is zero, and every write goes to its end, as it is.
    [today i] is [datetime.now().strftime('%Y-%m-%d')] at the [i]-th
    record.  The result is the returned list and the text of the file
    after the call. *)
Definition scrape (permits : list record) (today : nat -> string) (file : string)
  : result (list record) * string :=
  let file := match file with
              | EmptyString => line_of fieldnames
              | String _ _ => file
              end in
  write_rows today 0 permits file.

Definition scrape_bexar : (nat -> string) -> string -> result (list record) * string :=
  scrape bexar_permits.
Definition scrape_hamilton : (nat -> string) -> string -> result (list record) * string :=
  scrape hamilton_permits.
Definition scrape_austin_travis : (nat -> string) -> string -> result (list record) * string :=
  scrape austin_travis_permits.

(** The row a stand-in record gives with [date] as its date. *)
Definition row_of (date : string) (permit : record) : list string :=
  map (fun k => match get (setitem permit "date" (VStr date)) k with
                | Some v => str v
                | None => EmptyString
                end) fieldnames.

Inductive county : Type := Bexar | Hamilton | AustinTravis.

Definition permits_of (c : county) : list record :=
  match c with
  | Bexar => bexar_permits
  | Hamilton => hamilton_permits
  | AustinTravis => austin_travis_permits
  end.

Definition run (c : county) : (nat -> string) -> string -> result (list record) * string :=
  match c with
  | Bexar => scrape_bexar
  | Hamilton => scrape_hamilton
  | AustinTravis => scrape_austin_travis
  end.

(** One call after another, each with its own clock; the file after
    the last one (a call that raises ends the sequence). *)
Fixpoint run_all (calls : list (county * (nat -> string))) (file : string)
  : result unit * string :=
  match calls with
  | [] => (Ok tt, file)
  | (c, today) :: rest =>
      match run c today file with
      | (Ok _, file') => run_all rest file'
      | (Raise e, file') => (Raise e, file')
      end
  end.

End Mock.

Module MockSpec.
Import Mock.

Definition quote : string := String "034"%char EmptyString.
Definition crlf : string := String "013"%char (String "010"%char EmptyString).

(** Every quote of [f] written twice. *)
Definition quotes_doubled (f : string) : string :=
  PyStr.join (quote ++ quote) (PyStr.split "034"%char f).

(** A field as it stands in the file: as it is, or between quotes with
    its quotes doubled when it holds a comma, a quote or a line break. *)
Definition written (f : string) : string :=
  if existsb (fun c => CsvText.has_char c f) [","%char; "034"%char; "013"%char; "010"%char]
  then (quote ++ quotes_doubled f ++ quote)%string
  else f.

(** The header line, as text. *)
Definition header_line : string :=
  ("county,permit_number,address,permit_type,estimated_value,work_description,date"
   ++ crlf)%string.

(** The line of a stand-in record: its six values and the date,
    comma-separated, the address (which holds commas) between
    quotes. *)
Definition line (county permit_number address permit_type : string) (estimated_value : nat)
  (work_description date : string) : string :=
  (county ++ "," ++ permit_number ++ "," ++ quote ++ address ++ quote ++ ","
   ++ permit_type ++ "," ++ PyStr.of_nat estimated_value ++ "," ++ work_description
   ++ "," ++ date ++ crlf)%string.

(** The two lines a call appends, with the dates of its two turns. *)
Definition lines_of (call : county * (nat -> string)) : string :=
  let today := snd call in
  match fst call with
  | Bexar =>
      line "Bexar" "BEX-001" "456 Main St, San Antonio, TX" "Residential Addition"
        75000 "Adding a master bathroom to existing home" (written (today 0)) ++
      line "Bexar" "BEX-002" "789 Oak Ave, San Antonio, TX" "Commercial Renovation"
        200000 "Restaurant kitchen remodel" (written (today 1))
  | Hamilton =>
      line "Hamilton" "HAM-001" "321 Signal Mountain Rd, Chattanooga, TN"
        "Residential New Construction" 350000 "New single-family home construction"
        (written (today 0)) ++
      line "Hamilton" "HAM-002" "654 Market St, Chattanooga, TN" "Commercial Addition"
        125000 "Retail store expansion" (written (today 1))
  | AustinTravis =>
      line "Austin-Travis" "ATX-001" "987 Congress Ave, Austin, TX"
        "Commercial Renovation" 500000 "Downtown office building renovation"
        (written (today 0)) ++
      line "Austin-Travis" "ATX-002" "147 Rainey St, Austin, TX"
        "Multi-Family Construction" 800000 "New apartment complex construction"
        (written (today 1))
  end%string.

(** The file the lines are appended to: the header line when there was
    nothing, else what there was. *)
Definition with_header (file : string) : string :=
  match file with
  | EmptyString => header_line
  | String _ _ => file
  end.

(** The records of a call as they are returned: each with the date of
    its turn. *)
Fixpoint dated_from (today : nat -> string) (i : nat) (permits : list record) : list record :=
  match permits with
  | [] => []
  | permit :: rest =>
      setitem permit "date" (VStr (today i)) :: dated_from today (S i) rest
  end.

(** The values of a record for the field names, in order. *)
Definition render (r : record) : list string :=
  map (fun k => match get r k with
                | Some v => str v
                | None => EmptyString
                end) fieldnames.

(** The line of a record: its written values joined by commas. *)
Definition line_text (r : record) : string :=
  (PyStr.join "," (map written (render r)) ++ crlf)%string.

Definition known_keys (r : record) : Prop := incl (map fst r) fieldnames.

End MockSpec.

(** ** Result cards *)

Module Cards.
Import PyStr.

(** A result card: a [div] or [li] element with its class names and
    its text. *)
Record card : Type := mk_card { as_li : bool; classes : list string; text : string }.



Definition lines_of (c : card) : list string := split "010"%char (text c).



End Cards.

(** ** Valuations that can be read *)

Module ValuationSpec.
Import PyStr.

Fixpoint count (p : ascii -> bool) (s : string) : nat :=
  match s with
  | EmptyString => 0
  | String c s' => (if p c then 1 else 0) + count p s'
  end.

Definition is_dot (c : ascii) : bool := Ascii.eqb c ".".

(** At least one digit and at most one dot, whatever else stands in the
    string. *)
Definition readable (v : string) : bool :=
  (1 <=? count is_digit v) && (count is_dot v <=? 1).

(** Only digits and dots. *)
Fixpoint plain (s : string) : Prop :=
  match s with
  | EmptyString => True
  | String c s' => (is_digit c = true \/ is_dot c = true) /\ plain s'
  end.

End ValuationSpec.

(* ===================================================================== *)
(** * Properties *)
(* ===================================================================== *)

(** ** Stripped strings *)

Section StripFacts.
Import PyStr Whitespace.

(** [str.isspace] holds of exactly the whitespace code points. *)
Lemma is_space_white (c : ascii) : is_space c = white c.
Proof.
  destruct c as [b0 b1 b2 b3 b4 b5 b6 b7].
  destruct b0, b1, b2, b3, b4, b5, b6, b7; reflexivity.
Qed.

Lemma lstrip_trim_left (s : string) : lstrip s = trim_left s.
Proof.
  induction s as [|c s IH]; simpl; [reflexivity|].
  rewrite is_space_white, IH. reflexivity.
Qed.

Lemma trim_right_empty (s : string) : all_white s = true -> trim_right s = EmptyString.
Proof. destruct s as [|c s]; [reflexivity|]. intros H. cbn [trim_right]. rewrite H. reflexivity. Qed.

Lemma trim_right_nonempty (s : string) : all_white s = false -> trim_right s <> EmptyString.
Proof.
  destruct s as [|c s]; [discriminate|]. intros H. cbn [trim_right]. rewrite H. discriminate.
Qed.

Lemma rstrip_trim_right (s : string) : rstrip s = trim_right s.
Proof.
  induction s as [|c s IH]; [reflexivity|].
  cbn [rstrip trim_right all_white]. rewrite IH, is_space_white.
  destruct (all_white s) eqn:Ea.
  - rewrite (trim_right_empty s Ea), andb_true_r. destruct (white c); reflexivity.
  - rewrite andb_false_r. pose proof (trim_right_nonempty s Ea) as Hn.
    destruct (trim_right s); [congruence | reflexivity].
Qed.

(** [str.strip] removes the leading and the trailing whitespace and
    nothing else. *)
Lemma strip_trim (s : string) : strip s = trim s.
Proof. unfold strip, trim. rewrite rstrip_trim_right, lstrip_trim_left. reflexivity. Qed.

Lemma trim_right_no_trailing (s : string) : ends_white (trim_right s) = false.
Proof.
  induction s as [|c s IH]; [reflexivity|].
  cbn [trim_right all_white].
  destruct (white c) eqn:Hc; cbn [andb].
  - destruct (all_white s) eqn:Ea; [reflexivity|].
    pose proof (trim_right_nonempty s Ea) as Hn.
    destruct (trim_right s) as [|c' r] eqn:E; [congruence | exact IH].
  - destruct (trim_right s) as [|c' r] eqn:E; [simpl; exact Hc | exact IH].
Qed.

Lemma trim_left_no_leading (s : string) : starts_white (trim_left s) = false.
Proof.
  induction s as [|c s IH]; simpl; [reflexivity|].
  destruct (white c) eqn:Hc; [exact IH | simpl; exact Hc].
Qed.

Lemma trim_right_keeps_head (s : string) :
  starts_white s = false -> starts_white (trim_right s) = false.
Proof.
  destruct s as [|c s]; [reflexivity|]. cbn [starts_white trim_right all_white].
  intros Hc. rewrite Hc. exact Hc.
Qed.

Lemma trim_trimmed (s : string) : trimmed (trim s) = true.
Proof.
  unfold trimmed, trim.
  rewrite trim_right_no_trailing, trim_right_keeps_head by apply trim_left_no_leading.
  reflexivity.
Qed.

Lemma strip_trimmed (s : string) : trimmed (strip s) = true.
Proof. rewrite strip_trim. apply trim_trimmed. Qed.

(** A string without leading or trailing whitespace is a fixed point
    of [strip]. *)
Lemma not_all_white (s : string) (c : ascii) :
  ends_white (String c s) = false -> all_white (String c s) = false.
Proof.
  revert c. induction s as [|d s IH]; intros c H.
  - simpl in *. rewrite H. reflexivity.
  - change (all_white (String c (String d s))) with (white c && all_white (String d s)).
    rewrite (IH d H). apply andb_false_r.
Qed.

Lemma trim_right_fixed (s : string) : ends_white s = false -> trim_right s = s.
Proof.
  induction s as [|c s IH]; [reflexivity|].
  intros H. cbn [trim_right]. rewrite (not_all_white s c H).
  destruct s as [|c' s']; [reflexivity|]. rewrite (IH H). reflexivity.
Qed.

Lemma trimmed_fixed (s : string) : trimmed s = true -> strip s = s.
Proof.
  rewrite strip_trim. unfold trimmed, trim. intros H.
  apply andb_true_iff in H. destruct H as [H1 H2].
  apply negb_true_iff in H1. apply negb_true_iff in H2.
  destruct s as [|c s]; [reflexivity|].
  simpl in H1. cbn [trim_left]. rewrite H1. apply trim_right_fixed, H2.
Qed.
End StripFacts.

(** ** What one loop iteration of each extractor appends *)

Module ExtractFacts.
Import PyStr Extract ExtractSpec.

Lemma cell_in_range (cols : list node) (i : nat) :
  i < List.length cols -> cell cols i = Ok (cell_text cols i).
Proof.
  intros H. unfold cell, cell_text, getitem.
  destruct (nth_error cols i) eqn:E; [reflexivity|].
  apply nth_error_None in E. lia.
Qed.

Lemma line_in_range (lines : list string) (i : nat) :
  i < List.length lines -> line lines i = Ok (line_text lines i).
Proof.
  intros H. unfold line, line_text, getitem.
  destruct (nth_error lines i) eqn:E; [reflexivity|].
  apply nth_error_None in E. lia.
Qed.

Lemma part_in_range (parts : list string) (i : nat) :
  i < List.length parts -> part parts i = Ok (line_text parts i).
Proof. exact (line_in_range parts i). Qed.

Lemma optional_cell (cols : list node) (i : nat) :
  (if i <? List.length cols then cell cols i else Ok EmptyString) = Ok (cell_text cols i).
Proof.
  destruct (i <? List.length cols) eqn:E.
  - apply cell_in_range, Nat.ltb_lt, E.
  - unfold cell_text. apply Nat.ltb_ge in E.
    apply nth_error_None in E. rewrite E. reflexivity.
Qed.

Lemma optional_line (lines : list string) (i : nat) :
  (if i <? List.length lines then line lines i else Ok EmptyString) = Ok (line_text lines i).
Proof.
  destruct (i <? List.length lines) eqn:E.
  - apply line_in_range, Nat.ltb_lt, E.
  - unfold line_text. apply Nat.ltb_ge in E.
    apply nth_error_None in E. rewrite E. reflexivity.
Qed.

(** Runs the guarded reads of one loop body. *)
Ltac run_reads :=
  repeat first [ rewrite optional_cell | rewrite optional_line
               | rewrite cell_in_range by lia
               | rewrite line_in_range by lia
               | rewrite part_in_range by lia
               | progress cbn [rbind] ].

Lemma for_append_ok {A} (body : A -> result (list permit)) (g : A -> list permit) :
  (forall x, body x = Ok (g x)) ->
  forall xs permits, for_append body xs permits = Ok (permits ++ flat_map g xs).
Proof.
  intros Hb xs. induction xs as [|x xs IH]; intros permits; simpl.
  - rewrite app_nil_r. reflexivity.
  - rewrite Hb. simpl. rewrite IH, <- app_assoc. reflexivity.
Qed.

Lemma accela_row_ok (row : node) : accela_row row = Ok (accela_row_permits row).
Proof.
  unfold accela_row, accela_row_permits.
  destruct (6 <=? List.length (find_all "td" row)) eqn:E; [|reflexivity].
  apply Nat.leb_le in E. run_reads. reflexivity.
Qed.

Lemma nashville_row_ok (row : node) : nashville_row row = Ok (nashville_row_permits row).
Proof.
  unfold nashville_row, nashville_row_permits.
  destruct (4 <=? List.length (find_all "td" row)) eqn:E; [|reflexivity].
  apply Nat.leb_le in E. run_reads. reflexivity.
Qed.

Lemma nashville_card_ok (elem : node) : nashville_card elem = Ok (nashville_card_permits elem).
Proof.
  unfold nashville_card, nashville_card_permits.
  destruct (3 <=? List.length (split "010" (get_text elem))) eqn:E; [|reflexivity].
  apply Nat.leb_le in E. run_reads. reflexivity.
Qed.

Lemma csv_line_ok (ln : string) : csv_line ln = Ok (csv_line_permits ln).
Proof.
  unfold csv_line, csv_line_permits.
  destruct (strip ln); [reflexivity|].
  destruct (6 <=? List.length (split "," ln)) eqn:E; [|reflexivity].
  apply Nat.leb_le in E. run_reads. reflexivity.
Qed.

(** The extractors never raise: each is its loop over the kept rows. *)
Lemma parse_accela_results_ok (soup : node) :
  parse_accela_results soup =
  Ok (match find "table" soup with
      | Some table => flat_map accela_row_permits (tl (find_all "tr" table))
      | None => []
      end).
Proof.
  unfold parse_accela_results. destruct (find "table" soup); [|reflexivity].
  rewrite (for_append_ok _ _ accela_row_ok). reflexivity.
Qed.

Lemma nashville_table_pass_ok (soup : node) :
  nashville_table_pass soup = Ok (nashville_table_permits soup).
Proof.
  unfold nashville_table_pass, nashville_table_permits.
  destruct (find "table" soup); [|reflexivity].
  rewrite (for_append_ok _ _ nashville_row_ok). reflexivity.
Qed.

Lemma parse_nashville_results_ok (soup : node) :
  parse_nashville_results soup =
  Ok (match nashville_table_permits soup with
      | [] => flat_map nashville_card_permits (find_all_cards soup)
      | p :: ps => p :: ps
      end).
Proof.
  unfold parse_nashville_results. rewrite nashville_table_pass_ok. simpl.
  destruct (nashville_table_permits soup); [|reflexivity].
  rewrite (for_append_ok _ _ nashville_card_ok). reflexivity.
Qed.

Lemma parse_csv_permits_ok (content : string) :
  parse_csv_permits content =
  Ok (flat_map csv_line_permits (tl (split "010"%char content))).
Proof.
  unfold parse_csv_permits. rewrite (for_append_ok _ _ csv_line_ok). reflexivity.
Qed.

End ExtractFacts.

(* ===================================================================== *)
(** ** Shape of the emitted records *)
(* ===================================================================== *)

Module RecordFacts.
Import PyStr Extract ExtractSpec ExtractFacts.

Lemma cell_text_stripped (cols : list node) (i : nat) :
  Whitespace.trimmed (cell_text cols i) = true.
Proof.
  unfold cell_text. destruct (nth_error cols i); [apply strip_trimmed | reflexivity].
Qed.

Lemma line_text_stripped (lines : list string) (i : nat) :
  Whitespace.trimmed (line_text lines i) = true.
Proof.
  unfold line_text. destruct (nth_error lines i); [apply strip_trimmed | reflexivity].
Qed.

Lemma mk_permit_six_stripped (a b c d e f : string) :
  Whitespace.trimmed a = true -> Whitespace.trimmed b = true ->
  Whitespace.trimmed c = true -> Whitespace.trimmed d = true ->
  Whitespace.trimmed e = true -> Whitespace.trimmed f = true ->
  six_stripped_fields (mk_permit a b c d e f).
Proof.
  intros. split; [reflexivity|]. simpl. repeat constructor; assumption.
Qed.

Create HintDb shape.
#[local] Hint Resolve cell_text_stripped line_text_stripped : shape.

Ltac one_record :=
  constructor; [apply mk_permit_six_stripped; auto with shape | constructor].

Lemma accela_row_shape (row : node) : Forall six_stripped_fields (accela_row_permits row).
Proof.
  unfold accela_row_permits. destruct (6 <=? _); [one_record | constructor].
Qed.

Lemma nashville_row_shape (row : node) : Forall six_stripped_fields (nashville_row_permits row).
Proof.
  unfold nashville_row_permits. destruct (4 <=? _); [one_record | constructor].
Qed.

Lemma nashville_card_shape (elem : node) :
  Forall six_stripped_fields (nashville_card_permits elem).
Proof.
  unfold nashville_card_permits. destruct (3 <=? _); [one_record | constructor].
Qed.

Lemma csv_line_shape (ln : string) : Forall six_stripped_fields (csv_line_permits ln).
Proof.
  unfold csv_line_permits. destruct (strip ln); [constructor|].
  destruct (6 <=? _); [one_record | constructor].
Qed.

Lemma flat_map_shape {A} (g : A -> list permit) (xs : list A) :
  (forall x, Forall six_stripped_fields (g x)) ->
  Forall six_stripped_fields (flat_map g xs).
Proof.
  intros Hg. induction xs as [|x xs IH]; simpl; [constructor|].
  apply Forall_app. split; [apply Hg | exact IH].
Qed.

Lemma extracted_shape (r : permit) : extracted r -> six_stripped_fields r.
Proof.
  intros [(soup & ps & E & Hin) | [(soup & ps & E & Hin) | (content & ps & E & Hin)]].
  - rewrite parse_accela_results_ok in E. injection E as <-.
    revert r Hin. apply Forall_forall.
    destruct (find "table" soup); [|constructor].
    apply flat_map_shape, accela_row_shape.
  - rewrite parse_nashville_results_ok in E. injection E as <-.
    revert r Hin. apply Forall_forall.
    destruct (nashville_table_permits soup) as [|p ps'] eqn:T.
    + apply flat_map_shape, nashville_card_shape.
    + rewrite <- T. unfold nashville_table_permits.
      destruct (find "table" soup); [|constructor].
      apply flat_map_shape, nashville_row_shape.
  - rewrite parse_csv_permits_ok in E. injection E as <-.
    revert r Hin. apply Forall_forall.
    apply flat_map_shape, csv_line_shape.
Qed.

Lemma dict_get_of_key (r : permit) (k : string) :
  In k (dict_keys r) -> exists v, dict_get r k = Some v.
Proof.
  induction r as [|[k' v'] r IH]; simpl; [intros []|].
  intros H. destruct (String.eqb k' k) eqn:E; [eauto|].
  destruct H as [H | H]; [|auto].
  apply String.eqb_neq in E. contradiction.
Qed.

Lemma dict_get_key (r : permit) (k v : string) :
  dict_get r k = Some v -> In k (dict_keys r).
Proof.
  induction r as [|[k' v'] r IH]; simpl; [discriminate|].
  destruct (String.eqb k' k) eqn:E; [|auto].
  apply String.eqb_eq in E. auto.
Qed.

Lemma existsb_eqb_In (k : string) (l : list string) :
  existsb (String.eqb k) l = true <-> In k l.
Proof.
  rewrite existsb_exists. split.
  - intros (x & Hx & E). apply String.eqb_eq in E. subst. exact Hx.
  - intros H. exists k. split; [exact H | apply String.eqb_refl].
Qed.

(** [DictWriter] accepts a row exactly when its keys are field names. *)
Lemma dict_to_list_ok (fieldnames : list string) (r : permit) :
  incl (dict_keys r) fieldnames ->
  Sink.dict_to_list fieldnames r = Ok (row_of fieldnames r).
Proof.
  intros H. unfold Sink.dict_to_list.
  replace (forallb _ _) with true; [reflexivity|].
  symmetry. apply forallb_forall. intros k Hk. apply existsb_eqb_In, H, Hk.
Qed.

Lemma dict_to_list_extra_key (fieldnames : list string) (r : permit) :
  ~ incl (dict_keys r) fieldnames -> Sink.dict_to_list fieldnames r = Raise ValueError.
Proof.
  intros H. unfold Sink.dict_to_list.
  destruct (forallb _ _) eqn:E; [|reflexivity].
  exfalso. apply H. intros k Hk.
  rewrite forallb_forall in E. apply existsb_eqb_In, E, Hk.
Qed.

Lemma row_has_every_field (r : permit) (fieldnames : list string) :
  incl fieldnames (dict_keys r) ->
  Forall2 (fun h v => dict_get r h = Some v) fieldnames (row_of fieldnames r).
Proof.
  unfold row_of. induction fieldnames as [|h hs IH]; intros H; simpl; constructor.
  - destruct (dict_get_of_key r h) as [v ->]; [apply H; left|]; reflexivity.
  - apply IH. intros k Hk. apply H. right. exact Hk.
Qed.

End RecordFacts.

(** C10.  Every record emitted by [parse_accela_results],
    [parse_nashville_results] or [parse_csv_permits] has exactly the six
    keys permit_number, issue_date, address, work_type, contractor,
    valuation (in that order), every value is a string whose first and
    last characters are no whitespace (no blank, tab, line break,
    separator control, NEL or no-break space), and a header list naming
    those six fields gives a row in which every column is a field of
    the record and no field of the record is left out. *)
Theorem extracted_records_have_six_stripped_fields (r : permit) :
  extracted r ->
  dict_keys r = field_names /\
  Forall (fun v => Whitespace.trimmed v = true /\ PyStr.strip v = v) (dict_values r) /\
  forall csv_headers,
    (forall k, In k csv_headers <-> In k field_names) ->
    exists row,
      Sink.dict_to_list csv_headers r = Ok row /\
      Forall2 (fun h v => dict_get r h = Some v) csv_headers row /\
      (forall k, In k (dict_keys r) -> In k csv_headers).
Proof.
  intros H. apply RecordFacts.extracted_shape in H. destruct H as [Hk Hv].
  split; [exact Hk|]. split.
  - eapply Forall_impl; [|exact Hv]. simpl. intros v Hs.
    split; [exact Hs | apply trimmed_fixed, Hs].
  - intros hs Hh. eexists. split; [|split].
    + apply RecordFacts.dict_to_list_ok. rewrite Hk. intros k. apply Hh.
    + apply RecordFacts.row_has_every_field. rewrite Hk. intros k. apply Hh.
    + rewrite Hk. intros k. apply Hh.
Qed.

Lemma extracted_records_have_six_stripped_fields_witness :
  extracted (mk_permit "P1" "01/05/2024" "1 Main St" "Roof" "" "$10,000") /\
  dict_keys (mk_permit "P1" "01/05/2024" "1 Main St" "Roof" "" "$10,000") = field_names /\
  Forall (fun v => Whitespace.trimmed v = true /\ PyStr.strip v = v)
    ["P1"; "01/05/2024"; "1 Main St"; "Roof"; ""; "$10,000"].
Proof.
  assert (E : extracted (mk_permit "P1" "01/05/2024" "1 Main St" "Roof" "" "$10,000")).
  { left. exists Pages.padded_page. eexists. split; [reflexivity|]. left. reflexivity. }
  split; [exact E|].
  destruct (extracted_records_have_six_stripped_fields _ E) as (Hk & Hv & _).
  split; [exact Hk | exact Hv].
Defined.

(* ===================================================================== *)
(** ** Empty input *)
(* ===================================================================== *)

(** C7.  On markup with no table and no matching card element every
    extractor returns the empty list without raising (for the CSV
    extractor: on empty content), and on an empty record list
    [save_to_csv] returns at once: no file is written, not even a
    header-only one, and nothing else changes. *)
Theorem empty_markup_no_records_no_file (soup : node) :
  find "table" soup = None ->
  find_all_cards soup = [] ->
  Extract.parse_accela_results soup = Ok [] /\
  Extract.parse_nashville_results soup = Ok [] /\
  Extract.parse_csv_permits EmptyString = Ok [] /\
  forall csv_headers county_slug generate_sorted now st,
    Sink.save_to_csv csv_headers [] county_slug generate_sorted now st = (Ok [], st).
Proof.
  intros Htable Hcards. repeat split.
  - rewrite ExtractFacts.parse_accela_results_ok, Htable. reflexivity.
  - rewrite ExtractFacts.parse_nashville_results_ok.
    unfold ExtractSpec.nashville_table_permits. rewrite Htable, Hcards. reflexivity.
Qed.

Lemma empty_markup_no_records_no_file_witness :
  Extract.parse_accela_results Pages.empty_page = Ok [] /\
  Extract.parse_nashville_results Pages.empty_page = Ok [] /\
  files (snd (Sink.save_to_csv field_names [] "bexar" true "20240108_060000"
                (mk_state [] [] 0))) = [].
Proof.
  destruct (empty_markup_no_records_no_file Pages.empty_page eq_refl eq_refl)
    as (Ha & Hn & _ & Hs).
  split; [exact Ha|]. split; [exact Hn|].
  rewrite Hs. reflexivity.
Defined.

(* ===================================================================== *)
(** ** The column threshold of the generic table extractor *)
(* ===================================================================== *)

Lemma accela_row_needs_six_cells (row : node) :
  List.length (find_all "td" row) < 6 -> Extract.accela_row row = Ok [].
Proof.
  intros H. rewrite ExtractFacts.accela_row_ok. unfold ExtractSpec.accela_row_permits.
  apply Nat.leb_gt in H. rewrite H. reflexivity.
Qed.

(** C2.  On a table whose one data row has the four required cells
    (permit number, date, address, work type) [parse_accela_results]
    returns no record: its guard asks for six cells, although the
    literal it builds provides for absent cells 4 and 5.  The civic
    extractor, whose table loop has the same body, keeps the row. *)
Theorem accela_drops_four_column_row :
  Extract.parse_accela_results Pages.four_column_page = Ok [] /\
  Extract.parse_nashville_results Pages.four_column_page =
    Ok [mk_permit "P1" "01/05/2024" "1 Main St" "Roof" "" ""].
Proof. split; reflexivity. Qed.

(* ===================================================================== *)
(** ** When the card fallback runs *)
(* ===================================================================== *)

(** The fallback runs when the table pass appended nothing. *)
Lemma nashville_fallback_condition (soup : node) :
  ExtractSpec.nashville_table_permits soup = [] ->
  Extract.parse_nashville_results soup =
  Ok (flat_map ExtractSpec.nashville_card_permits (find_all_cards soup)).
Proof.
  intros H. rewrite ExtractFacts.parse_nashville_results_ok, H. reflexivity.
Qed.

(** C6.  On a page that has a table (header row only) and one result
    card, [parse_nashville_results] takes the card fallback and emits the
    card's record, although a table was found. *)
Theorem nashville_fallback_runs_with_table_present :
  find "table" Pages.table_and_card_page = Some (Pages.table [Pages.header_row]) /\
  Extract.parse_nashville_results Pages.table_and_card_page =
    Ok [mk_permit "P9" "01/02/2024" "9 Elm St" "Unknown" "" ""].
Proof. split; reflexivity. Qed.

(* ===================================================================== *)
(** ** Sorting *)
(* ===================================================================== *)

Module SortFacts.
Import PySort.

Section Insertion.
Context {A K : Type}.
Variable le : K -> K -> bool.

Let before (p q : K * A) : Prop := le (fst p) (fst q) = true.

Lemma insert_perm (x : K * A) (l : list (K * A)) : Permutation (insert le x l) (x :: l).
Proof.
  induction l as [|y l IH]; simpl; [reflexivity|].
  destruct (le (fst x) (fst y)); [reflexivity|].
  rewrite IH. apply perm_swap.
Qed.

Lemma stable_sort_perm (l : list (K * A)) : Permutation (stable_sort le l) l.
Proof.
  induction l as [|x l IH]; simpl; [reflexivity|].
  rewrite insert_perm. apply perm_skip, IH.
Qed.

(** Elements whose keys may precede one another keep their input
    order: the sort is stable. *)
Lemma filter_insert (f : K * A -> bool) (x : K * A) (l : list (K * A)) :
  (forall y, f x = true -> f y = true -> le (fst x) (fst y) = true) ->
  List.filter f (insert le x l) = List.filter f (x :: l).
Proof.
  intros Hf. induction l as [|y l IH]; [reflexivity|]. simpl insert.
  destruct (le (fst x) (fst y)) eqn:E; [reflexivity|].
  change (List.filter f (y :: insert le x l)) with
    (if f y then y :: List.filter f (insert le x l) else List.filter f (insert le x l)).
  rewrite IH. simpl.
  destruct (f x) eqn:Fx, (f y) eqn:Fy; try reflexivity.
  rewrite (Hf y eq_refl Fy) in E. discriminate.
Qed.

Lemma stable_sort_stable (same : K -> bool) (l : list (K * A)) :
  (forall a b, same a = true -> same b = true -> le a b = true) ->
  List.filter (fun p => same (fst p)) (stable_sort le l) =
  List.filter (fun p => same (fst p)) l.
Proof.
  intros Hs. induction l as [|x l IH]; [reflexivity|]. simpl stable_sort.
  rewrite filter_insert by (intros y; apply Hs).
  simpl. rewrite IH. reflexivity.
Qed.

Hypothesis le_total : forall a b, le a b = true \/ le b a = true.
Hypothesis le_trans : forall a b c, le a b = true -> le b c = true -> le a c = true.

Lemma insert_sorted (x : K * A) (l : list (K * A)) :
  StronglySorted before l -> StronglySorted before (insert le x l).
Proof.
  induction 1 as [|y l Hs IH Hy]; simpl.
  - repeat constructor.
  - destruct (le (fst x) (fst y)) eqn:E.
    + constructor; [constructor; assumption|].
      constructor; [exact E|].
      eapply Forall_impl; [|exact Hy]. intros z Hz. unfold before in *. eauto.
    + constructor; [exact IH|].
      eapply Permutation_Forall; [symmetry; apply insert_perm|].
      constructor; [|exact Hy].
      unfold before. destruct (le_total (fst x) (fst y)); congruence.
Qed.

Lemma stable_sort_sorted (l : list (K * A)) : StronglySorted before (stable_sort le l).
Proof.
  induction l as [|x l IH]; simpl; [constructor | apply insert_sorted, IH].
Qed.
End Insertion.

Section Decorate.
Context {A K : Type}.
Variable key : A -> result K.

Lemma decorate_ok (l : list A) (dl : list (K * A)) :
  decorate key l = Ok dl ->
  map snd dl = l /\ Forall (fun p => key (snd p) = Ok (fst p)) dl.
Proof.
  revert dl. induction l as [|x l IH]; simpl; intros dl H.
  - injection H as <-. split; constructor.
  - destruct (key x) as [k|] eqn:Ek; simpl in H; [|discriminate].
    destruct (decorate key l) as [rest|] eqn:Er; simpl in H; [|discriminate].
    injection H as <-. destruct (IH rest eq_refl) as [Hm Hf].
    split; simpl; [rewrite Hm; reflexivity | constructor; assumption].
Qed.

Lemma decorate_all_ok (l : list A) :
  Forall (fun x => exists k, key x = Ok k) l -> exists dl, decorate key l = Ok dl.
Proof.
  induction 1 as [|x l [k Hk] _ [dl IH]]; simpl; [eauto|].
  rewrite Hk, IH. simpl. eauto.
Qed.

(** When a key raises and every key that raises raises [e], the
    decoration raises [e]. *)
Lemma decorate_raises (e : exn) (l : list A) :
  Forall (fun x => forall e', key x = Raise e' -> e' = e) l ->
  Exists (fun x => exists e', key x = Raise e') l ->
  decorate key l = Raise e.
Proof.
  intros Hall. induction Hall as [|x l Hx Hall IH]; intros Hex.
  - inversion Hex.
  - simpl. destruct (key x) as [k|e'] eqn:Ek; simpl.
    + rewrite IH; [reflexivity|].
      inversion Hex as [? ? [e' He']|]; subst; [congruence | assumption].
    + rewrite (Hx e' eq_refl). reflexivity.
Qed.
End Decorate.

Section PySorted.
Context {A K : Type}.
Variable leb : K -> K -> bool.
Variable key : A -> result K.

Lemma py_sorted_perm (reverse : bool) (l l' : list A) :
  py_sorted leb key reverse l = Ok l' -> Permutation l l'.
Proof.
  unfold py_sorted. destruct (decorate key l) as [dl|] eqn:E; simpl; [|discriminate].
  intros H. injection H as <-.
  destruct (decorate_ok key l dl E) as [<- _].
  apply Permutation_map. symmetry. apply stable_sort_perm.
Qed.

Lemma py_sorted_raises (reverse : bool) (e : exn) (l : list A) :
  Forall (fun x => forall e', key x = Raise e' -> e' = e) l ->
  Exists (fun x => exists e', key x = Raise e') l ->
  py_sorted leb key reverse l = Raise e.
Proof.
  intros Ha He. unfold py_sorted. rewrite (decorate_raises key e l Ha He). reflexivity.
Qed.

Lemma py_sorted_all_ok (reverse : bool) (l : list A) :
  Forall (fun x => exists k, key x = Ok k) l ->
  exists l', py_sorted leb key reverse l = Ok l'.
Proof.
  intros H. destruct (decorate_all_ok key l H) as [dl E].
  unfold py_sorted. rewrite E. simpl. eauto.
Qed.

(** Records whose keys are equal (lie in a class [same] of keys that
    precede one another) come out in their input order, in both
    directions of the sort. *)
Lemma py_sorted_stable (same : K -> bool) (reverse : bool) (l l' : list A) :
  (forall a b, same a = true -> same b = true -> leb a b = true) ->
  py_sorted leb key reverse l = Ok l' ->
  List.filter (fun x => match key x with Ok k => same k | Raise _ => false end) l' =
  List.filter (fun x => match key x with Ok k => same k | Raise _ => false end) l.
Proof.
  intros Hs. unfold py_sorted.
  destruct (decorate key l) as [dl|] eqn:E; simpl; [|discriminate].
  intros H. injection H as <-.
  destruct (decorate_ok key l dl E) as [<- Hk].
  set (le := if reverse then fun a b => leb b a else leb).
  assert (Hle : forall a b, same a = true -> same b = true -> le a b = true)
    by (intros a b Ha Hb; unfold le; destruct reverse; auto).
  assert (Hmap : forall d : list (K * A),
             Forall (fun p => key (snd p) = Ok (fst p)) d ->
             List.filter (fun x => match key x with Ok k => same k | Raise _ => false end)
               (map snd d)
             = map snd (List.filter (fun p => same (fst p)) d)).
  { induction 1 as [|p d Hp _ IH]; [reflexivity|]. simpl. rewrite Hp, IH.
    destruct (same (fst p)); reflexivity. }
  rewrite (Hmap dl Hk), Hmap.
  - rewrite (stable_sort_stable le same dl Hle). reflexivity.
  - eapply Permutation_Forall; [symmetry; apply stable_sort_perm | exact Hk].
Qed.

Hypothesis leb_total : forall a b, leb a b = true \/ leb b a = true.
Hypothesis leb_trans : forall a b c, leb a b = true -> leb b c = true -> leb a c = true.

(** With [reverse=True] every element's key is at least the key of
    every later element. *)
Lemma py_sorted_descending (l l' : list A) :
  py_sorted leb key true l = Ok l' ->
  StronglySorted
    (fun a b => exists ka kb, key a = Ok ka /\ key b = Ok kb /\ leb kb ka = true) l'.
Proof.
  unfold py_sorted. destruct (decorate key l) as [dl|] eqn:E; simpl; [|discriminate].
  intros H. injection H as <-.
  destruct (decorate_ok key l dl E) as [_ Hk].
  set (ge := fun a b => leb b a).
  assert (Hs : StronglySorted (fun p q : K * A => ge (fst p) (fst q) = true)
                 (stable_sort ge dl)).
  { apply stable_sort_sorted; unfold ge.
    - intros a b. destruct (leb_total a b); auto.
    - intros a b c H1 H2. eapply leb_trans; eassumption. }
  assert (Hk' : Forall (fun p => key (snd p) = Ok (fst p)) (stable_sort ge dl)).
  { eapply Permutation_Forall; [symmetry; apply stable_sort_perm | exact Hk]. }
  clear E Hk. induction Hs as [|p ps Hs IH Hp]; simpl; constructor.
  - apply IH. inversion Hk'; assumption.
  - inversion Hk' as [|? ? Hp0 Hps]; subst.
    clear IH Hs Hk'. induction Hp as [|q qs Hq _ IHq]; simpl; constructor.
    + inversion Hps; subst. exists (fst p), (fst q). auto.
    + apply IHq. inversion Hps; assumption.
Qed.
End PySorted.

Lemma date_leb_total (a b : Date.datetime) : Date.leb a b = true \/ Date.leb b a = true.
Proof.
  unfold Date.leb. destruct a as [ya ma da], b as [yb mb db]; simpl.
  destruct (Nat.lt_total ya yb) as [H | [H | H]].
  - left. apply Nat.ltb_lt in H. rewrite H. reflexivity.
  - subst yb. rewrite Nat.ltb_irrefl, Nat.eqb_refl. simpl.
    destruct (Nat.lt_total ma mb) as [H | [H | H]].
    + left. apply Nat.ltb_lt in H. rewrite H. reflexivity.
    + subst mb. rewrite Nat.ltb_irrefl, Nat.eqb_refl. simpl.
      destruct (Nat.le_ge_cases da db) as [H | H]; apply Nat.leb_le in H; rewrite H; auto.
    + right. apply Nat.ltb_lt in H. rewrite H. reflexivity.
  - right. apply Nat.ltb_lt in H. rewrite H. reflexivity.
Qed.

Lemma date_leb_spec (a b : Date.datetime) :
  Date.leb a b = true <->
  Date.year a < Date.year b \/
  (Date.year a = Date.year b /\
   (Date.month a < Date.month b \/ (Date.month a = Date.month b /\ Date.day a <= Date.day b))).
Proof.
  unfold Date.leb.
  rewrite orb_true_iff, andb_true_iff, orb_true_iff, andb_true_iff.
  rewrite !Nat.ltb_lt, !Nat.eqb_eq, Nat.leb_le. reflexivity.
Qed.

Lemma date_leb_trans (a b c : Date.datetime) :
  Date.leb a b = true -> Date.leb b c = true -> Date.leb a c = true.
Proof. rewrite !date_leb_spec. lia. Qed.

End SortFacts.

(* ===================================================================== *)
(** ** The sink *)
(* ===================================================================== *)

Module SinkFacts.
Import PyStr PySort Sink RecordFacts SortFacts.

Lemma dict_to_list_inv (fieldnames : list string) (r : permit) (row : list string) :
  dict_to_list fieldnames r = Ok row -> row = row_of fieldnames r.
Proof.
  unfold dict_to_list. destruct (forallb _ _); [|discriminate].
  intros H. injection H as <-. reflexivity.
Qed.

Lemma dict_to_list_raises (fieldnames : list string) (r : permit) (e : exn) :
  dict_to_list fieldnames r = Raise e -> e = ValueError.
Proof.
  unfold dict_to_list. destruct (forallb _ _); [discriminate|].
  intros H. injection H as <-. reflexivity.
Qed.

Lemma writerows_ok (fieldnames : list string) (l : list permit) :
  Forall (fun r => incl (dict_keys r) fieldnames) l ->
  writerows fieldnames l = (map (row_of fieldnames) l, None).
Proof.
  induction 1 as [|r l Hr _ IH]; simpl; [reflexivity|].
  rewrite (dict_to_list_ok _ _ Hr), IH. reflexivity.
Qed.

Lemma writerows_complete (fieldnames : list string) (l : list permit) (rows : csv) :
  writerows fieldnames l = (rows, None) -> rows = map (row_of fieldnames) l.
Proof.
  revert rows. induction l as [|r l IH]; simpl; intros rows H.
  - injection H as <-. reflexivity.
  - destruct (dict_to_list fieldnames r) as [row|] eqn:E; [|discriminate].
    destruct (writerows fieldnames l) as [rows' err]. injection H as <- ->.
    rewrite (dict_to_list_inv _ _ _ E), (IH rows' eq_refl). reflexivity.
Qed.

Lemma strptime_raises (s : string) (e : exn) : Date.strptime s = Raise e -> e = ValueError.
Proof.
  unfold Date.strptime.
  destruct (Date.re_match s) as [[[[m d] y] rest]|]; [|congruence].
  destruct rest; [|congruence].
  destruct (_ && _); congruence.
Qed.


Lemma issue_date_key_unparseable (r : permit) :
  date_unparseable r -> issue_date_key r = Raise ValueError.
Proof.
  intros (d & Hd & Hp). unfold issue_date_key, dict_getitem. rewrite Hd. exact Hp.
Qed.

Lemma issue_date_key_parses (r : permit) :
  date_parses r -> exists t, issue_date_key r = Ok t.
Proof.
  intros (d & t & Hd & Hp). exists t.
  unfold issue_date_key, dict_getitem. rewrite Hd. exact Hp.
Qed.

Lemma issue_date_key_raises (r : permit) (e : exn) :
  dated r -> issue_date_key r = Raise e -> e = ValueError.
Proof.
  unfold dated, issue_date_key, dict_getitem.
  destruct (dict_get r "issue_date") as [d|]; [|congruence].
  intros _. simpl. apply strptime_raises.
Qed.

Lemma date_key_raises (r : permit) (e : exn) :
  dated r -> date_key r = Raise e -> e = ValueError.
Proof.
  unfold dated, date_key, dict_getitem.
  destruct (dict_get r "issue_date") as [d|]; [|congruence].
  intros _. simpl. destruct d; [discriminate|]. simpl. apply strptime_raises.
Qed.

Lemma has_issue_date (r : permit) : permit_record r -> dated r.
Proof.
  intros H. unfold dated. destruct (dict_get_of_key r "issue_date") as [v ->]; [|discriminate].
  rewrite H. simpl. auto.
Qed.

Lemma permit_record_sinkable (csv_headers : list string) (r : permit) :
  permit_record r -> incl field_names csv_headers -> sinkable csv_headers r.
Proof.
  intros Hr Hh. split; [apply has_issue_date, Hr|]. rewrite Hr. exact Hh.
Qed.

(** Every entry of [sort_keys] returns a rearrangement of its input. *)
Lemma sort_keys_permute :
  Forall (fun entry => forall l l', snd entry l = Ok l' -> Permutation l l') sort_keys.
Proof.
  unfold sort_keys. repeat constructor; simpl; intros l l'; apply py_sorted_perm.
Qed.

Section WithConfig.
Variable csv_headers : list string.

Lemma write_csv_run (filename : string) (permits : list permit) (st : state) :
  write_csv csv_headers filename permits st =
  (match snd (writerows csv_headers permits) with
   | None => Ok tt
   | Some e => Raise e
   end,
   write_file filename (csv_headers :: fst (writerows csv_headers permits)) st).
Proof.
  unfold write_csv. destruct (writerows csv_headers permits) as [rows [e|]]; reflexivity.
Qed.

Lemma write_csv_ok (filename : string) (permits : list permit) (st : state) :
  Forall (fun r => incl (dict_keys r) csv_headers) permits ->
  write_csv csv_headers filename permits st =
  (Ok tt, write_file filename (csv_of csv_headers permits) st).
Proof.
  intros H. rewrite write_csv_run, (writerows_ok _ _ H). reflexivity.
Qed.

Lemma write_csv_complete (filename : string) (permits : list permit) (st st' : state) :
  write_csv csv_headers filename permits st = (Ok tt, st') ->
  st' = write_file filename (csv_of csv_headers permits) st.
Proof.
  rewrite write_csv_run.
  destruct (writerows csv_headers permits) as [rows [e|]] eqn:E; simpl; [discriminate|].
  intros H. injection H as <-. rewrite (writerows_complete _ _ _ E). reflexivity.
Qed.

End WithConfig.
End SinkFacts.

(* ===================================================================== *)
(** ** Effects of the sink on files, log and sessions *)
(* ===================================================================== *)

Module FrameFacts.
Import Sink SinkSpec SinkFacts.

Lemma extends_refl (st : state) : extends st st.
Proof.
  repeat split; [exists [] | exists []]; rewrite app_nil_r; reflexivity.
Qed.

Lemma extends_trans (a b c : state) : extends a b -> extends b c -> extends a c.
Proof.
  intros (Hs1 & [l1 Hl1] & [f1 Hf1]) (Hs2 & [l2 Hl2] & [f2 Hf2]).
  split; [congruence|]. split.
  - exists (l1 ++ l2). rewrite Hl2, Hl1, app_assoc. reflexivity.
  - exists (f1 ++ f2). rewrite Hf2, Hf1, app_assoc. reflexivity.
Qed.

Lemma preserves_ret {A} (a : A) : preserves (ret a).
Proof. intros st. apply extends_refl. Qed.

Lemma preserves_lift {A} (r : result A) : preserves (lift r).
Proof. intros st. apply extends_refl. Qed.

Lemma preserves_logging (r : log_record) : preserves (logging r).
Proof.
  intros st. repeat split; simpl.
  - exists [r]. reflexivity.
  - exists []. rewrite app_nil_r. reflexivity.
Qed.

Lemma preserves_bind {A B} (c : M A) (k : A -> M B) :
  preserves c -> (forall a, preserves (k a)) -> preserves (bind c k).
Proof.
  intros Hc Hk st. unfold bind. specialize (Hc st).
  destruct (c st) as [[a|e] st1]; simpl in *; [|exact Hc].
  eapply extends_trans; [exact Hc | apply Hk].
Qed.

Lemma preserves_try_except {A} (body : M A) (handler : exn -> M A) :
  preserves body -> (forall e, preserves (handler e)) -> preserves (try_except body handler).
Proof.
  intros Hb Hh st. unfold try_except. specialize (Hb st).
  destruct (body st) as [[a|e] st1]; simpl in *; [exact Hb|].
  eapply extends_trans; [exact Hb | apply Hh].
Qed.

Create HintDb frame.
#[export] Hint Resolve preserves_ret preserves_lift preserves_logging : frame.

Ltac frame :=
  repeat first [ solve [auto with frame]
               | match goal with
                 | |- preserves (bind _ _) => apply preserves_bind; [|intros ?]
                 end ].

Section WithConfig.
Variable csv_headers : list string.

Lemma preserves_write_csv (filename : string) (permits : list permit) :
  preserves (write_csv csv_headers filename permits).
Proof.
  intros st. rewrite write_csv_run. repeat split; simpl.
  - exists []. rewrite app_nil_r. reflexivity.
  - eexists. reflexivity.
Qed.

Lemma preserves_sorted_versions_loop keys permits county_slug timestamp :
  preserves (sorted_versions_loop csv_headers keys permits county_slug timestamp).
Proof.
  induction keys as [|[sort_name sort] keys IH]; simpl; [apply preserves_ret|].
  frame. apply preserves_write_csv.
Qed.

Lemma preserves_generate_sorted_versions permits county_slug timestamp :
  preserves (generate_sorted_versions csv_headers permits county_slug timestamp).
Proof. apply preserves_sorted_versions_loop. Qed.

Lemma preserves_sort_step permits county_slug : preserves (sort_step permits county_slug).
Proof.
  unfold sort_step. destruct (PySort.py_sorted _ _ _ _) as [sorted|[]]; frame.
Qed.

Lemma preserves_write_step county_slug generate_sorted timestamp permits :
  preserves (write_step csv_headers county_slug generate_sorted timestamp permits).
Proof.
  unfold write_step. frame; [apply preserves_write_csv|].
  destruct generate_sorted; [apply preserves_generate_sorted_versions | frame].
Qed.

Lemma save_to_csv_steps (p : permit) (ps : list permit) county_slug generate_sorted now :
  save_to_csv csv_headers (p :: ps) county_slug generate_sorted now =
  bind (sort_step (p :: ps) county_slug)
       (write_step csv_headers county_slug generate_sorted now).
Proof. reflexivity. Qed.

Lemma preserves_save_to_csv permits county_slug generate_sorted now :
  preserves (save_to_csv csv_headers permits county_slug generate_sorted now).
Proof.
  destruct permits as [|p ps]; [apply preserves_ret|].
  rewrite save_to_csv_steps. apply preserves_bind.
  - apply preserves_sort_step.
  - intros a. apply preserves_write_step.
Qed.

End WithConfig.
End FrameFacts.

(* ===================================================================== *)
(** ** What [save_to_csv] writes *)
(* ===================================================================== *)

Module SaveFacts.
Import PySort Sink SinkSpec SinkFacts FrameFacts RecordFacts SortFacts.

Lemma written_from_perm csv_headers (l l' : list permit) (f : string * csv) :
  Permutation l l' -> written_from csv_headers l' f -> written_from csv_headers l f.
Proof.
  intros Hp (x & Hx & E). exists x. split; [|exact E].
  etransitivity; eassumption.
Qed.

Lemma dict_get_perm (r r' : permit) (k : string) :
  NoDup (dict_keys r) -> Permutation r r' -> dict_get r k = dict_get r' k.
Proof.
  intros Hn Hp. induction Hp as [|[kx vx] l l' Hp IH|[kx vx] [ky vy] l|l l' l'' H1 IH1 H2 IH2].
  - reflexivity.
  - simpl. inversion Hn; subst. rewrite IH by assumption. reflexivity.
  - simpl. inversion Hn as [|? ? Hnotin _]; subst.
    destruct (String.eqb kx k) eqn:Ex, (String.eqb ky k) eqn:Ey; try reflexivity.
    apply String.eqb_eq in Ex, Ey. subst. exfalso. apply Hnotin. left. reflexivity.
  - rewrite IH1 by assumption. apply IH2.
    unfold dict_keys. eapply Permutation_NoDup; [apply Permutation_map; exact H1 | exact Hn].
Qed.

(** The written row does not depend on the order of the record's keys. *)
Lemma dict_to_list_key_order csv_headers (r r' : permit) :
  NoDup (dict_keys r) -> Permutation r r' ->
  Sink.dict_to_list csv_headers r = Sink.dict_to_list csv_headers r'.
Proof.
  intros Hn Hp. unfold Sink.dict_to_list.
  assert (Hk : Permutation (dict_keys r) (dict_keys r')) by (apply Permutation_map, Hp).
  replace (forallb (fun k => existsb (String.eqb k) csv_headers) (dict_keys r'))
    with (forallb (fun k => existsb (String.eqb k) csv_headers) (dict_keys r)).
  - destruct (forallb _ _); [|reflexivity]. f_equal.
    apply map_ext. intros k. rewrite (dict_get_perm r r' k Hn Hp). reflexivity.
  - apply Bool.eq_iff_eq_true. rewrite !forallb_forall. split; intros H k Hin; apply H.
    + eapply Permutation_in; [symmetry; exact Hk | exact Hin].
    + eapply Permutation_in; [exact Hk | exact Hin].
Qed.

Section WithConfig.
Variable csv_headers : list string.

(** A completed loop over [keys] added one file per key, each holding
    the records of [permits] in some order. *)
Lemma sorted_versions_loop_files keys permits county_slug timestamp :
  Forall (fun entry => forall l l', snd entry l = Ok l' -> Permutation l l') keys ->
  forall st st',
    sorted_versions_loop csv_headers keys permits county_slug timestamp st = (Ok tt, st') ->
    exists new, files st' = files st ++ new /\
                Forall (written_from csv_headers permits) new /\
                List.length new = List.length keys.
Proof.
  induction 1 as [|[sort_name sort] keys Hsort _ IH]; intros st st' H; simpl in H.
  - injection H as <-. exists []. rewrite app_nil_r. repeat constructor.
  - unfold bind at 1, lift in H. destruct (sort permits) as [sp|e] eqn:Es; [|discriminate].
    unfold bind at 1 in H.
    destruct (write_csv csv_headers _ sp st) as [[[]|e] st1] eqn:Ew; [|discriminate].
    apply write_csv_complete in Ew. subst st1.
    unfold bind at 1, logging in H. simpl in H.
    destruct (IH _ _ H) as (new & Hf & Hw & Hl). simpl in Hf.
    eexists (_ :: new). split; [|split].
    + rewrite Hf, <- app_assoc. reflexivity.
    + constructor; [|exact Hw]. exists sp. split; [apply Hsort, Es | reflexivity].
    + simpl. rewrite Hl. reflexivity.
Qed.

Lemma generate_sorted_versions_files permits county_slug timestamp st st' :
  generate_sorted_versions csv_headers permits county_slug timestamp st = (Ok tt, st') ->
  exists new, files st' = files st ++ new /\
              Forall (written_from csv_headers permits) new /\
              List.length new = 5.
Proof. apply sorted_versions_loop_files, sort_keys_permute. Qed.

Lemma sort_step_complete permits county_slug st ps st1 :
  sort_step permits county_slug st = (Ok ps, st1) ->
  Permutation permits ps /\ files st1 = files st.
Proof.
  unfold sort_step.
  destruct (py_sorted Date.leb issue_date_key true permits) as [sorted|e] eqn:Es.
  - intros H. injection H as <- <-. split; [eapply py_sorted_perm; exact Es | reflexivity].
  - destruct e; try discriminate.
    intros H. injection H as <- <-. split; reflexivity.
Qed.

Lemma write_step_complete county_slug generate_sorted timestamp ps st1 out st' :
  write_step csv_headers county_slug generate_sorted timestamp ps st1 = (Ok out, st') ->
  out = ps /\
  exists new,
    files st' = files st1 ++ (base_filename county_slug timestamp, csv_of csv_headers ps) :: new /\
    Forall (written_from csv_headers ps) new.
Proof.
  unfold write_step. intros H. unfold bind at 1 in H.
  destruct (write_csv csv_headers _ ps st1) as [[[]|e] st2] eqn:Ew; [|discriminate].
  apply write_csv_complete in Ew. subst st2.
  unfold bind at 1, logging in H. simpl in H. unfold bind at 1 in H.
  destruct generate_sorted.
  - destruct (generate_sorted_versions _ _ _ _ _) as [[[]|e] st3] eqn:Eg; [|discriminate].
    injection H as <- <-. split; [reflexivity|].
    apply generate_sorted_versions_files in Eg. destruct Eg as (new & Hf & Hw & _).
    simpl in Hf. exists new. split; [|exact Hw].
    rewrite Hf, <- app_assoc. reflexivity.
  - injection H as <- <-. split; [reflexivity|]. exists []. split; [reflexivity | constructor].
Qed.

(** The primary write, when every key of every record is a header. *)
Lemma write_step_primary county_slug generate_sorted timestamp ps st1 res st' :
  Forall (fun r => incl (dict_keys r) csv_headers) ps ->
  write_step csv_headers county_slug generate_sorted timestamp ps st1 = (res, st') ->
  (exists more, files st' =
     files st1 ++ (base_filename county_slug timestamp, csv_of csv_headers ps) :: more) /\
  (exists more, log st' =
     log st1 ++ saved_info county_slug timestamp (List.length ps) :: more) /\
  (generate_sorted = false ->
   res = Ok ps /\
   st' = mk_state (files st1 ++ [(base_filename county_slug timestamp, csv_of csv_headers ps)])
                  (log st1 ++ [saved_info county_slug timestamp (List.length ps)])
                  (sessions st1)).
Proof.
  intros Hk H. unfold write_step in H. unfold bind at 1 in H.
  rewrite (write_csv_ok _ _ _ _ Hk) in H.
  unfold bind at 1, logging in H. simpl in H. unfold bind at 1 in H.
  destruct generate_sorted.
  - pose proof (preserves_generate_sorted_versions csv_headers ps county_slug timestamp) as Hp.
    match type of H with context [generate_sorted_versions _ _ _ _ ?s] =>
      specialize (Hp s); destruct (generate_sorted_versions csv_headers ps county_slug timestamp s)
        as [r3 st3] end.
    destruct Hp as (_ & [ml Hl] & [mf Hf]). simpl in Hl, Hf.
    assert (st' = st3) by (destruct r3; injection H; auto). subst st3.
    split; [|split].
    + exists mf. rewrite Hf, <- app_assoc. reflexivity.
    + exists ml. rewrite Hl, <- app_assoc. reflexivity.
    + discriminate.
  - injection H as <- <-. simpl. split; [|split].
    + exists []. reflexivity.
    + exists []. reflexivity.
    + intros _. split; reflexivity.
Qed.

End WithConfig.
End SaveFacts.

(* ===================================================================== *)
(** ** The sink leaves records alone and follows the header list *)
(* ===================================================================== *)

(** C8.  When [save_to_csv] returns normally (with or without the
    sorted variants), the caller's list holds the same records as
    before, possibly in another order; every file written (the primary
    one and each sorted variant, also when [generate_sorted_versions] is
    called on its own) consists of the header row [csv_headers] followed
    by one row per record whose columns are the record's values for
    [csv_headers], in that order; and the row written for a record does
    not depend on the order of the record's keys. *)
Theorem sink_keeps_records_and_header_order
  (csv_headers : list string) (permits : list permit) (county_slug : string)
  (generate_sorted : bool) (now : string) (st : state)
  (out : list permit) (st' : state) :
  Sink.save_to_csv csv_headers permits county_slug generate_sorted now st = (Ok out, st') ->
  Permutation permits out /\
  (exists new, files st' = files st ++ new /\
               Forall (written_from csv_headers permits) new /\
               (permits <> [] -> new <> [])) /\
  (forall timestamp st1 st1',
      Sink.generate_sorted_versions csv_headers permits county_slug timestamp st1
        = (Ok tt, st1') ->
      exists new, files st1' = files st1 ++ new /\
                  Forall (written_from csv_headers permits) new /\
                  List.length new = 5) /\
  (forall r r', NoDup (dict_keys r) -> Permutation r r' ->
                Sink.dict_to_list csv_headers r = Sink.dict_to_list csv_headers r').
Proof.
  intros H. split; [|split; [|split]].
  - destruct permits as [|p ps]; [injection H as <- _; reflexivity|].
    rewrite FrameFacts.save_to_csv_steps in H. unfold bind in H.
    destruct (SinkSpec.sort_step _ _ st) as [[sorted|e] st1] eqn:Es; [|discriminate].
    apply SaveFacts.sort_step_complete in Es. destruct Es as [Hp _].
    apply SaveFacts.write_step_complete in H. destruct H as [-> _]. exact Hp.
  - destruct permits as [|p ps].
    + injection H as _ <-. exists []. rewrite app_nil_r.
      split; [reflexivity|]. split; [constructor | congruence].
    + rewrite FrameFacts.save_to_csv_steps in H. unfold bind in H.
      destruct (SinkSpec.sort_step _ _ st) as [[sorted|e] st1] eqn:Es; [|discriminate].
      apply SaveFacts.sort_step_complete in Es. destruct Es as [Hp Hf].
      apply SaveFacts.write_step_complete in H. destruct H as (_ & new & Hn & Hw).
      eexists. split; [rewrite Hn, Hf; reflexivity|]. split; [|discriminate].
      constructor.
      * exists sorted. split; [exact Hp | reflexivity].
      * eapply Forall_impl; [|exact Hw]. intros f. apply SaveFacts.written_from_perm, Hp.
  - intros timestamp st1 st1'. apply SaveFacts.generate_sorted_versions_files.
  - intros r r'. apply SaveFacts.dict_to_list_key_order.
Qed.

Lemma sink_keeps_records_and_header_order_witness :
  Permutation [Records.roof; Records.addition] [Records.addition; Records.roof].
Proof.
  refine (proj1 (sink_keeps_records_and_header_order field_names
                   [Records.roof; Records.addition] "bexar" true "20240108_060000"
                   Records.initial [Records.addition; Records.roof]
                   (snd (Sink.save_to_csv field_names [Records.roof; Records.addition]
                           "bexar" true "20240108_060000" Records.initial)) _)).
  vm_compute. reflexivity.
Defined.

(* ===================================================================== *)
(** ** Order of the primary file *)
(* ===================================================================== *)

Lemma append_empty_r (s : string) : (s ++ "")%string = s.
Proof. induction s as [|c s IH]; simpl; [reflexivity | rewrite IH; reflexivity]. Qed.

(** ** Dates as text *)

Module WindowFacts.
Import Date DateWindow.

Lemma digit_facts (k : nat) :
  k < 10 -> in_range "0" "9" (digit k) = true /\ dval (digit k) = k.
Proof.
  intros H. do 10 (destruct k as [|k]; [split; reflexivity|]). lia.
Qed.

Lemma four_digit_bound : 9999 = 9 * 1000 + 999.
Proof. reflexivity. Qed.

Lemma four_digits_read (y : nat) :
  y <= 9999 -> re_year (four_digits y) = [(y, EmptyString)].
Proof.
  intros H. rewrite four_digit_bound in H. unfold re_year, four_digits.
  assert (H3 : y / 1000 < 10) by (apply Nat.Div0.div_lt_upper_bound; lia).
  assert (H2 : y / 100 mod 10 < 10) by (apply Nat.mod_upper_bound; lia).
  assert (H1 : y / 10 mod 10 < 10) by (apply Nat.mod_upper_bound; lia).
  assert (H0 : y mod 10 < 10) by (apply Nat.mod_upper_bound; lia).
  destruct (digit_facts _ H3) as [-> ->], (digit_facts _ H2) as [-> ->],
    (digit_facts _ H1) as [-> ->], (digit_facts _ H0) as [-> ->].
  cbn [andb]. do 2 f_equal.
  pose proof (Nat.div_mod_eq y 10) as E0.
  pose proof (Nat.div_mod_eq (y / 10) 10) as E1.
  pose proof (Nat.div_mod_eq (y / 100) 10) as E2.
  rewrite (Nat.Div0.div_div y 10 10) in E1.
  rewrite (Nat.Div0.div_div y 100 10) in E2.
  change (10 * 10) with 100 in E1. change (100 * 10) with 1000 in E2.
  lia.
Qed.

(** The month group of the regular expression reads a zero-padded
    month and nothing else. *)
Lemma month_read {X} (F : nat -> string -> list X) (m : nat) (rest : string) :
  1 <= m <= 12 ->
  flat_map (fun ms => flat_map (fun s1 => F (fst ms) s1) (re_slash (snd ms)))
    (re_month (two_digits m ++ String "/" rest))
  = F m rest.
Proof.
  intros H.
  do 13 (destruct m as [|m];
         [try lia;
          match goal with
          | |- context [re_month ?s] =>
              let t := eval vm_compute in (re_month s) in change (re_month s) with t
          end; cbn; rewrite ?app_nil_r; reflexivity|]).
  lia.
Qed.

Lemma day_read {X} (F : nat -> string -> list X) (d : nat) (rest : string) :
  1 <= d <= 31 ->
  flat_map (fun ds => flat_map (fun s2 => F (fst ds) s2) (re_slash (snd ds)))
    (re_day (two_digits d ++ String "/" rest))
  = F d rest.
Proof.
  intros H.
  do 32 (destruct d as [|d];
         [try lia;
          match goal with
          | |- context [re_day ?s] =>
              let t := eval vm_compute in (re_day s) in change (re_day s) with t
          end; cbn; rewrite ?app_nil_r; reflexivity|]).
  lia.
Qed.

Lemma days_in_month_bounds (y m : nat) : 28 <= days_in_month y m <= 31.
Proof.
  unfold days_in_month.
  do 13 (destruct m as [|m]; [try destruct (is_leap y); lia|]). lia.
Qed.

Lemma valid_spec (d : datetime) :
  valid d = true <->
  1 <= year d /\ 1 <= month d <= 12 /\ 1 <= day d <= days_in_month (year d) (month d).
Proof.
  unfold valid. rewrite !andb_true_iff, !Nat.leb_le. tauto.
Qed.

Lemma re_match_strftime (d : datetime) :
  valid d = true -> year d <= 9999 ->
  re_match (strftime d) = Some (month d, day d, year d, EmptyString).
Proof.
  intros Hv Hy. apply valid_spec in Hv. destruct Hv as (_ & Hm & Hd).
  pose proof (days_in_month_bounds (year d) (month d)) as Hb.
  unfold re_match, strftime.
  change (two_digits (month d) ++ "/" ++ two_digits (day d) ++ "/" ++ four_digits (year d))%string
    with (two_digits (month d)
          ++ String "/" (two_digits (day d) ++ String "/" (four_digits (year d))))%string.
  rewrite (month_read
             (fun mv s1 =>
                flat_map (fun ds =>
                  flat_map (fun s2 =>
                    map (fun ys => (mv, fst ds, fst ys, snd ys)) (re_year s2))
                  (re_slash (snd ds)))
                (re_day s1))) by exact Hm.
  rewrite (day_read
             (fun dv s2 => map (fun ys => (month d, dv, fst ys, snd ys)) (re_year s2)))
    by lia.
  rewrite (four_digits_read _ Hy). reflexivity.
Qed.

End WindowFacts.

Lemma strptime_strftime (d : Date.datetime) :
  DateWindow.valid d = true ->
  1000 <= Date.year d <= 9999 ->
  Date.strptime (DateWindow.strftime d) = Ok d.
Proof.
  intros Hv Hy. unfold Date.strptime.
  rewrite (WindowFacts.re_match_strftime d Hv) by apply Hy.
  apply WindowFacts.valid_spec in Hv. destruct Hv as (H1 & [H2 H3] & [H4 H5]).
  apply Nat.leb_le in H1, H2, H3, H4, H5. rewrite H1, H2, H3, H4, H5.
  destruct d. reflexivity.
Qed.


Module DateTextFacts.
Import Date DateText.

Lemma numeral_digit (k : nat) : k < 10 -> numeral k = DateWindow.digit k.
Proof. intros H. do 10 (destruct k as [|k]; [reflexivity|]). lia. Qed.

Lemma four_digits_eq (y : nat) : y <= 9999 -> four y = DateWindow.four_digits y.
Proof.
  intros H. rewrite WindowFacts.four_digit_bound in H.
  unfold four, DateWindow.four_digits.
  rewrite !numeral_digit; [reflexivity | | | |];
    try (apply Nat.mod_upper_bound; lia).
  apply Nat.Div0.div_lt_upper_bound; lia.
Qed.

Ltac read_group re :=
  match goal with
  | |- context [re ?s] =>
      let t := eval vm_compute in (re s) in change (re s) with t
  end; cbn; rewrite ?app_nil_r; reflexivity.

(** The month group reads a month written in either way. *)
Lemma month_read_any {X} (F : nat -> string -> list X) (m : nat) (mt rest : string) :
  1 <= m <= 12 -> In mt (month_texts m) ->
  flat_map (fun ms => flat_map (fun s1 => F (fst ms) s1) (re_slash (snd ms)))
    (re_month (mt ++ String "/" rest))
  = F m rest.
Proof.
  intros H Hin.
  do 13 (destruct m as [|m];
         [try lia; vm_compute in Hin;
          repeat (destruct Hin as [<- | Hin]; [read_group re_month|]); destruct Hin|]).
  lia.
Qed.

Lemma day_read_any {X} (F : nat -> string -> list X) (d : nat) (dt rest : string) :
  1 <= d <= 31 -> In dt (day_texts d) ->
  flat_map (fun ds => flat_map (fun s2 => F (fst ds) s2) (re_slash (snd ds)))
    (re_day (dt ++ String "/" rest))
  = F d rest.
Proof.
  intros H Hin.
  do 32 (destruct d as [|d];
         [try lia; vm_compute in Hin;
          repeat (destruct Hin as [<- | Hin]; [read_group re_day|]); destruct Hin|]).
  lia.
Qed.

Lemma leap_is_leap (y : nat) : leap y = is_leap y.
Proof.
  unfold leap, is_leap.
  assert (H100 : y mod 100 = 0 -> y mod 4 = 0).
  { intros E. pose proof (Nat.div_mod_eq y 100). pose proof (Nat.div_mod_eq y 4).
    pose proof (Nat.mod_upper_bound y 4). lia. }
  assert (H400 : y mod 400 = 0 -> y mod 100 = 0).
  { intros E. pose proof (Nat.div_mod_eq y 400). pose proof (Nat.div_mod_eq y 100).
    pose proof (Nat.mod_upper_bound y 100). lia. }
  destruct (y mod 4 =? 0) eqn:E4; destruct (y mod 100 =? 0) eqn:E100;
    destruct (y mod 400 =? 0) eqn:E400; cbn [andb orb negb];
    rewrite ?Nat.eqb_eq, ?Nat.eqb_neq in *; try reflexivity; try lia.
Qed.

Lemma month_length (y m n : nat) :
  1 <= m -> nth_error (month_lengths y) (m - 1) = Some n ->
  m <= 12 /\ n = days_in_month y m.
Proof.
  intros H. unfold month_lengths. rewrite leap_is_leap.
  destruct m as [|m]; [lia|].
  do 12 (destruct m as [|m];
         [cbn; intros E; injection E as <-; split; [lia | reflexivity]|]).
  cbn. destruct m; discriminate.
Qed.

Lemma calendar_valid (d : datetime) :
  calendar d -> DateWindow.valid d = true /\ year d <= 9999.
Proof.
  intros ([Hy1 Hy2] & Hm & n & Hn & Hd).
  destruct (month_length _ _ _ Hm Hn) as [Hm' ->].
  split; [|exact Hy2]. apply WindowFacts.valid_spec. lia.
Qed.

Lemma re_match_writes (d : datetime) (s : string) :
  writes d s -> re_match s = Some (month d, day d, year d, EmptyString).
Proof.
  intros (Hc & mt & dt & Hmt & Hdt & ->).
  destruct (calendar_valid d Hc) as [Hv Hy].
  apply WindowFacts.valid_spec in Hv. destruct Hv as (_ & Hm & Hd).
  pose proof (WindowFacts.days_in_month_bounds (year d) (month d)) as Hb.
  unfold re_match.
  change (mt ++ "/" ++ dt ++ "/" ++ four (year d))%string
    with (mt ++ String "/" (dt ++ String "/" (four (year d))))%string.
  rewrite (month_read_any
             (fun mv s1 =>
                flat_map (fun ds =>
                  flat_map (fun s2 =>
                    map (fun ys => (mv, fst ds, fst ys, snd ys)) (re_year s2))
                  (re_slash (snd ds)))
                (re_day s1)) (month d) mt _ Hm Hmt).
  rewrite (day_read_any
             (fun dv s2 => map (fun ys => (month d, dv, fst ys, snd ys)) (re_year s2))
             (day d) dt) by (lia || exact Hdt).
  rewrite (four_digits_eq _ Hy), (WindowFacts.four_digits_read _ Hy). reflexivity.
Qed.

(** [strptime] reads every way of writing a day as that day. *)
Lemma strptime_writes (d : datetime) (s : string) : writes d s -> strptime s = Ok d.
Proof.
  intros H. unfold strptime. rewrite (re_match_writes d s H).
  destruct H as (Hc & _). destruct (calendar_valid d Hc) as [Hv _].
  apply WindowFacts.valid_spec in Hv. destruct Hv as (H1 & [H2 H3] & [H4 H5]).
  apply Nat.leb_le in H1, H2, H3, H4, H5. rewrite H1, H2, H3, H4, H5.
  destruct d. reflexivity.
Qed.

Lemma issue_date_key_issued (r : permit) (d : datetime) :
  issued r d -> Sink.issue_date_key r = Ok d.
Proof.
  intros (s & Hs & Hw). unfold Sink.issue_date_key, dict_getitem. rewrite Hs.
  exact (strptime_writes d s Hw).
Qed.

End DateTextFacts.

Module DateReadFacts.
Import Date DateText.

(** A character the expression takes for a digit is that digit. *)
Lemma digit_char (c : ascii) :
  in_range "0" "9" c = true -> c = numeral (dval c) /\ dval c < 10.
Proof.
  destruct c as [b0 b1 b2 b3 b4 b5 b6 b7].
  destruct b0, b1, b2, b3, b4, b5, b6, b7; intros H; try discriminate H;
    (split; [reflexivity | cbv; lia]).
Qed.

Lemma in_range_bounds (lo hi c : ascii) :
  in_range lo hi c = true -> nat_of_ascii lo <= nat_of_ascii c <= nat_of_ascii hi.
Proof. unfold in_range. rewrite andb_true_iff, !Nat.leb_le. tauto. Qed.

Lemma in_range_digit (lo hi c : ascii) :
  in_range "0" "9" lo = true -> in_range "0" "9" hi = true ->
  in_range lo hi c = true ->
  c = numeral (dval c) /\ dval lo <= dval c <= dval hi /\ dval hi < 10.
Proof.
  intros Hlo Hhi Hc.
  apply in_range_bounds in Hlo, Hhi. pose proof (in_range_bounds _ _ _ Hc) as Hb.
  change (nat_of_ascii "0") with 48 in *. change (nat_of_ascii "9") with 57 in *.
  assert (Hd : in_range "0" "9" c = true).
  { unfold in_range. change (nat_of_ascii "0") with 48. change (nat_of_ascii "9") with 57.
    apply andb_true_iff. rewrite !Nat.leb_le. lia. }
  destruct (digit_char c Hd) as [E _]. split; [exact E|]. unfold dval. lia.
Qed.


Ltac head_cases s :=
  let a := fresh "a" in let s' := fresh "s" in
  destruct s as [|a s']; [reflexivity|];
  destruct a as [b0 b1 b2 b3 b4 b5 b6 b7];
  destruct b0, b1, b2, b3, b4, b5, b6, b7; destruct s'; reflexivity.

(** The alternatives that start with a fixed character, with the test
    on that character written out. *)
Lemma head_one {X} (F : ascii -> string -> list X) (s : string) :
  match s with
  | String "1" (String c r) => F c r
  | _ => []
  end =
  match s with
  | String a (String c r) => if Ascii.eqb a "1" then F c r else []
  | _ => []
  end.
Proof. head_cases s. Qed.

Lemma head_zero {X} (F : ascii -> string -> list X) (s : string) :
  match s with
  | String "0" (String c r) => F c r
  | _ => []
  end =
  match s with
  | String a (String c r) => if Ascii.eqb a "0" then F c r else []
  | _ => []
  end.
Proof. head_cases s. Qed.

Lemma head_three {X} (F : ascii -> string -> list X) (s : string) :
  match s with
  | String "3" (String c r) => F c r
  | _ => []
  end =
  match s with
  | String a (String c r) => if Ascii.eqb a "3" then F c r else []
  | _ => []
  end.
Proof. head_cases s. Qed.

Lemma head_space {X} (F : ascii -> string -> list X) (s : string) :
  match s with
  | String " " (String c r) => F c r
  | _ => []
  end =
  match s with
  | String a (String c r) => if Ascii.eqb a " " then F c r else []
  | _ => []
  end.
Proof. head_cases s. Qed.

(** One alternative: a fixed first character, then a digit in a
    range. *)
Lemma fixed_then_digit (L lo hi : ascii) (base : nat) (s r : string) (v : nat) :
  in_range "0" "9" lo = true -> in_range "0" "9" hi = true ->
  In (v, r)
     match s with
     | String a (String c r') =>
         if Ascii.eqb a L then if in_range lo hi c then [(base + dval c, r')] else [] else []
     | _ => []
     end ->
  exists k, s = String L (String (numeral k) r) /\ v = base + k /\
            dval lo <= k <= dval hi /\ dval hi < 10.
Proof.
  intros Hlo Hhi H. destruct s as [|a [|c r']]; try contradiction.
  destruct (Ascii.eqb a L) eqn:Ea; [|contradiction]. apply Ascii.eqb_eq in Ea. subst a.
  destruct (in_range lo hi c) eqn:Ec; [|contradiction].
  destruct H as [H | []]. injection H as <- <-.
  destruct (in_range_digit lo hi c Hlo Hhi Ec) as (E & Hb & Hh).
  exists (dval c). rewrite <- E. auto.
Qed.

(** One alternative: a single digit in a range. *)
Lemma lone_digit (lo hi : ascii) (s r : string) (v : nat) :
  in_range "0" "9" lo = true -> in_range "0" "9" hi = true ->
  In (v, r)
     match s with
     | String c r' => if in_range lo hi c then [(dval c, r')] else []
     | _ => []
     end ->
  exists k, s = String (numeral k) r /\ v = k /\ dval lo <= k <= dval hi /\ dval hi < 10.
Proof.
  intros Hlo Hhi H. destruct s as [|c r']; try contradiction.
  destruct (in_range lo hi c) eqn:Ec; [|contradiction].
  destruct H as [H | []]. injection H as <- <-.
  destruct (in_range_digit lo hi c Hlo Hhi Ec) as (E & Hb & Hh).
  exists (dval c). rewrite <- E. auto.
Qed.

Lemma re_month_inv (s r : string) (m : nat) :
  In (m, r) (re_month s) ->
  exists mt, s = (mt ++ r)%string /\ In mt (month_texts m) /\ 1 <= m <= 12.
Proof.
  unfold re_month. rewrite head_one, head_zero, !in_app_iff.
  intros [H | [H | H]].
  - apply (fixed_then_digit "1" "0" "2" 10) in H; [|reflexivity|reflexivity].
    destruct H as (k & -> & -> & Hk & _). change (dval "0") with 0 in Hk.
    change (dval "2") with 2 in Hk.
    exists (two (10 + k)). split; [|split; [left; reflexivity | lia]].
    destruct k as [|[|[|k]]]; [reflexivity .. | lia].
  - apply (fixed_then_digit "0" "1" "9" 0) in H; [|reflexivity|reflexivity].
    destruct H as (k & -> & -> & Hk & _). change (dval "1") with 1 in Hk.
    change (dval "9") with 9 in Hk. cbn [Nat.add].
    exists (two k). split; [|split; [left; reflexivity | lia]].
    do 10 (destruct k as [|k]; [try lia; reflexivity|]). lia.
  - apply (lone_digit "1" "9") in H; [|reflexivity|reflexivity].
    destruct H as (k & -> & -> & Hk & _). change (dval "1") with 1 in Hk.
    change (dval "9") with 9 in Hk.
    exists (one k). split; [reflexivity|]. split; [|lia].
    unfold month_texts. replace (k <? 10) with true by (symmetry; apply Nat.ltb_lt; lia).
    right. left. reflexivity.
Qed.


Lemma re_day_inv (s r : string) (d : nat) :
  In (d, r) (re_day s) ->
  exists dt, s = (dt ++ r)%string /\ In dt (day_texts d) /\ 1 <= d <= 31.
Proof.
  unfold re_day. rewrite head_three, head_zero, head_space, !in_app_iff.
  intros [H | [H | [H | [H | H]]]].
  - apply (fixed_then_digit "3" "0" "1" 30) in H; [|reflexivity|reflexivity].
    destruct H as (k & -> & -> & Hk & _). change (dval "0") with 0 in Hk.
    change (dval "1") with 1 in Hk.
    exists (two (30 + k)). split; [|split; [left; reflexivity | lia]].
    destruct k as [|[|k]]; [reflexivity .. | lia].
  - destruct s as [|t [|c r']]; try contradiction.
    destruct (in_range "1" "2" t) eqn:Et; [|contradiction].
    destruct (in_range "0" "9" c) eqn:Ec; [|contradiction].
    destruct H as [H | []]. injection H as <- <-.
    destruct (in_range_digit "1" "2" t eq_refl eq_refl Et) as (E1 & Hb1 & _).
    destruct (digit_char c Ec) as (E2 & Hb2).
    change (dval "1") with 1 in Hb1. change (dval "2") with 2 in Hb1.
    exists (two (10 * dval t + dval c)). split; [|split; [left; reflexivity | lia]].
    revert E1 E2 Hb1 Hb2. generalize (dval t) as kt, (dval c) as kc.
    intros kt kc -> -> Hb1 Hb2.
    destruct kt as [|[|[|kt]]]; try lia;
      do 10 (destruct kc as [|kc]; [reflexivity|]); lia.
  - apply (fixed_then_digit "0" "1" "9" 0) in H; [|reflexivity|reflexivity].
    destruct H as (k & -> & -> & Hk & _). change (dval "1") with 1 in Hk.
    change (dval "9") with 9 in Hk. cbn [Nat.add].
    exists (two k). split; [|split; [left; reflexivity | lia]].
    do 10 (destruct k as [|k]; [try lia; reflexivity|]). lia.
  - apply (lone_digit "1" "9") in H; [|reflexivity|reflexivity].
    destruct H as (k & -> & -> & Hk & _). change (dval "1") with 1 in Hk.
    change (dval "9") with 9 in Hk.
    exists (one k). split; [reflexivity|]. split; [|lia].
    unfold day_texts. replace (k <? 10) with true by (symmetry; apply Nat.ltb_lt; lia).
    right. left. reflexivity.
  - apply (fixed_then_digit " " "1" "9" 0) in H; [|reflexivity|reflexivity].
    destruct H as (k & -> & -> & Hk & _). change (dval "1") with 1 in Hk.
    change (dval "9") with 9 in Hk. cbn [Nat.add].
    exists (String " " (one k)). split; [reflexivity|]. split; [|lia].
    unfold day_texts. replace (k <? 10) with true by (symmetry; apply Nat.ltb_lt; lia).
    right. right. left. reflexivity.
Qed.

Lemma re_slash_inv (s r : string) : In r (re_slash s) -> s = String "/" r.
Proof.
  unfold re_slash. destruct s as [|a s']; [contradiction|].
  destruct a as [b0 b1 b2 b3 b4 b5 b6 b7].
  destruct b0, b1, b2, b3, b4, b5, b6, b7; cbn; try contradiction.
  intros [-> | []]. reflexivity.
Qed.

Lemma four_of_digits (a b c d : nat) :
  a < 10 -> b < 10 -> c < 10 -> d < 10 ->
  four (1000 * a + 100 * b + 10 * c + d) =
  String (numeral a) (String (numeral b) (String (numeral c) (String (numeral d) ""))).
Proof.
  intros Ha Hb Hc Hd. unfold four.
  set (y := 1000 * a + 100 * b + 10 * c + d).
  assert (E3 : y / 1000 = a) by (symmetry; apply (Nat.div_unique y 1000 a (100 * b + 10 * c + d)); unfold y; lia).
  assert (E2 : y / 100 = 10 * a + b) by (symmetry; apply (Nat.div_unique y 100 (10 * a + b) (10 * c + d)); unfold y; lia).
  assert (E1 : y / 10 = 100 * a + 10 * b + c) by (symmetry; apply (Nat.div_unique y 10 (100 * a + 10 * b + c) d); unfold y; lia).
  assert (E0 : y mod 10 = d) by (symmetry; apply (Nat.mod_unique y 10 (100 * a + 10 * b + c) d); unfold y; lia).
  rewrite E3, E2, E1, E0.
  replace ((10 * a + b) mod 10) with b
    by (apply (Nat.mod_unique (10 * a + b) 10 a b); lia).
  replace ((100 * a + 10 * b + c) mod 10) with c
    by (apply (Nat.mod_unique (100 * a + 10 * b + c) 10 (10 * a + b) c); lia).
  reflexivity.
Qed.

Lemma re_year_inv (s r : string) (y : nat) :
  In (y, r) (re_year s) -> s = (four y ++ r)%string /\ y <= 9999.
Proof.
  unfold re_year. destruct s as [|a [|b [|c [|d r']]]]; try contradiction.
  destruct (in_range "0" "9" a) eqn:Ea; [|contradiction].
  destruct (in_range "0" "9" b) eqn:Eb; [|contradiction].
  destruct (in_range "0" "9" c) eqn:Ec; [|contradiction].
  destruct (in_range "0" "9" d) eqn:Ed; [|contradiction].
  intros [H | []]. apply pair_equal_spec in H. destruct H as [<- <-].
  destruct (digit_char a Ea) as [E1 H1], (digit_char b Eb) as [E2 H2],
    (digit_char c Ec) as [E3 H3], (digit_char d Ed) as [E4 H4].
  rewrite (four_of_digits _ _ _ _ H1 H2 H3 H4), <- E1, <- E2, <- E3, <- E4.
  split; [reflexivity|]. rewrite WindowFacts.four_digit_bound. lia.
Qed.

Lemma month_length_back (y m : nat) :
  1 <= m <= 12 -> nth_error (month_lengths y) (m - 1) = Some (days_in_month y m).
Proof.
  intros H. unfold month_lengths. rewrite DateTextFacts.leap_is_leap.
  destruct m as [|m]; [lia|].
  do 12 (destruct m as [|m]; [reflexivity|]). lia.
Qed.

(** [strptime] accepts nothing but the ways of writing a day of the
    calendar. *)
Lemma strptime_only_writes (s : string) (d : datetime) : strptime s = Ok d -> writes d s.
Proof.
  unfold strptime. destruct (re_match s) as [[[[m dd] y] rest]|] eqn:E; [|discriminate].
  destruct rest; [|discriminate].
  destruct ((1 <=? y) && (1 <=? m) && (m <=? 12) && (1 <=? dd) && (dd <=? days_in_month y m))
    eqn:Ev; [|discriminate].
  intros H. injection H as <-.
  rewrite !andb_true_iff, !Nat.leb_le in Ev. destruct Ev as ((((Hy & Hm1) & Hm2) & Hd1) & Hd2).
  unfold re_match in E.
  destruct (flat_map _ (re_month s)) as [|x l] eqn:El; [discriminate|].
  injection E as ->.
  assert (Hin : In (m, dd, y, EmptyString) (flat_map
            (fun ms =>
               flat_map (fun s1 =>
                 flat_map (fun ds =>
                   flat_map (fun s2 =>
                     map (fun ys => (fst ms, fst ds, fst ys, snd ys)) (re_year s2))
                   (re_slash (snd ds)))
                 (re_day s1))
               (re_slash (snd ms)))
            (re_month s))) by (rewrite El; left; reflexivity).
  clear El.
  apply in_flat_map in Hin. destruct Hin as ([m' r1] & Hmo & Hin).
  apply in_flat_map in Hin. destruct Hin as (s1 & Hs1 & Hin).
  apply in_flat_map in Hin. destruct Hin as ([d' r2] & Hda & Hin).
  apply in_flat_map in Hin. destruct Hin as (s2 & Hs2 & Hin).
  apply in_map_iff in Hin. destruct Hin as ([y' r3] & Heq & Hye).
  cbn [fst snd] in *. injection Heq as -> -> -> ->.
  destruct (re_month_inv _ _ _ Hmo) as (mt & -> & Hmt & _).
  apply re_slash_inv in Hs1. subst r1.
  destruct (re_day_inv _ _ _ Hda) as (dt & -> & Hdt & _).
  apply re_slash_inv in Hs2. subst r2.
  destruct (re_year_inv _ _ _ Hye) as (-> & Hy9).
  split.
  - cbn [year month day]. split; [split; [exact Hy | exact Hy9]|]. split; [exact Hm1|].
    exists (days_in_month y m).
    split; [apply month_length_back; split; assumption | split; assumption].
  - exists mt, dt. cbn [year month day]. split; [exact Hmt|]. split; [exact Hdt|].
    rewrite append_empty_r. reflexivity.
Qed.

End DateReadFacts.

(** A record's issue_date parses exactly when it writes a day of the
    calendar. *)
Lemma date_parses_issued (r : permit) : date_parses r <-> exists d, issued r d.
Proof.
  split.
  - intros (s & d & Hs & Hp). exists d, s. split; [exact Hs|].
    apply DateReadFacts.strptime_only_writes, Hp.
  - intros (d & s & Hs & Hw). exists s, d. split; [exact Hs|].
    apply DateTextFacts.strptime_writes, Hw.
Qed.

Lemma strongly_sorted_weaken {A} (R R' : A -> A -> Prop) (l : list A) :
  (forall a b, R a b -> R' a b) -> StronglySorted R l -> StronglySorted R' l.
Proof.
  intros H. induction 1 as [|a l Hs IH Ha]; constructor; [exact IH|].
  eapply Forall_impl; [|exact Ha]. intros b. apply H.
Qed.

Lemma not_older_newest_first (a b : permit) : not_older a b -> newest_first a b.
Proof.
  intros (ta & tb & Ha & Hb & Hle) da db Hda Hdb.
  rewrite (DateTextFacts.issue_date_key_issued a da Hda) in Ha.
  rewrite (DateTextFacts.issue_date_key_issued b db Hdb) in Hb.
  injection Ha as <-. injection Hb as <-.
  apply SortFacts.date_leb_spec, Hle.
Qed.

(** C4.  For a non-empty list of records the sink can take (each has
    an issue_date and only keys that are headers): if some record's
    issue_date is rejected by [strptime(.., "%m/%d/%Y")], the sort is
    abandoned, the warning is logged and the primary file is written
    whole, its rows in the order of the input list; if every issue_date
    parses, the primary file holds the same records with no record older
    than a record after it, and no warning is logged before the write:
    every issue_date then writes a day of the calendar as
    month/day/year, and of two records the one issued on the later
    day stands first.
    Without the sorted variants the call returns normally in both
    cases. *)
Theorem primary_csv_order
  (csv_headers : list string) (permits : list permit) (county_slug : string)
  (generate_sorted : bool) (now : string) (st : state)
  (res : result (list permit)) (st' : state) :
  permits <> [] ->
  Forall (sinkable csv_headers) permits ->
  Sink.save_to_csv csv_headers permits county_slug generate_sorted now st = (res, st') ->
  (Exists date_unparseable permits ->
   (exists more, files st' =
      files st ++ (Sink.base_filename county_slug now, csv_of csv_headers permits) :: more) /\
   (exists more, log st' =
      log st ++ SinkSpec.sort_warning county_slug
             :: SinkSpec.saved_info county_slug now (List.length permits) :: more) /\
   (generate_sorted = false -> res = Ok permits)) /\
  (Forall date_parses permits ->
   exists sorted,
     Permutation permits sorted /\
     StronglySorted not_older sorted /\
     Forall (fun r => exists d, issued r d) sorted /\
     StronglySorted newest_first sorted /\
     (exists more, files st' =
        files st ++ (Sink.base_filename county_slug now, csv_of csv_headers sorted) :: more) /\
     (exists more, log st' =
        log st ++ SinkSpec.saved_info county_slug now (List.length sorted) :: more) /\
     (generate_sorted = false -> res = Ok sorted)).
Proof.
  intros Hne Hrec H.
  destruct permits as [|p ps]; [congruence|]. clear Hne.
  rewrite FrameFacts.save_to_csv_steps in H. unfold bind in H.
  assert (Hkeys : forall l, Permutation (p :: ps) l ->
                            Forall (fun r => incl (dict_keys r) csv_headers) l).
  { intros l Hl. eapply Permutation_Forall; [exact Hl|].
    eapply Forall_impl; [|exact Hrec]. intros r Hr. apply Hr. }
  split.
  - intros Hbad.
    assert (Es : PySort.py_sorted Date.leb Sink.issue_date_key true (p :: ps)
                 = Raise ValueError).
    { apply SortFacts.py_sorted_raises.
      - eapply Forall_impl; [|exact Hrec]. intros r Hr e.
        apply SinkFacts.issue_date_key_raises, Hr.
      - eapply Exists_impl; [|exact Hbad]. intros r Hr. exists ValueError.
        apply SinkFacts.issue_date_key_unparseable, Hr. }
    unfold SinkSpec.sort_step in H. rewrite Es in H.
    unfold bind, logging, ret in H. simpl in H.
    apply (SaveFacts.write_step_primary _ _ _ _ _ _ _ _ (Hkeys _ (Permutation_refl _))) in H.
    destruct H as ([mf Hf] & [ml Hl] & Hres). simpl in Hf, Hl.
    split; [|split].
    + exists mf. exact Hf.
    + exists ml. rewrite Hl, <- app_assoc. reflexivity.
    + intros Hg. apply Hres, Hg.
  - intros Hall.
    destruct (SortFacts.py_sorted_all_ok Date.leb Sink.issue_date_key true (p :: ps))
      as [sorted Es].
    { eapply Forall_impl; [|exact Hall]. intros r. apply SinkFacts.issue_date_key_parses. }
    unfold SinkSpec.sort_step in H. rewrite Es in H. unfold ret in H.
    pose proof (SortFacts.py_sorted_perm _ _ _ _ _ Es) as Hp.
    apply (SaveFacts.write_step_primary _ _ _ _ _ _ _ _ (Hkeys _ Hp)) in H.
    destruct H as (Hf & Hl & Hres).
    assert (Hso : StronglySorted not_older sorted)
      by apply (SortFacts.py_sorted_descending Date.leb Sink.issue_date_key
                  SortFacts.date_leb_total SortFacts.date_leb_trans _ _ Es).
    exists sorted. split; [exact Hp|]. split; [exact Hso|].
    split; [|split; [|split; [exact Hf | split; [exact Hl|]]]].
    + eapply Permutation_Forall; [exact Hp|].
      eapply Forall_impl; [|exact Hall]. intros r. apply date_parses_issued.
    + exact (strongly_sorted_weaken _ _ _ not_older_newest_first Hso).
    + intros Hg. apply Hres, Hg.
Qed.

Lemma primary_csv_order_witness :
  (Exists date_unparseable [Records.roof; Records.iso_dated; Records.addition] /\
   exists more,
     files (snd (Sink.save_to_csv field_names
                   [Records.roof; Records.iso_dated; Records.addition]
                   "bexar" false "20240108_060000" Records.initial)) =
     files Records.initial ++
     (Sink.base_filename "bexar" "20240108_060000",
      csv_of field_names [Records.roof; Records.iso_dated; Records.addition]) :: more) /\
  (Forall date_parses [Records.roof; Records.addition] /\
   exists sorted more,
     Permutation [Records.roof; Records.addition] sorted /\
     StronglySorted newest_first sorted /\
     files (snd (Sink.save_to_csv field_names [Records.roof; Records.addition]
                   "bexar" false "20240108_060000" Records.initial)) =
     files Records.initial ++
     (Sink.base_filename "bexar" "20240108_060000", csv_of field_names sorted) :: more).
Proof.
  assert (Hbad : Exists date_unparseable [Records.roof; Records.iso_dated; Records.addition]).
  { apply Exists_cons_tl, Exists_cons_hd. exists "2024-01-06". split; reflexivity. }
  assert (Hall : Forall date_parses [Records.roof; Records.addition]).
  { repeat (apply Forall_cons;
            [eexists; eexists; split; [reflexivity | vm_compute; reflexivity]|]).
    apply Forall_nil. }
  split; (split; [assumption|]).
  - refine (proj1 (proj1 (primary_csv_order field_names
                            [Records.roof; Records.iso_dated; Records.addition]
                            "bexar" false "20240108_060000" Records.initial _ _
                            _ _ eq_refl) Hbad)).
    + discriminate.
    + repeat (apply Forall_cons;
              [apply SinkFacts.permit_record_sinkable; [reflexivity | apply incl_refl]|]).
      apply Forall_nil.
  - assert (Hne : [Records.roof; Records.addition] <> []) by discriminate.
    assert (Hsink : Forall (sinkable field_names) [Records.roof; Records.addition]).
    { repeat (apply Forall_cons;
              [apply SinkFacts.permit_record_sinkable; [reflexivity | apply incl_refl]|]).
      apply Forall_nil. }
    destruct (proj2 (primary_csv_order field_names [Records.roof; Records.addition]
                       "bexar" false "20240108_060000" Records.initial _ _
                       Hne Hsink eq_refl) Hall)
      as (sorted & Hp & _ & _ & Hn & [more Hf] & _).
    exists sorted, more. split; [exact Hp|]. split; [exact Hn | exact Hf].
Defined.

(* ===================================================================== *)
(** ** The sorted variants and malformed dates *)
(* ===================================================================== *)

Lemma date_key_malformed (r : permit) : date_malformed r -> Sink.date_key r = Raise ValueError.
Proof.
  intros (d & Hd & Hne & Hp). unfold Sink.date_key, dict_getitem. rewrite Hd. simpl.
  destruct d; [congruence | exact Hp].
Qed.

Lemma date_malformed_unparseable (r : permit) : date_malformed r -> date_unparseable r.
Proof. intros (d & Hd & _ & Hp). exists d. auto. Qed.

(** C9.  The date key of [generate_sorted_versions] gives
    [datetime.min] for an empty issue_date and parses every other one
    unguarded.  So on records that all have an issue_date, one of them
    non-empty and rejected by [strptime], [generate_sorted_versions]
    raises [ValueError] before it writes any file; and [save_to_csv]
    with [generate_sorted] set (on records whose keys are headers) lets
    that [ValueError] through after it has written the primary file (in
    input order, with the warning), which is then the only file
    written. *)
Theorem sorted_variants_raise_on_malformed_date
  (csv_headers : list string) (permits : list permit) (county_slug : string) (st : state) :
  Forall dated permits ->
  Exists date_malformed permits ->
  (forall r, dict_get r "issue_date" = Some EmptyString ->
             Sink.date_key r = Ok Date.datetime_min) /\
  (forall timestamp,
      Sink.generate_sorted_versions csv_headers permits county_slug timestamp st
      = (Raise ValueError, st)) /\
  (Forall (sinkable csv_headers) permits ->
   forall now,
     Sink.save_to_csv csv_headers permits county_slug true now st =
     (Raise ValueError,
      mk_state (files st ++ [(Sink.base_filename county_slug now, csv_of csv_headers permits)])
               (log st ++ [SinkSpec.sort_warning county_slug;
                           SinkSpec.saved_info county_slug now (List.length permits)])
               (sessions st))).
Proof.
  intros Hrec Hbad.
  assert (Hdate : PySort.py_sorted Date.leb Sink.date_key true permits = Raise ValueError).
  { apply SortFacts.py_sorted_raises.
    - eapply Forall_impl; [|exact Hrec]. intros r Hr e.
      apply SinkFacts.date_key_raises, Hr.
    - eapply Exists_impl; [|exact Hbad]. intros r Hr. exists ValueError.
      apply date_key_malformed, Hr. }
  assert (Hgen : forall timestamp s,
             Sink.generate_sorted_versions csv_headers permits county_slug timestamp s
             = (Raise ValueError, s)).
  { intros timestamp s. unfold Sink.generate_sorted_versions, Sink.sort_keys.
    simpl. unfold bind at 1, lift. rewrite Hdate. reflexivity. }
  split; [|split].
  - intros r Hr. unfold Sink.date_key, dict_getitem. rewrite Hr. reflexivity.
  - intros timestamp. apply Hgen.
  - intros Hsink now.
    destruct permits as [|p ps]; [inversion Hbad|].
    rewrite FrameFacts.save_to_csv_steps.
    assert (Es : PySort.py_sorted Date.leb Sink.issue_date_key true (p :: ps)
                 = Raise ValueError).
    { apply SortFacts.py_sorted_raises.
      - eapply Forall_impl; [|exact Hrec]. intros r Hr e.
        apply SinkFacts.issue_date_key_raises, Hr.
      - eapply Exists_impl; [|exact Hbad]. intros r Hr. exists ValueError.
        apply SinkFacts.issue_date_key_unparseable, date_malformed_unparseable, Hr. }
    unfold bind at 1, SinkSpec.sort_step. rewrite Es.
    unfold bind at 1, logging, ret. cbn beta iota.
    unfold SinkSpec.write_step, bind at 1.
    rewrite SinkFacts.write_csv_ok.
    + unfold bind at 1, logging. cbn beta iota. unfold bind at 1.
      rewrite Hgen. unfold write_file. simpl. rewrite <- !app_assoc. reflexivity.
    + eapply Forall_impl; [|exact Hsink]. intros r Hr. apply Hr.
Qed.

Lemma sorted_variants_raise_on_malformed_date_witness :
  Exists date_malformed [Records.roof; Records.iso_dated; Records.addition] /\
  Sink.generate_sorted_versions field_names
    [Records.roof; Records.iso_dated; Records.addition] "bexar" "20240108_060000"
    Records.initial
  = (Raise ValueError, Records.initial).
Proof.
  assert (Hbad : Exists date_malformed [Records.roof; Records.iso_dated; Records.addition]).
  { apply Exists_cons_tl, Exists_cons_hd. exists "2024-01-06".
    split; [reflexivity|]. split; [discriminate | reflexivity]. }
  split; [exact Hbad|].
  refine (proj1 (proj2 (sorted_variants_raise_on_malformed_date field_names
                          [Records.roof; Records.iso_dated; Records.addition]
                          "bexar" Records.initial _ Hbad)) _).
  repeat (apply Forall_cons; [unfold dated; simpl; discriminate|]).
  apply Forall_nil.
Defined.

(* ===================================================================== *)
(** ** The valuation key *)
(* ===================================================================== *)




(* ===================================================================== *)
(** ** Failure isolation between sources *)
(* ===================================================================== *)

Lemma bind_run {A B} (c : M A) (k : A -> M B) (st : state) :
  bind c k st = match c st with
                | (Ok a, st') => k a st'
                | (Raise e, st') => (Raise e, st')
                end.
Proof. reflexivity. Qed.

Module ScraperFacts.
Import Scraper ScraperSpec FrameFacts.

Section WithConfig.
Variable csv_headers : list string.

Lemma scrape_steps county_name county_slug parse w :
  scrape csv_headers county_name county_slug parse w =
  bind (get_driver w)
       (fun _ => try_finally (attempt csv_headers county_name county_slug parse w) quit).
Proof. reflexivity. Qed.

(** [get_driver] returns with one more session open. *)
Lemma get_driver_ok w st :
  driver w = Ok tt ->
  get_driver w st = (Ok tt, mk_state (files st) (log st) (S (sessions st))).
Proof.
  unfold driver, get_driver, start_browser, lift. rewrite bind_run.
  destruct (launch w) as [[]|e]; simpl; [|discriminate]. intros ->. reflexivity.
Qed.

(** [get_driver] raises: before the browser started, or with the
    browser left running. *)
Lemma get_driver_raises w st e :
  driver w = Raise e -> get_driver w st = (Raise e, stranded w st).
Proof.
  unfold driver, get_driver, start_browser, lift, stranded. rewrite bind_run.
  destruct (launch w) as [[]|e']; simpl.
  - intros ->. reflexivity.
  - intros H. injection H as ->. reflexivity.
Qed.

Lemma preserves_pipeline county_name county_slug parse w :
  preserves (pipeline csv_headers county_name county_slug parse w).
Proof.
  unfold pipeline. frame. apply preserves_save_to_csv.
Qed.

(** The guarded attempt always returns normally; it logs "Starting"
    first and, when the page could not be had, the error and nothing
    else. *)
Lemma attempt_returns county_name county_slug parse w st :
  exists st' l,
    attempt csv_headers county_name county_slug parse w st = (Ok tt, st') /\
    sessions st' = sessions st /\
    log st' = log st ++ starting county_name :: l /\
    (exists f, files st' = files st ++ f) /\
    (forall e, page w = Raise e ->
               l = [failed county_name e] /\ files st' = files st).
Proof.
  unfold attempt, try_except, bind at 1, logging at 1.
  set (st1 := mk_state (files st) (log st ++ [starting county_name]) (sessions st)).
  pose proof (preserves_pipeline county_name county_slug parse w st1) as Hp.
  destruct (pipeline csv_headers county_name county_slug parse w st1) as [[[]|e] st2] eqn:E;
    destruct Hp as (Hs & [l Hl] & [f Hf]); simpl in Hs, Hl, Hf.
  - exists st2, l. split; [reflexivity|]. split; [exact Hs|]. split; [|split].
    + rewrite Hl, <- app_assoc. reflexivity.
    + exists f. exact Hf.
    + intros e He. unfold pipeline, bind at 1, lift in E. rewrite He in E. discriminate.
  - eexists. exists (l ++ [failed county_name e]).
    split; [reflexivity|]. simpl. split; [exact Hs|]. split; [|split].
    + rewrite Hl, <- !app_assoc. reflexivity.
    + exists f. exact Hf.
    + intros e' He. unfold pipeline, bind at 1, lift in E. rewrite He in E.
      injection E as <- <-. simpl in Hl, Hf.
      assert (l = []) as ->
        by (apply (app_inv_head (log st1)); rewrite app_nil_r; symmetry; exact Hl).
      assert (f = []) as ->
        by (apply (app_inv_head (files st1)); rewrite app_nil_r; symmetry; exact Hf).
      split; reflexivity.
Qed.

(** Once its session exists, a source's scrape returns normally
    whatever happens inside, and the session is gone afterwards. *)
Lemma scrape_returns county_name county_slug parse w st :
  driver w = Ok tt ->
  exists st' l,
    scrape csv_headers county_name county_slug parse w st = (Ok tt, st') /\
    sessions st' = sessions st /\
    log st' = log st ++ starting county_name :: l /\
    (exists f, files st' = files st ++ f) /\
    (forall e, page w = Raise e ->
               l = [failed county_name e] /\ files st' = files st).
Proof.
  intros Hd. rewrite scrape_steps, bind_run, (get_driver_ok w st Hd).
  unfold try_finally.
  destruct (attempt_returns county_name county_slug parse w
              (mk_state (files st) (log st) (S (sessions st))))
    as (st2 & l & -> & Hs & Hl & Hf & Herr).
  unfold quit. eexists. exists l. split; [reflexivity|]. simpl.
  rewrite Hs. simpl. split; [reflexivity|]. split; [exact Hl|]. split; [exact Hf|].
  exact Herr.
Qed.

(** What a source leaves behind once its session exists, by the place
    where its [try] body stopped. *)
Lemma scrape_run county_name county_slug parse w st :
  driver w = Ok tt ->
  scrape csv_headers county_name county_slug parse w st =
  (Ok tt,
   match page w with
   | Raise e => caught county_name e (started county_name st)
   | Ok soup =>
       match parse soup with
       | Raise e => caught county_name e (started county_name st)
       | Ok ps =>
           match Sink.save_to_csv csv_headers ps county_slug false (clock w)
                   (started county_name st) with
           | (Raise e, s2) => caught county_name e s2
           | (Ok out, s2) => completed county_name (List.length out) s2
           end
       end
   end).
Proof.
  intros Hd. rewrite scrape_steps, bind_run, (get_driver_ok w st Hd).
  unfold try_finally, attempt, try_except. rewrite bind_run. unfold logging at 1.
  cbn [files log sessions]. fold (started county_name st).
  unfold pipeline. rewrite bind_run. unfold lift at 1.
  destruct (page w) as [soup|e]; [|reflexivity].
  rewrite bind_run. unfold lift at 1.
  destruct (parse soup) as [ps|e]; [|reflexivity].
  rewrite bind_run.
  destruct (Sink.save_to_csv csv_headers ps county_slug false (clock w)
              (started county_name st)) as [[out|e] s2]; reflexivity.
Qed.

(** A session that does not start is not caught by the source. *)
Lemma scrape_without_driver county_name county_slug parse w st e :
  driver w = Raise e ->
  scrape csv_headers county_name county_slug parse w st = (Raise e, stranded w st).
Proof.
  intros Hd. rewrite scrape_steps, bind_run, (get_driver_raises w st e Hd). reflexivity.
Qed.

End WithConfig.
End ScraperFacts.

(** C3, as the claim states it: when the browser session of the second
    source cannot be created, [run_all] itself raises, and the third and
    fourth sources are not run although their pages hold records. *)
Lemma driver_failure_aborts_run_all :
  fst (Scraper.run_all field_names false ScraperSpec.hamilton_has_no_browser Records.initial)
    = Raise DriverError /\
  map fst (files (snd (Scraper.run_all field_names false
                         ScraperSpec.hamilton_has_no_browser Records.initial)))
    = ["data/bexar_permits_20240108_060000.csv"] /\
  map fst (files (snd (Scraper.run_all field_names false
                         ScraperSpec.hamilton_times_out Records.initial)))
    = ["data/bexar_permits_20240108_060000.csv";
       "data/davidson_permits_20240108_060000.csv";
       "data/travis_permits_20240108_060000.csv"].
Proof. vm_compute. repeat split. Qed.

(** C3, amended.  Once a source's browser session exists, its scrape
    returns normally whatever its [try] body does, and the session is
    released: a failure of the navigation, of the extractor or of the
    sink is caught and logged as that source's error, in the state in
    which it was raised; a body that completes logs the number of
    records.  So when every session can be created [run_all] returns
    normally after running the four sources one after the other, each
    from the state the one before left, and no session stays open.
    A session that cannot be created is outside the source's [try]:
    [get_driver]'s exception leaves [run_all] from the state the
    sources before left, the later sources are not run, and a browser
    that had started before [get_driver] failed is still open. *)
Theorem source_failures_are_contained
  (csv_headers : list string) (generate_sorted : bool) :
  (forall county_name county_slug parse v s,
      Scraper.driver v = Ok tt ->
      exists s',
        Scraper.scrape csv_headers county_name county_slug parse v s = (Ok tt, s') /\
        sessions s' = sessions s /\
        (forall e, Scraper.page v = Raise e ->
                   s' = ScraperSpec.caught county_name e (ScraperSpec.started county_name s)) /\
        (forall soup e, Scraper.page v = Ok soup -> parse soup = Raise e ->
                   s' = ScraperSpec.caught county_name e (ScraperSpec.started county_name s)) /\
        (forall soup ps e s2,
            Scraper.page v = Ok soup -> parse soup = Ok ps ->
            Sink.save_to_csv csv_headers ps county_slug false (Scraper.clock v)
              (ScraperSpec.started county_name s) = (Raise e, s2) ->
            s' = ScraperSpec.caught county_name e s2) /\
        (forall soup ps out s2,
            Scraper.page v = Ok soup -> parse soup = Ok ps ->
            Sink.save_to_csv csv_headers ps county_slug false (Scraper.clock v)
              (ScraperSpec.started county_name s) = (Ok out, s2) ->
            s' = ScraperSpec.completed county_name (List.length out) s2)) /\
  (forall w st,
      ScraperSpec.sessions_start w ->
      exists s1 s2 s3 s4,
        Scraper.scrape_bexar csv_headers (Scraper.bexar w) (ScraperSpec.opened st)
          = (Ok tt, s1) /\
        Scraper.scrape_hamilton csv_headers (Scraper.hamilton w) s1 = (Ok tt, s2) /\
        Scraper.scrape_davidson csv_headers (Scraper.davidson w) s2 = (Ok tt, s3) /\
        Scraper.scrape_travis csv_headers (Scraper.travis w) s3 = (Ok tt, s4) /\
        Scraper.run_all csv_headers generate_sorted w st = (Ok tt, ScraperSpec.closed s4) /\
        sessions s4 = sessions st /\
        (exists f, files s4 = files st ++ f) /\
        (In (ScraperSpec.starting "Bexar County") (log s4) /\
         In (ScraperSpec.starting "Hamilton County") (log s4) /\
         In (ScraperSpec.starting "Davidson County") (log s4) /\
         In (ScraperSpec.starting "Travis County") (log s4)) /\
        (forall e, Scraper.page (Scraper.bexar w) = Raise e ->
                   In (ScraperSpec.failed "Bexar County" e) (log s4)) /\
        (forall e, Scraper.page (Scraper.hamilton w) = Raise e ->
                   In (ScraperSpec.failed "Hamilton County" e) (log s4)) /\
        (forall e, Scraper.page (Scraper.davidson w) = Raise e ->
                   In (ScraperSpec.failed "Davidson County" e) (log s4)) /\
        (forall e, Scraper.page (Scraper.travis w) = Raise e ->
                   In (ScraperSpec.failed "Travis County" e) (log s4))) /\
  (forall w st e,
      Scraper.driver (Scraper.bexar w) = Raise e ->
      Scraper.run_all csv_headers generate_sorted w st =
      (Raise e, ScraperSpec.stranded (Scraper.bexar w) (ScraperSpec.opened st))) /\
  (forall w st e,
      Scraper.driver (Scraper.bexar w) = Ok tt ->
      Scraper.driver (Scraper.hamilton w) = Raise e ->
      exists s1,
        Scraper.scrape_bexar csv_headers (Scraper.bexar w) (ScraperSpec.opened st)
          = (Ok tt, s1) /\
        Scraper.run_all csv_headers generate_sorted w st =
        (Raise e, ScraperSpec.stranded (Scraper.hamilton w) s1)) /\
  (forall w st e,
      Scraper.driver (Scraper.bexar w) = Ok tt ->
      Scraper.driver (Scraper.hamilton w) = Ok tt ->
      Scraper.driver (Scraper.davidson w) = Raise e ->
      exists s1 s2,
        Scraper.scrape_bexar csv_headers (Scraper.bexar w) (ScraperSpec.opened st)
          = (Ok tt, s1) /\
        Scraper.scrape_hamilton csv_headers (Scraper.hamilton w) s1 = (Ok tt, s2) /\
        Scraper.run_all csv_headers generate_sorted w st =
        (Raise e, ScraperSpec.stranded (Scraper.davidson w) s2)) /\
  (forall w st e,
      Scraper.driver (Scraper.bexar w) = Ok tt ->
      Scraper.driver (Scraper.hamilton w) = Ok tt ->
      Scraper.driver (Scraper.davidson w) = Ok tt ->
      Scraper.driver (Scraper.travis w) = Raise e ->
      exists s1 s2 s3,
        Scraper.scrape_bexar csv_headers (Scraper.bexar w) (ScraperSpec.opened st)
          = (Ok tt, s1) /\
        Scraper.scrape_hamilton csv_headers (Scraper.hamilton w) s1 = (Ok tt, s2) /\
        Scraper.scrape_davidson csv_headers (Scraper.davidson w) s2 = (Ok tt, s3) /\
        Scraper.run_all csv_headers generate_sorted w st =
        (Raise e, ScraperSpec.stranded (Scraper.travis w) s3)).
Proof.
  assert (Hrun : forall w st,
             Scraper.run_all csv_headers generate_sorted w st =
             bind (Scraper.scrape_bexar csv_headers (Scraper.bexar w))
               (fun _ =>
                  bind (Scraper.scrape_hamilton csv_headers (Scraper.hamilton w))
                    (fun _ =>
                       bind (Scraper.scrape_davidson csv_headers (Scraper.davidson w))
                         (fun _ =>
                            bind (Scraper.scrape_travis csv_headers (Scraper.travis w))
                              (fun _ => logging (LogInfo "Completed full scrape cycle")))))
               (ScraperSpec.opened st))
    by reflexivity.
  split; [|split; [|split; [|split; [|split]]]].
  - intros county_name county_slug parse v s Hv.
    pose proof (ScraperFacts.scrape_run csv_headers county_name county_slug parse v s Hv)
      as Erun.
    destruct (ScraperFacts.scrape_returns csv_headers county_name county_slug parse v s Hv)
      as (s' & l & E & Hs & _).
    exists s'. split; [exact E|]. split; [exact Hs|].
    rewrite E in Erun. injection Erun as Erun.
    split; [|split; [|split]].
    + intros e He. rewrite He in Erun. exact Erun.
    + intros soup e Hp He. rewrite Hp, He in Erun. exact Erun.
    + intros soup ps e s2 Hp Hps Hsave. rewrite Hp, Hps, Hsave in Erun. exact Erun.
    + intros soup ps out s2 Hp Hps Hsave. rewrite Hp, Hps, Hsave in Erun. exact Erun.
  - intros w st (Hb & Hh & Hd & Ht). rewrite Hrun.
    unfold Scraper.scrape_bexar, Scraper.scrape_hamilton,
      Scraper.scrape_davidson, Scraper.scrape_travis.
    set (st0 := ScraperSpec.opened st).
    destruct (ScraperFacts.scrape_returns csv_headers "Bexar County" "bexar"
                Extract.parse_accela_results (Scraper.bexar w) st0 Hb)
      as (st1 & l1 & E1 & S1 & L1 & [f1 F1] & R1).
    destruct (ScraperFacts.scrape_returns csv_headers "Hamilton County" "hamilton"
                Extract.parse_accela_results (Scraper.hamilton w) st1 Hh)
      as (st2 & l2 & E2 & S2 & L2 & [f2 F2] & R2).
    destruct (ScraperFacts.scrape_returns csv_headers "Davidson County" "davidson"
                Extract.parse_nashville_results (Scraper.davidson w) st2 Hd)
      as (st3 & l3 & E3 & S3 & L3 & [f3 F3] & R3).
    destruct (ScraperFacts.scrape_returns csv_headers "Travis County" "travis"
                Extract.parse_accela_results (Scraper.travis w) st3 Ht)
      as (st4 & l4 & E4 & S4 & L4 & [f4 F4] & R4).
    exists st1, st2, st3, st4.
    split; [exact E1|]. split; [exact E2|]. split; [exact E3|]. split; [exact E4|].
    split; [rewrite bind_run, E1, bind_run, E2, bind_run, E3, bind_run, E4; reflexivity|].
    assert (Hlog : log st4 =
                   (((log st0 ++ ScraperSpec.starting "Bexar County" :: l1)
                     ++ ScraperSpec.starting "Hamilton County" :: l2)
                    ++ ScraperSpec.starting "Davidson County" :: l3)
                   ++ ScraperSpec.starting "Travis County" :: l4)
      by (rewrite L4, L3, L2, L1; reflexivity).
    split; [rewrite S4, S3, S2, S1; reflexivity|]. split.
    { exists (f1 ++ f2 ++ f3 ++ f4). rewrite F4, F3, F2, F1. simpl.
      rewrite <- !app_assoc. reflexivity. }
    rewrite Hlog.
    split; [repeat split; repeat (rewrite in_app_iff; simpl); auto 12|].
    repeat split; intros e He.
    + destruct (R1 e He) as [-> _]. repeat (rewrite in_app_iff; simpl). auto 12.
    + destruct (R2 e He) as [-> _]. repeat (rewrite in_app_iff; simpl). auto 12.
    + destruct (R3 e He) as [-> _]. repeat (rewrite in_app_iff; simpl). auto 12.
    + destruct (R4 e He) as [-> _]. repeat (rewrite in_app_iff; simpl). auto 12.
  - intros w st e Hb. rewrite Hrun, bind_run. unfold Scraper.scrape_bexar.
    rewrite (ScraperFacts.scrape_without_driver _ _ _ _ _ _ _ Hb). reflexivity.
  - intros w st e Hb Hh. rewrite Hrun. unfold Scraper.scrape_bexar, Scraper.scrape_hamilton.
    destruct (ScraperFacts.scrape_returns csv_headers "Bexar County" "bexar"
                Extract.parse_accela_results (Scraper.bexar w) (ScraperSpec.opened st) Hb)
      as (s1 & l1 & E1 & _).
    exists s1. split; [exact E1|].
    rewrite bind_run, E1, bind_run.
    rewrite (ScraperFacts.scrape_without_driver _ _ _ _ _ _ _ Hh). reflexivity.
  - intros w st e Hb Hh Hd. rewrite Hrun.
    unfold Scraper.scrape_bexar, Scraper.scrape_hamilton, Scraper.scrape_davidson.
    destruct (ScraperFacts.scrape_returns csv_headers "Bexar County" "bexar"
                Extract.parse_accela_results (Scraper.bexar w) (ScraperSpec.opened st) Hb)
      as (s1 & l1 & E1 & _).
    destruct (ScraperFacts.scrape_returns csv_headers "Hamilton County" "hamilton"
                Extract.parse_accela_results (Scraper.hamilton w) s1 Hh)
      as (s2 & l2 & E2 & _).
    exists s1, s2. split; [exact E1|]. split; [exact E2|].
    rewrite bind_run, E1, bind_run, E2, bind_run.
    rewrite (ScraperFacts.scrape_without_driver _ _ _ _ _ _ _ Hd). reflexivity.
  - intros w st e Hb Hh Hd Ht. rewrite Hrun.
    unfold Scraper.scrape_bexar, Scraper.scrape_hamilton, Scraper.scrape_davidson,
      Scraper.scrape_travis.
    destruct (ScraperFacts.scrape_returns csv_headers "Bexar County" "bexar"
                Extract.parse_accela_results (Scraper.bexar w) (ScraperSpec.opened st) Hb)
      as (s1 & l1 & E1 & _).
    destruct (ScraperFacts.scrape_returns csv_headers "Hamilton County" "hamilton"
                Extract.parse_accela_results (Scraper.hamilton w) s1 Hh)
      as (s2 & l2 & E2 & _).
    destruct (ScraperFacts.scrape_returns csv_headers "Davidson County" "davidson"
                Extract.parse_nashville_results (Scraper.davidson w) s2 Hd)
      as (s3 & l3 & E3 & _).
    exists s1, s2, s3. split; [exact E1|]. split; [exact E2|]. split; [exact E3|].
    rewrite bind_run, E1, bind_run, E2, bind_run, E3, bind_run.
    rewrite (ScraperFacts.scrape_without_driver _ _ _ _ _ _ _ Ht). reflexivity.
Qed.

Lemma source_failures_are_contained_witness :
  ScraperSpec.sessions_start ScraperSpec.hamilton_times_out /\
  (exists st',
     Scraper.run_all field_names false ScraperSpec.hamilton_times_out Records.initial
       = (Ok tt, st') /\
     sessions st' = sessions Records.initial /\
     In (ScraperSpec.failed "Hamilton County" DriverError) (log st')) /\
  (exists s1,
     Scraper.run_all field_names false ScraperSpec.hamilton_refuses_override Records.initial
       = (Raise DriverError, s1) /\
     sessions s1 = 1).
Proof.
  assert (H : ScraperSpec.sessions_start ScraperSpec.hamilton_times_out)
    by (repeat split).
  split; [exact H|]. split.
  - destruct (proj1 (proj2 (source_failures_are_contained field_names false))
                ScraperSpec.hamilton_times_out Records.initial H)
      as (s1 & s2 & s3 & s4 & _ & _ & _ & _ & Hrun & Hs & _ & _ & _ & Hh & _).
    exists (ScraperSpec.closed s4). split; [exact Hrun|]. split; [exact Hs|].
    cbn [ScraperSpec.closed log]. apply in_or_app. left. apply (Hh DriverError). reflexivity.
  - destruct (proj1 (proj2 (proj2 (proj2 (source_failures_are_contained field_names false))))
                ScraperSpec.hamilton_refuses_override Records.initial DriverError
                eq_refl eq_refl)
      as (s1 & E1 & Hrun).
    exists (ScraperSpec.stranded ScraperSpec.refused_visit s1).
    split; [exact Hrun|].
    vm_compute in E1. injection E1 as <-. reflexivity.
Defined.

(* ===================================================================== *)
(** ** The sort flag *)
(* ===================================================================== *)

(** C1.  [run_all] does not use its [generate_sorted] argument: [main]
    with the sort flag does exactly what it does without it.  On a run
    in which all four sources yield two records, the flag set, only the
    four primary files are written, whereas [save_to_csv] called with
    [generate_sorted] set writes the primary file and the five sorted
    variants. *)
Theorem sort_flag_is_not_forwarded :
  (forall csv_headers w st,
      Scraper.main csv_headers true w st = Scraper.main csv_headers false w st) /\
  map fst (files (snd (Scraper.main field_names true ScraperSpec.all_grids Records.initial)))
    = ["data/bexar_permits_20240108_060000.csv";
       "data/hamilton_permits_20240108_060000.csv";
       "data/davidson_permits_20240108_060000.csv";
       "data/travis_permits_20240108_060000.csv"] /\
  map fst (files (snd (Sink.save_to_csv field_names [Records.roof; Records.addition]
                         "bexar" true "20240108_060000" Records.initial)))
    = ["data/bexar_permits_20240108_060000.csv";
       "data/bexar_permits_20240108_060000_sorted_date.csv";
       "data/bexar_permits_20240108_060000_sorted_valuation.csv";
       "data/bexar_permits_20240108_060000_sorted_address.csv";
       "data/bexar_permits_20240108_060000_sorted_contractor.csv";
       "data/bexar_permits_20240108_060000_sorted_work_type.csv"].
Proof.
  split; [reflexivity|]. split; vm_compute; reflexivity.
Qed.

(* ===================================================================== *)
(** ** The two-row scenario *)
(* ===================================================================== *)

(** A source whose page is the two-row grid (P1 issued 01/05/2024, P2
    issued 01/07/2024) gets one primary file, named by slug and
    timestamp, with the header row and then P2 before P1. *)
Example two_row_scenario :
  files (snd (Scraper.scrape_bexar field_names ScraperSpec.grid_visit Records.initial)) =
  [("data/bexar_permits_20240108_060000.csv",
    [field_names;
     ["P2"; "01/07/2024"; "2 Oak Ave"; "Addition"; ""; ""];
     ["P1"; "01/05/2024"; "1 Main St"; "Roof"; "ACME"; "$10,000"]])].
Proof. vm_compute. reflexivity. Qed.

(* ===================================================================== *)
(** * Further properties of the code *)
(* ===================================================================== *)

(** ** Plain result grids *)

Module GridFacts.
Import PyStr Extract ExtractSpec ExtractFacts Grid.

Lemma get_text_td (t : string) : get_text (Pages.td t) = t.
Proof. reflexivity. Qed.












End GridFacts.





(** X3.  The two table extractors differ only on rows of four or five
    cells: on a page whose data rows all have fewer than four or at
    least six cells, whenever [parse_accela_results] finds records,
    [parse_nashville_results] returns the same records. *)
Theorem extractors_agree_without_short_rows (soup : node) (ps : list permit) :
  (forall table row,
      find "table" soup = Some table ->
      In row (tl (find_all "tr" table)) ->
      List.length (find_all "td" row) < 4 \/ 6 <= List.length (find_all "td" row)) ->
  Extract.parse_accela_results soup = Ok ps ->
  ps <> [] ->
  Extract.parse_nashville_results soup = Ok ps.
Proof.
  intros Hrows Ha Hne.
  rewrite ExtractFacts.parse_accela_results_ok in Ha. injection Ha as Ha.
  rewrite ExtractFacts.parse_nashville_results_ok.
  assert (Ht : ExtractSpec.nashville_table_permits soup = ps).
  { unfold ExtractSpec.nashville_table_permits. rewrite <- Ha.
    destruct (find "table" soup) as [table|]; [|reflexivity].
    rewrite !flat_map_concat_map. f_equal. apply map_ext_in. intros row Hin.
    unfold ExtractSpec.nashville_row_permits, ExtractSpec.accela_row_permits.
    destruct (Hrows table row eq_refl Hin) as [H | H].
    - replace (4 <=? _) with false by (symmetry; apply Nat.leb_gt; lia).
      replace (6 <=? _) with false by (symmetry; apply Nat.leb_gt; lia). reflexivity.
    - replace (4 <=? _) with true by (symmetry; apply Nat.leb_le; lia).
      replace (6 <=? _) with true by (symmetry; apply Nat.leb_le; lia). reflexivity. }
  rewrite Ht. destruct ps; [congruence | reflexivity].
Qed.

Lemma extractors_agree_without_short_rows_witness :
  Extract.parse_nashville_results Pages.two_row_page =
  Ok [Records.roof; Records.addition].
Proof.
  refine (extractors_agree_without_short_rows Pages.two_row_page
            [Records.roof; Records.addition] _ eq_refl _).
  - intros table row Ht Hin. injection Ht as <-.
    destruct Hin as [<- | [<- | []]]; right; simpl; lia.
  - discriminate.
Defined.

(** ** Raw CSV text *)

Module CsvFacts.
Import PyStr Extract ExtractSpec ExtractFacts CsvText.

Lemma split_nonempty (c : ascii) (s : string) : split c s <> [].
Proof.
  destruct s as [|x s]; simpl; [discriminate|].
  destruct (Ascii.eqb x c); [discriminate|]. destruct (split c s); discriminate.
Qed.

Lemma split_whole (c : ascii) (s : string) : has_char c s = false -> split c s = [s].
Proof.
  induction s as [|x s IH]; simpl; [reflexivity|].
  intros H. apply orb_false_iff in H. destruct H as [Hx Hs].
  rewrite Hx, (IH Hs). reflexivity.
Qed.

Lemma split_app (c : ascii) (s1 s2 : string) :
  split c (s1 ++ String c s2) = split c s1 ++ split c s2.
Proof.
  induction s1 as [|x s1 IH]; simpl.
  - rewrite Ascii.eqb_refl. reflexivity.
  - destruct (Ascii.eqb x c); [rewrite IH; reflexivity|].
    rewrite IH. pose proof (split_nonempty c s1) as Hn.
    destruct (split c s1); [congruence | reflexivity].
Qed.

Lemma split_join (c : ascii) (fields : list string) :
  fields <> [] ->
  Forall (fun f => has_char c f = false) fields ->
  split c (join (String c EmptyString) fields) = fields.
Proof.
  intros Hne Hf. induction Hf as [|x l Hx Hl IH]; [congruence|].
  destruct l as [|y l].
  - simpl. apply split_whole, Hx.
  - change (join (String c EmptyString) (x :: y :: l))
      with (x ++ String c (join (String c EmptyString) (y :: l)))%string.
    rewrite split_app, (split_whole _ _ Hx), IH by discriminate. reflexivity.
Qed.

Lemma has_char_app (c : ascii) (s1 s2 : string) :
  has_char c (s1 ++ s2) = has_char c s1 || has_char c s2.
Proof.
  induction s1 as [|x s1 IH]; simpl; [reflexivity|].
  rewrite IH, orb_assoc. reflexivity.
Qed.

Lemma has_char_join (c sep : ascii) (fields : list string) :
  Ascii.eqb sep c = false ->
  Forall (fun f => has_char c f = false) fields ->
  has_char c (join (String sep EmptyString) fields) = false.
Proof.
  intros Hs Hf. induction Hf as [|x l Hx Hl IH]; [reflexivity|].
  destruct l as [|y l]; [exact Hx|].
  change (join (String sep EmptyString) (x :: y :: l))
    with (x ++ String sep (join (String sep EmptyString) (y :: l)))%string.
  rewrite has_char_app, Hx. cbn [has_char orb]. rewrite Hs, IH. reflexivity.
Qed.

Lemma has_sep_join (c : ascii) (x y : string) (l : list string) :
  has_char c (join (String c EmptyString) (x :: y :: l)) = true.
Proof.
  change (join (String c EmptyString) (x :: y :: l))
    with (x ++ String c (join (String c EmptyString) (y :: l)))%string.
  rewrite has_char_app. cbn [has_char]. rewrite Ascii.eqb_refl. apply orb_true_r.
Qed.

(** [strip] only drops whitespace, so every other character stays. *)
Lemma has_char_lstrip (c : ascii) (s : string) :
  is_space c = false -> has_char c (lstrip s) = has_char c s.
Proof.
  intros Hc. induction s as [|x s IH]; simpl; [reflexivity|].
  destruct (is_space x) eqn:Hx; [|reflexivity].
  rewrite IH. destruct (Ascii.eqb x c) eqn:E; [|reflexivity].
  apply Ascii.eqb_eq in E. congruence.
Qed.

Lemma has_char_rstrip (c : ascii) (s : string) :
  is_space c = false -> has_char c (rstrip s) = has_char c s.
Proof.
  intros Hc. induction s as [|x s IH]; simpl; [reflexivity|].
  destruct (rstrip s) as [|y r] eqn:E.
  - simpl in IH. rewrite <- IH.
    destruct (is_space x) eqn:Hx; simpl.
    + destruct (Ascii.eqb x c) eqn:Ex; [|reflexivity].
      apply Ascii.eqb_eq in Ex. congruence.
    + rewrite orb_false_r. reflexivity.
  - change (has_char c (String x (String y r)))
      with (Ascii.eqb x c || has_char c (String y r)).
    rewrite IH. reflexivity.
Qed.

Lemma has_char_strip (c : ascii) (s : string) :
  is_space c = false -> has_char c (strip s) = has_char c s.
Proof.
  intros Hc. unfold strip. rewrite has_char_rstrip, has_char_lstrip by exact Hc.
  reflexivity.
Qed.

(** [strip] never adds a character. *)
Lemma lstrip_sub (c : ascii) (s : string) :
  has_char c (lstrip s) = true -> has_char c s = true.
Proof.
  induction s as [|x s IH]; simpl; [discriminate|].
  destruct (is_space x); [|exact (fun H => H)].
  intros H. rewrite (IH H). apply orb_true_r.
Qed.

Lemma rstrip_sub (c : ascii) (s : string) :
  has_char c (rstrip s) = true -> has_char c s = true.
Proof.
  induction s as [|x s IH]; simpl; [discriminate|].
  destruct (rstrip s) as [|y r] eqn:E.
  - destruct (is_space x); simpl; [discriminate|].
    rewrite orb_false_r. intros ->. reflexivity.
  - change (has_char c (String x (String y r)))
      with (Ascii.eqb x c || has_char c (String y r)).
    intros H. apply orb_true_iff in H. destruct H as [-> | H]; [reflexivity|].
    rewrite (IH H). apply orb_true_r.
Qed.

Lemma strip_sub (c : ascii) (s : string) :
  has_char c (strip s) = true -> has_char c s = true.
Proof. intros H. apply lstrip_sub, rstrip_sub, H. Qed.

Lemma strip_without (c : ascii) (s : string) :
  has_char c s = false -> has_char c (strip s) = false.
Proof.
  intros H. destruct (has_char c (strip s)) eqn:E; [|reflexivity].
  apply strip_sub in E. congruence.
Qed.

(** The pieces of a split hold no separator and no character that the
    whole string lacks. *)
Lemma split_pieces (c d : ascii) (s p : string) :
  In p (split c s) ->
  has_char c p = false /\ (has_char d s = false -> has_char d p = false).
Proof.
  revert p. induction s as [|x s IH]; simpl; intros p Hin.
  - destruct Hin as [<- | []]. split; reflexivity.
  - destruct (Ascii.eqb x c) eqn:Ex.
    + destruct Hin as [<- | Hin]; [split; reflexivity|].
      destruct (IH p Hin) as [H1 H2]. split; [exact H1|].
      intros H. apply orb_false_iff in H. apply H2, H.
    + pose proof (split_nonempty c s) as Hn.
      destruct (split c s) as [|w ws]; [congruence|].
      destruct Hin as [<- | Hin].
      * destruct (IH w (or_introl eq_refl)) as [H1 H2]. simpl. split.
        -- rewrite Ex, H1. reflexivity.
        -- intros H. apply orb_false_iff in H. destruct H as [Hx Hs].
           rewrite Hx, (H2 Hs). reflexivity.
      * destruct (IH p (or_intror Hin)) as [H1 H2]. split; [exact H1|].
        intros H. apply orb_false_iff in H. apply H2, H.
Qed.

Lemma line_text_fields (fields : list string) (i : nat) :
  line_text fields i = Whitespace.trim (nth i fields "").
Proof.
  unfold line_text. destruct (nth_error fields i) as [t|] eqn:E.
  - rewrite (nth_error_nth _ _ _ E). apply strip_trim.
  - apply nth_error_None in E. rewrite nth_overflow by exact E. reflexivity.
Qed.

Lemma csv_line_of_fields (fields : list string) :
  Forall plain_field fields ->
  csv_line_permits (csv_line_of fields) =
  if Grid.at_least 6 fields then [Grid.record_of fields] else [].
Proof.
  intros Hp. unfold csv_line_permits, Grid.at_least.
  assert (Hc : Forall (fun f => has_char comma f = false) fields)
    by (eapply Forall_impl; [|exact Hp]; intros f Hf; apply Hf).
  unfold comma in *.
  destruct fields as [|x [|y l]].
  - reflexivity.
  - change (csv_line_of [x]) with x.
    destruct (strip x); [reflexivity|].
    inversion Hc as [|? ? Hx _]; subst.
    rewrite (split_whole _ _ Hx). reflexivity.
  - unfold csv_line_of. rewrite (split_join ","%char) by (discriminate || exact Hc).
    destruct (strip (join "," (x :: y :: l))) eqn:Es.
    + exfalso. pose proof (has_sep_join ","%char x y l) as Hs.
      rewrite <- (has_char_strip ","%char) in Hs by reflexivity.
      rewrite Es in Hs. discriminate.
    + destruct (6 <=? _); [|reflexivity].
      unfold Grid.record_of. rewrite !line_text_fields. reflexivity.
Qed.

End CsvFacts.

(** X4.  Round trip of the CSV extractor: for text made of a header
    line and one line per row, rows being comma-joined fields that hold
    no comma and no line feed, [parse_csv_permits] skips the header and
    returns one record for each row of six fields or more, in order,
    with the first six fields stripped; shorter rows are dropped and
    further fields ignored. *)
Theorem parse_csv_permits_reads_joined_rows (header : string) (rows : list (list string)) :
  CsvText.has_char CsvText.newline header = false ->
  Forall (Forall CsvText.plain_field) rows ->
  Extract.parse_csv_permits (CsvText.csv_text header rows) =
  Ok (map Grid.record_of (List.filter (Grid.at_least 6) rows)).
Proof.
  intros Hh Hrows. rewrite ExtractFacts.parse_csv_permits_ok.
  unfold CsvText.csv_text, CsvText.newline in *.
  assert (Hlines : Forall (fun f => CsvText.has_char "010"%char f = false)
                     (header :: map CsvText.csv_line_of rows)).
  { constructor; [exact Hh|].
    apply Forall_map. eapply Forall_impl; [|exact Hrows].
    intros fields Hf. apply CsvFacts.has_char_join; [reflexivity|].
    eapply Forall_impl; [|exact Hf]. intros f Hp. apply Hp. }
  rewrite (CsvFacts.split_join "010"%char (header :: map CsvText.csv_line_of rows))
    by (discriminate || exact Hlines).
  simpl tl. f_equal. clear Hlines.
  rewrite flat_map_concat_map, map_map, <- flat_map_concat_map.
  induction Hrows as [|fields rows Hf _ IH]; [reflexivity|].
  simpl. rewrite IH, (CsvFacts.csv_line_of_fields _ Hf).
  destruct (Grid.at_least 6 fields); reflexivity.
Qed.

Lemma parse_csv_permits_reads_joined_rows_witness :
  Extract.parse_csv_permits
    (CsvText.csv_text "number,date,address,type,contractor,value"
       [["P1"; " 01/05/2024 "; "1 Main St"; "Roof"; "ACME"; "10000"; "x"];
        ["P2"; "01/07/2024"]])
  = Ok [mk_permit "P1" "01/05/2024" "1 Main St" "Roof" "ACME" "10000"].
Proof.
  refine (parse_csv_permits_reads_joined_rows
            "number,date,address,type,contractor,value"
            [["P1"; " 01/05/2024 "; "1 Main St"; "Roof"; "ACME"; "10000"; "x"];
             ["P2"; "01/07/2024"]] eq_refl _).
  repeat constructor.
Defined.

(** X5.  [parse_csv_permits] splits lines on every comma, quoted or
    not: no value of any record it returns holds a comma or a line
    feed. *)
Theorem parse_csv_permits_values_have_no_comma
  (content : string) (ps : list permit) (r : permit) (v : string) :
  Extract.parse_csv_permits content = Ok ps ->
  In r ps ->
  In v (dict_values r) ->
  CsvText.has_char CsvText.comma v = false /\
  CsvText.has_char CsvText.newline v = false.
Proof.
  intros Hp Hr Hv. rewrite ExtractFacts.parse_csv_permits_ok in Hp. injection Hp as <-.
  unfold CsvText.comma, CsvText.newline.
  apply in_flat_map in Hr. destruct Hr as (ln & Hln & Hr).
  assert (Hnl : CsvText.has_char "010"%char ln = false).
  { refine (proj1 (CsvFacts.split_pieces "010"%char "010"%char content ln _)).
    destruct (PyStr.split "010"%char content); [destruct Hln | right; exact Hln]. }
  unfold ExtractSpec.csv_line_permits in Hr.
  destruct (PyStr.strip ln); [destruct Hr|].
  destruct (6 <=? _); [|destruct Hr]. destruct Hr as [<- | []].
  assert (Hfield : forall i,
             CsvText.has_char ","%char
               (ExtractSpec.line_text (PyStr.split ","%char ln) i) = false /\
             CsvText.has_char "010"%char
               (ExtractSpec.line_text (PyStr.split ","%char ln) i) = false).
  { intros i. unfold ExtractSpec.line_text.
    destruct (nth_error (PyStr.split "," ln) i) as [p|] eqn:E; [|split; reflexivity].
    apply nth_error_In in E.
    destruct (CsvFacts.split_pieces ","%char "010"%char ln p E) as [H1 H2].
    split; apply CsvFacts.strip_without; [exact H1 | apply H2, Hnl]. }
  simpl in Hv.
  repeat (destruct Hv as [<- | Hv]; [apply Hfield|]). destruct Hv.
Qed.

Lemma parse_csv_permits_values_have_no_comma_witness :
  CsvText.has_char CsvText.comma "1 Main St" = false.
Proof.
  refine (proj1 (parse_csv_permits_values_have_no_comma
                   (CsvText.csv_text "h" [["P1"; "d"; "1 Main St"; "w"; "c"; "v"]])
                   [mk_permit "P1" "d" "1 Main St" "w" "c" "v"]
                   (mk_permit "P1" "d" "1 Main St" "w" "c" "v")
                   "1 Main St" eq_refl _ _)).
  - left. reflexivity.
  - simpl. auto.
Defined.

(** ** Names of the output files *)

Lemma append_cancel_l (p a b : string) : (p ++ a)%string = (p ++ b)%string -> a = b.
Proof.
  induction p as [|c p IH]; simpl; [exact (fun H => H)|].
  intros H. injection H as H. apply IH, H.
Qed.

Lemma append_assoc (a b c : string) : ((a ++ b) ++ c)%string = (a ++ (b ++ c))%string.
Proof. induction a as [|x a IH]; simpl; [reflexivity | rewrite IH; reflexivity]. Qed.

(** X6.  For any slug and timestamp the primary file and the five
    sorted variants have six different names, so a variant never
    overwrites the primary file or another variant; and whatever the
    timestamps, the primary files of the four sources of a run have
    four different names. *)
Theorem output_names_are_distinct :
  (forall county_slug timestamp, NoDup (output_names county_slug timestamp)) /\
  (forall w, NoDup (primary_names w)).
Proof.
  split.
  - intros county_slug timestamp.
    set (suffixes := [".csv"; "_sorted_date.csv"; "_sorted_valuation.csv";
                      "_sorted_address.csv"; "_sorted_contractor.csv";
                      "_sorted_work_type.csv"]).
    set (pre := ("data/" ++ county_slug ++ "_permits_" ++ timestamp)%string).
    assert (E : output_names county_slug timestamp
                = map (fun suf => (pre ++ suf)%string) suffixes).
    { unfold output_names, Sink.base_filename, Sink.sorted_filename, pre, suffixes.
      cbn [map Sink.sort_keys fst]. rewrite !append_assoc. reflexivity. }
    rewrite E. apply Finite.Injective_map_NoDup.
    + intros a b. apply append_cancel_l.
    + unfold suffixes.
      repeat (constructor;
              [simpl; intros H; repeat (destruct H as [H | H]; [discriminate H|]); exact H|]).
      constructor.
  - intros w. unfold primary_names, Sink.base_filename.
    repeat (constructor;
            [simpl; intros H; repeat (destruct H as [H | H]; [discriminate H|]); exact H|]).
    constructor.
Qed.

(** ** Edge behaviour of [save_to_csv] *)

Module SaveEdgeFacts.
Import PySort Sink SinkSpec SinkFacts FrameFacts SortFacts RecordFacts.

Lemma issue_date_key_undated (r : permit) : undated r -> issue_date_key r = Raise KeyError.
Proof.
  intros H. unfold issue_date_key, dict_getitem. rewrite H. reflexivity.
Qed.

(** After the sort statement the list is a rearrangement of the input,
    and nothing but a warning has been logged. *)
Lemma sort_step_dated permits county_slug st :
  Forall dated permits ->
  exists l st1,
    sort_step permits county_slug st = (Ok l, st1) /\
    Permutation permits l /\
    files st1 = files st /\ sessions st1 = sessions st /\
    (log st1 = log st \/ log st1 = log st ++ [sort_warning county_slug]).
Proof.
  intros Hd. unfold sort_step.
  destruct (py_sorted Date.leb issue_date_key true permits) as [sorted|e] eqn:Es.
  - exists sorted, st. repeat split; auto. eapply py_sorted_perm; exact Es.
  - assert (e = ValueError) as ->.
    { unfold py_sorted in Es.
      destruct (decorate issue_date_key permits) as [dl|e'] eqn:Ed; [discriminate|].
      injection Es as <-. clear -Hd Ed.
      induction Hd as [|r l Hr _ IH]; [discriminate|]. simpl in Ed.
      destruct (issue_date_key r) as [k|e0] eqn:Ek; simpl in Ed.
      - destruct (decorate issue_date_key l); [discriminate|].
        injection Ed as <-. apply IH. reflexivity.
      - injection Ed as <-. eapply issue_date_key_raises; eassumption. }
    eexists. eexists. split; [reflexivity|]. simpl. repeat split; auto.
Qed.

End SaveEdgeFacts.

(** X7.  A record without an [issue_date] key makes [save_to_csv] raise
    [KeyError] out of its date sort (only [ValueError] is caught there)
    before anything is written or logged, provided the records that do
    have the key hold parseable dates. *)
Theorem save_to_csv_missing_issue_date
  (csv_headers : list string) (permits : list permit) (county_slug : string)
  (generate_sorted : bool) (now : string) (st : state) :
  Forall (fun r => date_parses r \/ undated r) permits ->
  Exists undated permits ->
  Sink.save_to_csv csv_headers permits county_slug generate_sorted now st
  = (Raise KeyError, st).
Proof.
  intros Hall Hex.
  destruct permits as [|p ps]; [inversion Hex|].
  rewrite FrameFacts.save_to_csv_steps. unfold bind, SinkSpec.sort_step.
  rewrite (SortFacts.py_sorted_raises Date.leb Sink.issue_date_key true KeyError).
  - reflexivity.
  - eapply Forall_impl; [|exact Hall]. intros r [Hp | Hu] e He.
    + destruct (SinkFacts.issue_date_key_parses r Hp) as [t Ht]. congruence.
    + rewrite (SaveEdgeFacts.issue_date_key_undated r Hu) in He. congruence.
  - eapply Exists_impl; [|exact Hex]. intros r Hu. exists KeyError.
    apply SaveEdgeFacts.issue_date_key_undated, Hu.
Qed.

Lemma save_to_csv_missing_issue_date_witness :
  Sink.save_to_csv field_names [Records.roof; [("permit_number", "P7")]] "bexar" true
    "20240108_060000" Records.initial
  = (Raise KeyError, Records.initial).
Proof.
  refine (save_to_csv_missing_issue_date field_names
            [Records.roof; [("permit_number", "P7")]] "bexar" true
            "20240108_060000" Records.initial _ _).
  - constructor; [left; exists "01/05/2024", (Date.mk_datetime 2024 1 5); split; reflexivity|].
    constructor; [right; reflexivity | constructor].
  - apply Exists_cons_tl, Exists_cons_hd. reflexivity.
Defined.

Lemma save_to_csv_unwritable
  (csv_headers : list string) (permits : list permit) (county_slug : string)
  (generate_sorted : bool) (now : string) (st : state) :
  permits <> [] ->
  Forall dated permits ->
  Forall (fun r => ~ incl (dict_keys r) csv_headers) permits ->
  exists log',
    Sink.save_to_csv csv_headers permits county_slug generate_sorted now st =
    (Raise ValueError,
     mk_state (files st ++ [(Sink.base_filename county_slug now, [csv_headers])])
              log' (sessions st)) /\
    (log' = log st \/ log' = log st ++ [SinkSpec.sort_warning county_slug]).
Proof.
  intros Hne Hd Hbad.
  destruct permits as [|p ps]; [congruence|]. clear Hne.
  rewrite FrameFacts.save_to_csv_steps. unfold bind.
  destruct (SaveEdgeFacts.sort_step_dated (p :: ps) county_slug st Hd)
    as (l & st1 & -> & Hp & Hf & Hs & Hl).
  assert (Hbad' : Forall (fun r => ~ incl (dict_keys r) csv_headers) l)
    by (eapply Permutation_Forall; eassumption).
  destruct l as [|r rest].
  { apply Permutation_sym, Permutation_nil in Hp. discriminate. }
  unfold SinkSpec.write_step, bind. rewrite SinkFacts.write_csv_run.
  simpl Sink.writerows.
  inversion Hbad' as [|? ? Hr _]; subst.
  rewrite (RecordFacts.dict_to_list_extra_key _ _ Hr). simpl.
  exists (log st1). unfold write_file. rewrite Hf, Hs. split; [reflexivity | exact Hl].
Qed.


(** X8.  When every record has a key that the header list does not
    name (a header list that omits a field), [save_to_csv] fails with
    [ValueError] on the first row: it leaves a primary file that holds
    the header row only, logs no "Saved" record, and writes no sorted
    variant. *)
Theorem save_to_csv_header_list_omits_field
  (csv_headers : list string) (permits : list permit) (county_slug : string)
  (generate_sorted : bool) (now : string) (st : state) :
  permits <> [] ->
  Forall dated permits ->
  Forall (fun r => ~ incl (dict_keys r) csv_headers) permits ->
  exists log',
    Sink.save_to_csv csv_headers permits county_slug generate_sorted now st =
    (Raise ValueError,
     mk_state (files st ++ [(Sink.base_filename county_slug now, [csv_headers])])
              log' (sessions st)) /\
    (log' = log st \/ log' = log st ++ [SinkSpec.sort_warning county_slug]).
Proof. apply save_to_csv_unwritable. Qed.

Lemma save_to_csv_header_list_omits_field_witness :
  exists log',
    Sink.save_to_csv ["permit_number"; "issue_date"] [Records.roof] "bexar" false
      "20240108_060000" Records.initial =
    (Raise ValueError,
     mk_state [("data/bexar_permits_20240108_060000.csv", [["permit_number"; "issue_date"]])]
              log' 0) /\
    (log' = [] \/ log' = [SinkSpec.sort_warning "bexar"]).
Proof.
  refine (save_to_csv_header_list_omits_field ["permit_number"; "issue_date"]
            [Records.roof] "bexar" false "20240108_060000" Records.initial _ _ _).
  - discriminate.
  - constructor; [unfold dated; simpl; discriminate | constructor].
  - constructor; [|constructor]. intros H.
    destruct (H "address") as [E | [E | []]]; [simpl; auto | discriminate E | discriminate E].
Defined.

(** X9.  The date sort of [save_to_csv] is stable: when every date
    parses, the records issued on one same day stand in the returned
    list (and so in the primary file) in the order in which they were
    extracted. *)
Theorem primary_file_keeps_order_within_a_day
  (csv_headers : list string) (permits : list permit) (county_slug : string)
  (generate_sorted : bool) (now : string) (st : state)
  (out : list permit) (st' : state) (t : Date.datetime) :
  Forall date_parses permits ->
  Sink.save_to_csv csv_headers permits county_slug generate_sorted now st = (Ok out, st') ->
  issued_on t out = issued_on t permits.
Proof.
  intros Hall H.
  destruct permits as [|p ps]; [injection H as <- _; reflexivity|].
  rewrite FrameFacts.save_to_csv_steps in H. unfold bind in H.
  destruct (SortFacts.py_sorted_all_ok Date.leb Sink.issue_date_key true (p :: ps))
    as [sorted Es].
  { eapply Forall_impl; [|exact Hall]. intros r. apply SinkFacts.issue_date_key_parses. }
  unfold SinkSpec.sort_step in H. rewrite Es in H. unfold ret in H.
  apply SaveFacts.write_step_complete in H. destruct H as [-> _].
  unfold issued_on.
  apply (SortFacts.py_sorted_stable Date.leb Sink.issue_date_key (date_eqb t) true _ _);
    [|exact Es].
  intros a b Ha Hb. unfold date_eqb in Ha, Hb.
  apply andb_true_iff in Ha, Hb. destruct Ha as [Ha Ha3], Hb as [Hb Hb3].
  apply andb_true_iff in Ha, Hb. destruct Ha as [Ha1 Ha2], Hb as [Hb1 Hb2].
  apply Nat.eqb_eq in Ha1, Ha2, Ha3, Hb1, Hb2, Hb3.
  apply SortFacts.date_leb_spec. lia.
Qed.

Lemma primary_file_keeps_order_within_a_day_witness :
  issued_on (Date.mk_datetime 2024 1 5)
    [Records.addition;
     mk_permit "P5" "01/05/2024" "5 Pine Ct" "Fence" "" ""; Records.roof]
  = issued_on (Date.mk_datetime 2024 1 5)
    [mk_permit "P5" "01/05/2024" "5 Pine Ct" "Fence" "" ""; Records.addition; Records.roof].
Proof.
  refine (primary_file_keeps_order_within_a_day field_names
            [mk_permit "P5" "01/05/2024" "5 Pine Ct" "Fence" "" ""; Records.addition;
             Records.roof]
            "bexar" false "20240108_060000" Records.initial _
            (snd (Sink.save_to_csv field_names
                    [mk_permit "P5" "01/05/2024" "5 Pine Ct" "Fence" "" ""; Records.addition;
                     Records.roof]
                    "bexar" false "20240108_060000" Records.initial))
            (Date.mk_datetime 2024 1 5) _ _).
  - repeat (apply Forall_cons;
            [eexists; eexists; split; [reflexivity | vm_compute; reflexivity]|]).
    apply Forall_nil.
  - vm_compute. reflexivity.
Defined.

(** ** Orders of the sort keys *)

Module OrderFacts.
Import PySort SortFacts.

Lemma ascii_compare_lt_trans (a b c : ascii) :
  Ascii.compare a b = Lt -> Ascii.compare b c = Lt -> Ascii.compare a c = Lt.
Proof.
  unfold Ascii.compare. rewrite !N.compare_lt_iff. apply N.lt_trans.
Qed.

Lemma string_compare_lt_trans (s1 s2 s3 : string) :
  String.compare s1 s2 = Lt -> String.compare s2 s3 = Lt -> String.compare s1 s3 = Lt.
Proof.
  revert s2 s3. induction s1 as [|a s1 IH]; intros [|b s2] [|c s3]; simpl;
    try discriminate; try reflexivity.
  destruct (Ascii.compare a b) eqn:Eab; try discriminate;
    destruct (Ascii.compare b c) eqn:Ebc; try discriminate; intros H1 H2.
  - apply Ascii.compare_eq_iff in Eab, Ebc. subst.
    assert (Ascii.compare c c = Eq) as ->
      by (unfold Ascii.compare; apply N.compare_refl).
    eapply IH; eassumption.
  - apply Ascii.compare_eq_iff in Eab. subst. rewrite Ebc. reflexivity.
  - apply Ascii.compare_eq_iff in Ebc. subst. rewrite Eab. reflexivity.
  - rewrite (ascii_compare_lt_trans a b c Eab Ebc). reflexivity.
Qed.

Lemma string_leb_trans (s1 s2 s3 : string) :
  String.leb s1 s2 = true -> String.leb s2 s3 = true -> String.leb s1 s3 = true.
Proof.
  unfold String.leb.
  destruct (String.compare s1 s2) eqn:E12; try discriminate;
    destruct (String.compare s2 s3) eqn:E23; try discriminate; intros _ _.
  - apply String.compare_eq_iff in E12, E23. subst.
    destruct (String.compare s3 s3) eqn:E; try reflexivity.
    pose proof (String.compare_antisym s3 s3) as H. rewrite E in H. discriminate H.
  - apply String.compare_eq_iff in E12. subst. rewrite E23. reflexivity.
  - apply String.compare_eq_iff in E23. subst. rewrite E12. reflexivity.
  - rewrite (string_compare_lt_trans s1 s2 s3 E12 E23). reflexivity.
Qed.

Local Open Scope Z_scope.

(** Comparing two finite floats at any common exponent below both. *)
Lemma float_leb_at (m1 e1 m2 e2 k : Z) :
  k <= e1 -> k <= e2 ->
  Float.leb (Float.Finite m1 e1) (Float.Finite m2 e2)
  = (m1 * 2 ^ (e1 - k) <=? m2 * 2 ^ (e2 - k)).
Proof.
  intros H1 H2. unfold Float.leb.
  set (e := Z.min e1 e2).
  assert (He1 : e <= e1) by (unfold e; lia).
  assert (He2 : e <= e2) by (unfold e; lia).
  assert (Hk : k <= e) by (unfold e; lia).
  replace (e1 - k) with ((e1 - e) + (e - k)) by lia.
  replace (e2 - k) with ((e2 - e) + (e - k)) by lia.
  rewrite !Z.pow_add_r by lia.
  assert (Hp : 0 < 2 ^ (e - k)) by (apply Z.pow_pos_nonneg; lia).
  rewrite !Z.mul_assoc.
  apply Bool.eq_iff_eq_true. rewrite !Z.leb_le.
  split; intros H.
  - apply Z.mul_le_mono_nonneg_r; lia.
  - apply Z.mul_le_mono_pos_r in H; assumption.
Qed.

Lemma float_leb_total (a b : Float.pyfloat) : Float.leb a b = true \/ Float.leb b a = true.
Proof.
  destruct a as [m1 e1|], b as [m2 e2|]; simpl; auto.
  rewrite (Z.min_comm e2 e1). rewrite !Z.leb_le. lia.
Qed.

Lemma float_leb_trans (a b c : Float.pyfloat) :
  Float.leb a b = true -> Float.leb b c = true -> Float.leb a c = true.
Proof.
  destruct a as [m1 e1|], b as [m2 e2|], c as [m3 e3|]; try (simpl; congruence).
  set (k := Z.min e1 (Z.min e2 e3)).
  rewrite (float_leb_at m1 e1 m2 e2 k), (float_leb_at m2 e2 m3 e3 k),
    (float_leb_at m1 e1 m3 e3 k) by (unfold k; lia).
  rewrite !Z.leb_le. lia.
Qed.

Local Close Scope Z_scope.

Section Ordered.
Context {K : Type}.
Variable leb : K -> K -> bool.
Variable key : permit -> result K.
Hypothesis leb_total : forall a b, leb a b = true \/ leb b a = true.
Hypothesis leb_trans : forall a b c, leb a b = true -> leb b c = true -> leb a c = true.

(** The result of a sort is in order, in the direction asked for. *)
Lemma py_sorted_in_order (reverse : bool) (l l' : list permit) :
  py_sorted leb key reverse l = Ok l' ->
  StronglySorted (in_order leb key reverse) l'.
Proof.
  unfold py_sorted. destruct (decorate key l) as [dl|] eqn:E; simpl; [|discriminate].
  intros H. injection H as <-.
  destruct (decorate_ok key l dl E) as [_ Hk].
  set (le := if reverse then fun a b => leb b a else leb).
  assert (Hs : StronglySorted (fun p q : K * permit => le (fst p) (fst q) = true)
                 (stable_sort le dl)).
  { apply stable_sort_sorted; unfold le; destruct reverse.
    - intros a b. destruct (leb_total a b); auto.
    - apply leb_total.
    - intros a b c H1 H2. eapply leb_trans; eassumption.
    - apply leb_trans. }
  assert (Hk' : Forall (fun p => key (snd p) = Ok (fst p)) (stable_sort le dl)).
  { eapply Permutation_Forall; [symmetry; apply stable_sort_perm | exact Hk]. }
  clear E Hk. induction Hs as [|p ps Hs IH Hp]; simpl; constructor.
  - apply IH. inversion Hk'; assumption.
  - inversion Hk' as [|? ? Hp0 Hps]; subst.
    clear IH Hs Hk'. induction Hp as [|q qs Hq _ IHq]; simpl; constructor.
    + inversion Hps; subst. exists (fst p), (fst q).
      split; [assumption|]. split; [assumption|].
      unfold le in Hq. destruct reverse; exact Hq.
    + apply IHq. inversion Hps; assumption.
Qed.

Lemma py_sorted_result (reverse : bool) (l : list permit) :
  Forall (fun r => exists k, key r = Ok k) l ->
  exists l', py_sorted leb key reverse l = Ok l' /\
             Permutation l l' /\
             StronglySorted (in_order leb key reverse) l'.
Proof.
  intros H. destruct (py_sorted_all_ok leb key reverse l H) as [l' E].
  exists l'. split; [exact E|]. split.
  - eapply py_sorted_perm; exact E.
  - eapply py_sorted_in_order; exact E.
Qed.
End Ordered.

Section Loop.
Variable csv_headers : list string.

(** One round of the loop over the sort keys. *)
Lemma sorted_versions_loop_round sort_name sort keys permits county_slug timestamp st sorted :
  sort permits = Ok sorted ->
  Forall (fun r => incl (dict_keys r) csv_headers) sorted ->
  Sink.sorted_versions_loop csv_headers ((sort_name, sort) :: keys) permits county_slug
    timestamp st =
  Sink.sorted_versions_loop csv_headers keys permits county_slug timestamp
    (mk_state (files st ++ [variant csv_headers county_slug timestamp sort_name sorted])
              (log st ++ [sorted_info county_slug timestamp sort_name])
              (sessions st)).
Proof.
  intros Hs Hk. cbn [Sink.sorted_versions_loop].
  rewrite bind_run. unfold lift. rewrite Hs.
  rewrite bind_run, (SinkFacts.write_csv_ok _ _ _ _ Hk).
  rewrite bind_run. reflexivity.
Qed.
End Loop.

End OrderFacts.

(** ** The orders by the calendar, the amount and the text *)

Module AmountFacts.
Local Open Scope Z_scope.

Lemma odd_part_spec (p : positive) :
  let (o, k) := Float.odd_part p in 0 <= k /\ Zpos p = Zpos o * 2 ^ k.
Proof.
  induction p as [p IH|p IH|]; cbn [Float.odd_part].
  - split; [lia|]. rewrite Z.pow_0_r. lia.
  - destruct (Float.odd_part p) as [o k]. destruct IH as [Hk E].
    split; [lia|]. rewrite Z.pow_add_r, Z.pow_1_r by lia.
    change (Zpos p~0) with (2 * Zpos p). rewrite E. ring.
  - split; [lia|]. reflexivity.
Qed.

Lemma normalize_spec (m e : Z) :
  0 < m ->
  exists o e', Float.normalize m e = Float.Finite o e' /\ e <= e' /\ o * 2 ^ (e' - e) = m.
Proof.
  intros Hm. destruct m as [|p|p]; [lia| |lia].
  unfold Float.normalize. pose proof (odd_part_spec p) as H.
  destruct (Float.odd_part p) as [o k]. destruct H as [Hk E].
  exists (Zpos o), (e + k). split; [reflexivity|]. split; [lia|].
  replace (e + k - e) with k by lia. symmetry. exact E.
Qed.

(** A whole number below [2 ^ 53] is a float, exactly. *)
Lemma round_whole (p : Z) :
  0 < p < 2 ^ 53 ->
  Float.round_to_double p 1 =
  Float.normalize (p * 2 ^ (52 - Z.log2 p)) (Z.log2 p - 52).
Proof.
  intros [Hp Hlt].
  assert (Hl : 0 <= Z.log2 p < 53).
  { split; [apply Z.log2_nonneg|]. apply Z.log2_lt_pow2; assumption. }
  pose proof (Z.log2_spec p Hp) as [Hlo _].
  unfold Float.round_to_double.
  replace (p <=? 0) with false by (symmetry; apply Z.leb_gt; lia).
  change (Z.log2 1) with 0. rewrite Z.sub_0_r.
  replace (0 <=? Z.log2 p) with true by (symmetry; apply Z.leb_le; lia).
  replace (1 * 2 ^ Z.log2 p <=? p) with true by (symmetry; apply Z.leb_le; lia).
  cbv zeta.
  replace (Z.max (Z.log2 p - 52) (-1074)) with (Z.log2 p - 52) by lia.
  destruct (Z.log2 p - 52 <? 0) eqn:E.
  - apply Z.ltb_lt in E.
    rewrite Z.div_1_r, Z.mod_1_r.
    replace (- (Z.log2 p - 52)) with (52 - Z.log2 p) by lia.
    replace (0 <=? Z.log2 p - 52) with false by (symmetry; apply Z.leb_gt; lia).
    reflexivity.
  - apply Z.ltb_ge in E. assert (El : Z.log2 p = 52) by lia. rewrite El.
    change (52 - 52) with 0. rewrite Z.pow_0_r, !Z.mul_1_r.
    change (1 * 1) with 1. rewrite Z.div_1_r, Z.mod_1_r. cbn [Z.ltb Z.eqb Z.mul orb andb Z.compare].
    replace (2 ^ 1024 <=? p) with false; [reflexivity|].
    symmetry. apply Z.leb_gt. eapply Z.lt_trans; [exact Hlt|].
    apply Z.pow_lt_mono_r; lia.
Qed.

Lemma round_whole_value (p : Z) :
  0 <= p < 2 ^ 53 ->
  exists m e, Float.round_to_double p 1 = Float.Finite m e /\
              -52 <= e /\ m * 2 ^ (e + 52) = p * 2 ^ 52.
Proof.
  intros [Hp Hlt]. destruct (Z.eq_dec p 0) as [-> | Hne].
  - exists 0, 0. repeat split; lia.
  - assert (Hpos : 0 < p) by lia.
    assert (Hl : 0 <= Z.log2 p < 53).
    { split; [apply Z.log2_nonneg|]. apply Z.log2_lt_pow2; assumption. }
    rewrite (round_whole p (conj Hpos Hlt)).
    destruct (normalize_spec (p * 2 ^ (52 - Z.log2 p)) (Z.log2 p - 52))
      as (o & e' & -> & He & Ho).
    { apply Z.mul_pos_pos; [exact Hpos|]. apply Z.pow_pos_nonneg; lia. }
    exists o, e'. split; [reflexivity|]. split; [lia|].
    replace (e' + 52) with ((e' - (Z.log2 p - 52)) + Z.log2 p) by lia.
    rewrite Z.pow_add_r, Z.mul_assoc, Ho by lia.
    rewrite <- Z.mul_assoc, <- Z.pow_add_r by lia.
    replace (52 - Z.log2 p + Z.log2 p) with 52 by lia. reflexivity.
Qed.

(** Floats of whole numbers compare as the numbers do. *)
Lemma round_whole_leb (a b : Z) :
  0 <= a < 2 ^ 53 -> 0 <= b < 2 ^ 53 ->
  Float.leb (Float.round_to_double a 1) (Float.round_to_double b 1) = (a <=? b).
Proof.
  intros Ha Hb.
  destruct (round_whole_value a Ha) as (ma & ea & -> & Hea & Va).
  destruct (round_whole_value b Hb) as (mb & eb & -> & Heb & Vb).
  rewrite (OrderFacts.float_leb_at ma ea mb eb (-52)) by assumption.
  replace (ea - -52) with (ea + 52) by lia. replace (eb - -52) with (eb + 52) by lia.
  rewrite Va, Vb. apply Bool.eq_iff_eq_true. rewrite !Z.leb_le.
  assert (0 < 2 ^ 52) by (apply Z.pow_pos_nonneg; lia).
  split; intros H'.
  - apply Z.mul_le_mono_pos_r in H'; assumption.
  - apply Z.mul_le_mono_nonneg_r; lia.
Qed.

Local Close Scope Z_scope.

Lemma digit_value_spec (c : ascii) :
  Amount.digit_value c =
  if PyStr.is_digit c then Some (Z.of_nat (nat_of_ascii c - 48)) else None.
Proof.
  destruct c as [b0 b1 b2 b3 b4 b5 b6 b7].
  destruct b0, b1, b2, b3, b4, b5, b6, b7; reflexivity.
Qed.

Lemma digits_whole (v : string) :
  Amount.has_dot v = false ->
  forall acc n,
    Float.digits (Sink.digits_and_dots v) acc n =
    (Amount.read acc v, n + ValuationSpec.count PyStr.is_digit v, EmptyString).
Proof.
  unfold Sink.digits_and_dots.
  induction v as [|c v IH]; intros Hd acc n.
  - cbn. rewrite Nat.add_0_r. reflexivity.
  - cbn [Amount.has_dot] in Hd. apply orb_false_iff in Hd. destruct Hd as [Hc Hv].
    cbn [PyStr.filter Amount.read ValuationSpec.count]. rewrite digit_value_spec, Hc.
    destruct (PyStr.is_digit c) eqn:E; cbn [orb].
    + cbn [Float.digits]. rewrite E, (IH Hv). do 2 f_equal. lia.
    + rewrite (IH Hv). reflexivity.
Qed.

Lemma has_digit_count (v : string) :
  Amount.has_digit v = true -> 1 <= ValuationSpec.count PyStr.is_digit v.
Proof.
  induction v as [|c v IH]; [discriminate|].
  cbn [Amount.has_digit ValuationSpec.count]. rewrite digit_value_spec.
  destruct (PyStr.is_digit c); [lia|]. intros H. apply IH in H. lia.
Qed.

Lemma read_nonneg (v : string) : forall acc, (0 <= acc)%Z -> (0 <= Amount.read acc v)%Z.
Proof.
  induction v as [|c v IH]; intros acc H; [exact H|].
  cbn [Amount.read]. rewrite digit_value_spec.
  destruct (PyStr.is_digit c); apply IH; lia.
Qed.

(** The valuation key of a whole amount is that number as a float. *)
Lemma valuation_key_valued (r : permit) (n : Z) :
  valued r n ->
  Sink.valuation_key r = Ok (Float.round_to_double n 1) /\ (0 <= n < 2 ^ 53)%Z.
Proof.
  intros (v & Hv & [[-> ->] | (Hd & Hdot & -> & Hlt)]).
  - unfold Sink.valuation_key, dict_getitem. rewrite Hv. split; [reflexivity | lia].
  - split; [|split; [apply read_nonneg; lia | exact Hlt]].
    unfold Sink.valuation_key, dict_getitem. rewrite Hv. cbn [rbind].
    destruct v as [|c v]; [discriminate|]. cbn [rbind].
    unfold Float.float_of_string. rewrite (digits_whole _ Hdot). cbn [Nat.add].
    pose proof (has_digit_count _ Hd) as Hc.
    destruct (ValuationSpec.count PyStr.is_digit (String c v)); [lia | reflexivity].
Qed.

Lemma in_order_highest_first (a b : permit) :
  in_order Float.leb Sink.valuation_key true a b -> highest_first a b.
Proof.
  intros (ka & kb & Ha & Hb & Hle) na nb Hna Hnb.
  destruct (valuation_key_valued a na Hna) as [Ea Ra].
  destruct (valuation_key_valued b nb Hnb) as [Eb Rb].
  rewrite Ea in Ha. rewrite Eb in Hb. injection Ha as <-. injection Hb as <-.
  rewrite (round_whole_leb nb na Rb Ra) in Hle. apply Z.leb_le, Hle.
Qed.

End AmountFacts.

Module CaselessFacts.

Lemma lower_char_fold (c : ascii) : PyStr.lower_char c = Caseless.fold_char c.
Proof.
  destruct c as [b0 b1 b2 b3 b4 b5 b6 b7].
  destruct b0, b1, b2, b3, b4, b5, b6, b7; reflexivity.
Qed.

Lemma lower_fold (s : string) : PyStr.lower s = Caseless.fold s.
Proof.
  induction s as [|c s IH]; [reflexivity|].
  cbn [PyStr.lower Caseless.fold]. rewrite lower_char_fold, IH. reflexivity.
Qed.

Lemma in_order_by_text (field : string) (a b : permit) :
  in_order String.leb (Sink.lower_key field) false a b -> by_text field a b.
Proof.
  intros (ka & kb & Ha & Hb & Hle) x y Hx Hy.
  unfold Sink.lower_key, dict_getitem in Ha, Hb. rewrite Hx in Ha. rewrite Hy in Hb.
  cbn [rbind] in Ha, Hb. injection Ha as <-. injection Hb as <-.
  unfold Caseless.le. rewrite <- !lower_fold. exact Hle.
Qed.

End CaselessFacts.

Module RankFacts.
Import Date DateText.

Lemma writes_nonempty (d : datetime) (s : string) : writes d s -> s <> EmptyString.
Proof.
  intros (_ & mt & dt & Hmt & _ & ->) E.
  destruct mt as [|c mt]; [|discriminate E].
  unfold month_texts, two, one in Hmt. destruct Hmt as [H | Hmt]; [discriminate H|].
  destruct (month d <? 10); [destruct Hmt as [H | []]; discriminate H | destruct Hmt].
Qed.

Lemma date_key_ranked (r : permit) (d : datetime) : ranked r d -> Sink.date_key r = Ok d.
Proof.
  intros [(s & Hs & Hw) | [Hs ->]]; unfold Sink.date_key, dict_getitem; rewrite Hs;
    cbn [rbind]; [|reflexivity].
  pose proof (writes_nonempty d s Hw) as Hne.
  destruct s as [|c s]; [congruence|]. cbn [rbind].
  exact (DateTextFacts.strptime_writes d _ Hw).
Qed.

(** A record whose date key can be computed has its day. *)
Lemma sortable_ranked (r : permit) :
  (exists k, Sink.date_key r = Ok k) -> exists d, ranked r d.
Proof.
  intros [k Hk]. unfold Sink.date_key, dict_getitem in Hk.
  destruct (dict_get r "issue_date") as [s|] eqn:Hs; [|discriminate].
  cbn [rbind] in Hk. destruct s as [|c s].
  - exists (mk_datetime 1 1 1). right. split; [exact Hs | reflexivity].
  - cbn [rbind] in Hk. exists k. left. exists (String c s). split; [exact Hs|].
    apply DateReadFacts.strptime_only_writes, Hk.
Qed.

Lemma in_order_newest_first (a b : permit) :
  in_order Date.leb Sink.date_key true a b -> newest_first_blank_last a b.
Proof.
  intros (ka & kb & Ha & Hb & Hle) da db Hda Hdb.
  rewrite (date_key_ranked a da Hda) in Ha. rewrite (date_key_ranked b db Hdb) in Hb.
  injection Ha as <-. injection Hb as <-.
  apply SortFacts.date_leb_spec, Hle.
Qed.

End RankFacts.


(** X10.  When every sort key of every record can be computed and
    every record key is a header, [generate_sorted_versions] returns
    normally after writing exactly five files, in the order date,
    valuation, address, contractor, work_type, and logging one record
    for each.  Each file holds all the records, in the order of its
    sort key.  By the calendar: every record has its day, the one its
    issue_date writes or the first day of the calendar when it is
    empty, and in the date file a record of a later day stands before
    one of an earlier day.  By the
    amount: in the valuation file, of two whole amounts (digits with
    any currency sign and separators, below 2^53) the higher stands
    first, an empty valuation counting as 0.  By the text: in the
    address, contractor and work type files the values ascend when
    capitals are read as small letters. *)
Theorem sorted_variants_are_sorted
  (csv_headers : list string) (permits : list permit) (county_slug timestamp : string)
  (st : state) :
  Forall sortable permits ->
  Forall (fun r => incl (dict_keys r) csv_headers) permits ->
  exists by_date by_valuation by_address by_contractor by_work_type,
    Sink.generate_sorted_versions csv_headers permits county_slug timestamp st =
    (Ok tt,
     mk_state
       (files st ++
        [variant csv_headers county_slug timestamp "date" by_date;
         variant csv_headers county_slug timestamp "valuation" by_valuation;
         variant csv_headers county_slug timestamp "address" by_address;
         variant csv_headers county_slug timestamp "contractor" by_contractor;
         variant csv_headers county_slug timestamp "work_type" by_work_type])
       (log st ++
        [sorted_info county_slug timestamp "date";
         sorted_info county_slug timestamp "valuation";
         sorted_info county_slug timestamp "address";
         sorted_info county_slug timestamp "contractor";
         sorted_info county_slug timestamp "work_type"])
       (sessions st)) /\
    (Permutation permits by_date /\
     StronglySorted (in_order Date.leb Sink.date_key true) by_date /\
     Forall (fun r => exists d, ranked r d) by_date /\
     StronglySorted newest_first_blank_last by_date) /\
    (Permutation permits by_valuation /\
     StronglySorted (in_order Float.leb Sink.valuation_key true) by_valuation /\
     StronglySorted highest_first by_valuation) /\
    (Permutation permits by_address /\
     StronglySorted (in_order String.leb (Sink.lower_key "address") false) by_address /\
     StronglySorted (by_text "address") by_address) /\
    (Permutation permits by_contractor /\
     StronglySorted (in_order String.leb (Sink.lower_key "contractor") false)
       by_contractor /\
     StronglySorted (by_text "contractor") by_contractor) /\
    (Permutation permits by_work_type /\
     StronglySorted (in_order String.leb (Sink.lower_key "work_type") false) by_work_type /\
     StronglySorted (by_text "work_type") by_work_type).
Proof.
  intros Hs Hk.
  assert (Hkeys : forall l, Permutation permits l ->
                            Forall (fun r => incl (dict_keys r) csv_headers) l)
    by (intros l Hl; eapply Permutation_Forall; eassumption).
  destruct (OrderFacts.py_sorted_result Date.leb Sink.date_key
              SortFacts.date_leb_total SortFacts.date_leb_trans true permits)
    as (l1 & E1 & P1 & S1).
  { eapply Forall_impl; [|exact Hs]. intros r Hr. apply Hr. }
  destruct (OrderFacts.py_sorted_result Float.leb Sink.valuation_key
              OrderFacts.float_leb_total OrderFacts.float_leb_trans true permits)
    as (l2 & E2 & P2 & S2).
  { eapply Forall_impl; [|exact Hs]. intros r Hr. apply Hr. }
  destruct (OrderFacts.py_sorted_result String.leb (Sink.lower_key "address")
              String.leb_total OrderFacts.string_leb_trans false permits)
    as (l3 & E3 & P3 & S3).
  { eapply Forall_impl; [|exact Hs]. intros r Hr. apply Hr. }
  destruct (OrderFacts.py_sorted_result String.leb (Sink.lower_key "contractor")
              String.leb_total OrderFacts.string_leb_trans false permits)
    as (l4 & E4 & P4 & S4).
  { eapply Forall_impl; [|exact Hs]. intros r Hr. apply Hr. }
  destruct (OrderFacts.py_sorted_result String.leb (Sink.lower_key "work_type")
              String.leb_total OrderFacts.string_leb_trans false permits)
    as (l5 & E5 & P5 & S5).
  { eapply Forall_impl; [|exact Hs]. intros r Hr. apply Hr. }
  exists l1, l2, l3, l4, l5.
  split.
  2:{ repeat split; try assumption.
      - eapply Permutation_Forall; [exact P1|].
        eapply Forall_impl; [|exact Hs]. intros r Hr. apply RankFacts.sortable_ranked, Hr.
      - exact (strongly_sorted_weaken _ _ _ RankFacts.in_order_newest_first S1).
      - exact (strongly_sorted_weaken _ _ _ AmountFacts.in_order_highest_first S2).
      - exact (strongly_sorted_weaken _ _ _ (CaselessFacts.in_order_by_text "address") S3).
      - exact (strongly_sorted_weaken _ _ _ (CaselessFacts.in_order_by_text "contractor") S4).
      - exact (strongly_sorted_weaken _ _ _ (CaselessFacts.in_order_by_text "work_type") S5). }
  unfold Sink.generate_sorted_versions, Sink.sort_keys.
  rewrite (OrderFacts.sorted_versions_loop_round _ _ _ _ _ _ _ _ _ E1 (Hkeys _ P1)).
  rewrite (OrderFacts.sorted_versions_loop_round _ _ _ _ _ _ _ _ _ E2 (Hkeys _ P2)).
  rewrite (OrderFacts.sorted_versions_loop_round _ _ _ _ _ _ _ _ _ E3 (Hkeys _ P3)).
  rewrite (OrderFacts.sorted_versions_loop_round _ _ _ _ _ _ _ _ _ E4 (Hkeys _ P4)).
  rewrite (OrderFacts.sorted_versions_loop_round _ _ _ _ _ _ _ _ _ E5 (Hkeys _ P5)).
  cbn [Sink.sorted_versions_loop files log sessions]. unfold ret.
  rewrite <- !app_assoc. reflexivity.
Qed.

Lemma sorted_variants_are_sorted_witness :
  fst (Sink.generate_sorted_versions field_names [Records.roof; Records.addition]
         "bexar" "20240108_060000" Records.initial) = Ok tt.
Proof.
  destruct (sorted_variants_are_sorted field_names [Records.roof; Records.addition]
              "bexar" "20240108_060000" Records.initial)
    as (l1 & l2 & l3 & l4 & l5 & E & _).
  - repeat (apply Forall_cons; [repeat split; eexists; vm_compute; reflexivity|]).
    apply Forall_nil.
  - repeat (apply Forall_cons; [apply incl_refl|]). apply Forall_nil.
  - rewrite E. reflexivity.
Defined.

(** Capitals beyond A..Z sort as their small letters: an address that
    starts with a capital O with diaeresis (U+00D6) comes after one
    that starts with the small letter (U+00F6) when its second letter
    is the later one. *)
Example latin_capitals_sort_as_small_letters :
  PySort.py_sorted String.leb (Sink.lower_key "address") false
    [[("address", String "214"%char "b")]; [("address", String "246"%char "a")]]
  = Ok [[("address", String "246"%char "a")]; [("address", String "214"%char "b")]].
Proof. vm_compute. reflexivity. Qed.


(** ** What a run writes *)

Module RunFacts.
Import Sink SinkSpec SinkFacts FrameFacts Scraper ScraperSpec ScraperFacts.

Lemma writes_within_nothing {A} (c : M A) :
  (forall st, files (snd (c st)) = files st) -> writes_within [] c.
Proof.
  intros H st. exists []. rewrite H, app_nil_r. repeat split; auto.
  intros x [].
Qed.

Lemma writes_within_more {A} (names names' : list string) (c : M A) :
  incl names names' -> List.length names <= List.length names' ->
  writes_within names c -> writes_within names' c.
Proof.
  intros Hi Hl Hc st. destruct (Hc st) as (new & Hf & Hn & Hlen).
  exists new. split; [exact Hf|]. split; [|lia].
  intros x Hx. apply Hi, Hn, Hx.
Qed.

Lemma writes_within_bind {A B} (n1 n2 : list string) (c : M A) (k : A -> M B) :
  writes_within n1 c -> (forall a, writes_within n2 (k a)) ->
  writes_within (n1 ++ n2) (bind c k).
Proof.
  intros Hc Hk st. unfold bind. destruct (Hc st) as (new1 & Hf1 & Hn1 & Hl1).
  destruct (c st) as [[a|e] st1]; simpl in *.
  - destruct (Hk a st1) as (new2 & Hf2 & Hn2 & Hl2).
    exists (new1 ++ new2). rewrite Hf2, Hf1, <- app_assoc. split; [reflexivity|].
    rewrite map_app, !length_app. split; [|lia].
    apply incl_app; [apply incl_appl | apply incl_appr]; assumption.
  - exists new1. split; [exact Hf1|]. rewrite length_app. split; [|lia].
    apply incl_appl. exact Hn1.
Qed.

Lemma writes_within_try_except {A} (n1 n2 : list string) (body : M A) (handler : exn -> M A) :
  writes_within n1 body -> (forall e, writes_within n2 (handler e)) ->
  writes_within (n1 ++ n2) (try_except body handler).
Proof.
  intros Hb Hh st. unfold try_except. destruct (Hb st) as (new1 & Hf1 & Hn1 & Hl1).
  destruct (body st) as [[a|e] st1]; simpl in *.
  - exists new1. split; [exact Hf1|]. rewrite length_app. split; [|lia].
    apply incl_appl. exact Hn1.
  - destruct (Hh e st1) as (new2 & Hf2 & Hn2 & Hl2).
    exists (new1 ++ new2). rewrite Hf2, Hf1, <- app_assoc. split; [reflexivity|].
    rewrite map_app, !length_app. split; [|lia].
    apply incl_app; [apply incl_appl | apply incl_appr]; assumption.
Qed.

Lemma writes_within_logging (r : log_record) : writes_within [] (logging r).
Proof. apply writes_within_nothing. reflexivity. Qed.

Lemma writes_within_lift {A} (r : result A) : writes_within [] (lift r).
Proof. apply writes_within_nothing. reflexivity. Qed.

Lemma writes_within_ret {A} (a : A) : writes_within [] (ret a).
Proof. apply writes_within_nothing. reflexivity. Qed.

Section WithConfig.
Variable csv_headers : list string.

Lemma writes_within_write_csv filename permits :
  writes_within [filename] (write_csv csv_headers filename permits).
Proof.
  intros st. rewrite write_csv_run. eexists. split; [reflexivity|].
  split; [apply incl_refl | simpl; lia].
Qed.

Lemma writes_within_sort_step permits county_slug :
  writes_within [] (sort_step permits county_slug).
Proof.
  apply writes_within_nothing. intros st. unfold sort_step.
  destruct (PySort.py_sorted _ _ _ _) as [sorted|[]]; reflexivity.
Qed.

(** Without the sorted variants [save_to_csv] writes the primary file
    or nothing. *)
Lemma writes_within_save_to_csv permits county_slug now :
  writes_within [base_filename county_slug now]
    (save_to_csv csv_headers permits county_slug false now).
Proof.
  destruct permits as [|p ps].
  - eapply writes_within_more; [| |apply writes_within_ret]; [intros x [] | simpl; lia].
  - rewrite save_to_csv_steps.
    apply (writes_within_bind [] [_]); [apply writes_within_sort_step|].
    intros l. unfold write_step.
    apply (writes_within_bind [_] []); [apply writes_within_write_csv|]. intros _.
    apply (writes_within_bind [] []); [apply writes_within_logging|]. intros _.
    apply (writes_within_bind [] []); [apply writes_within_ret|]. intros _.
    apply writes_within_ret.
Qed.

Lemma writes_within_attempt county_name county_slug parse w :
  writes_within [base_filename county_slug (clock w)]
    (attempt csv_headers county_name county_slug parse w).
Proof.
  unfold attempt.
  apply (writes_within_try_except [_] []); [|intros e; apply writes_within_logging].
  apply (writes_within_bind [] [_]); [apply writes_within_logging|]. intros _.
  unfold pipeline.
  apply (writes_within_bind [] [_]); [apply writes_within_lift|]. intros soup.
  apply (writes_within_bind [] [_]); [apply writes_within_lift|]. intros permits.
  apply (writes_within_bind [_] []); [apply writes_within_save_to_csv|]. intros l.
  apply writes_within_logging.
Qed.

Lemma writes_within_scrape county_name county_slug parse w :
  writes_within [base_filename county_slug (clock w)]
    (scrape csv_headers county_name county_slug parse w).
Proof.
  rewrite scrape_steps.
  apply (writes_within_bind [] [_]).
  - apply writes_within_nothing. intros st. unfold get_driver, start_browser, lift.
    rewrite bind_run. destruct (launch w) as [[]|]; reflexivity.
  - intros _ st. unfold try_finally, quit.
    destruct (writes_within_attempt county_name county_slug parse w st)
      as (new & Hf & Hn & Hl).
    destruct (attempt csv_headers county_name county_slug parse w st) as [r st1].
    exists new. simpl in *. auto.
Qed.

End WithConfig.
End RunFacts.

(** X11.  Whatever the sort flag, the pages and the failures, a run
    only adds files, at most four, and each is the primary file of one
    of the four sources: [run_all] never writes a sorted variant and
    never writes two files for one source. *)
Theorem run_all_writes_primary_files_only
  (csv_headers : list string) (generate_sorted : bool) (w : Scraper.world) (st : state) :
  exists new,
    files (snd (Scraper.run_all csv_headers generate_sorted w st)) = files st ++ new /\
    incl (map fst new) (primary_names w) /\
    List.length new <= 4.
Proof.
  assert (H : writes_within (primary_names w)
                (Scraper.run_all csv_headers generate_sorted w)).
  { unfold Scraper.run_all, primary_names.
    apply (RunFacts.writes_within_bind [] [_; _; _; _]);
      [apply RunFacts.writes_within_logging|]. intros _.
    apply (RunFacts.writes_within_bind [_] [_; _; _]);
      [apply RunFacts.writes_within_scrape|]. intros _.
    apply (RunFacts.writes_within_bind [_] [_; _]);
      [apply RunFacts.writes_within_scrape|]. intros _.
    apply (RunFacts.writes_within_bind [_] [_]);
      [apply RunFacts.writes_within_scrape|]. intros _.
    apply (RunFacts.writes_within_bind [_] []);
      [apply RunFacts.writes_within_scrape|]. intros _.
    apply RunFacts.writes_within_logging. }
  exact (H st).
Qed.

Module RunStopFacts.
Import Scraper ScraperSpec ScraperFacts RunFacts.

Section WithConfig.
Variable csv_headers : list string.

(** A source whose session starts: its scrape returns normally, leaves
    no session open and writes its primary file or nothing. *)
Lemma scrape_summary county_name county_slug parse w st :
  driver w = Ok tt ->
  exists st',
    scrape csv_headers county_name county_slug parse w st = (Ok tt, st') /\
    sessions st' = sessions st /\
    exists new, files st' = files st ++ new /\
                incl (map fst new) [Sink.base_filename county_slug (clock w)].
Proof.
  intros Hd.
  destruct (scrape_returns csv_headers county_name county_slug parse w st Hd)
    as (st' & l & E & Hs & _).
  destruct (writes_within_scrape csv_headers county_name county_slug parse w st)
    as (new & Hf & Hn & _).
  rewrite E in Hf. simpl in Hf.
  exists st'. split; [exact E|]. split; [exact Hs|]. exists new. auto.
Qed.

End WithConfig.
End RunStopFacts.

Lemma stranded_state (v : Scraper.visit) (s : state) :
  files (ScraperSpec.stranded v s) = files s /\
  log (ScraperSpec.stranded v s) = log s /\
  sessions (ScraperSpec.stranded v s) = sessions s + left_open v.
Proof.
  unfold ScraperSpec.stranded, left_open.
  destruct (Scraper.launch v); simpl; repeat split; lia.
Qed.

(** X12.  [run_all] stops at the first source whose browser session
    cannot be created: it raises that source's exception, and the only
    files it has written are primary files of the sources visited
    before; that source and the later ones write nothing.  The sessions
    of the sources before are released; if the browser of the failing
    source had started when [get_driver] failed, that one browser is
    left running. *)
Theorem run_all_stops_at_first_session_failure
  (csv_headers : list string) (generate_sorted : bool) (w : Scraper.world) (st : state)
  (before after : list (string * Scraper.visit)) (slug : string) (v : Scraper.visit)
  (e : exn) :
  visits w = before ++ (slug, v) :: after ->
  Forall (fun sv => Scraper.driver (snd sv) = Ok tt) before ->
  Scraper.driver v = Raise e ->
  exists st',
    Scraper.run_all csv_headers generate_sorted w st = (Raise e, st') /\
    sessions st' = sessions st + left_open v /\
    exists new, files st' = files st ++ new /\
                incl (map fst new) (map primary_name before).
Proof.
  intros Hv Hok Hbad.
  unfold Scraper.run_all, Scraper.scrape_bexar, Scraper.scrape_hamilton,
    Scraper.scrape_davidson, Scraper.scrape_travis.
  rewrite bind_run. unfold logging at 1.
  set (st0 := mk_state (files st) (log st ++ [LogInfo "Starting full scrape cycle"])
                (sessions st)).
  unfold visits in Hv.
  destruct before as [|b0 before].
  { injection Hv as _ Hv _. subst v.
    rewrite bind_run, (ScraperFacts.scrape_without_driver _ _ _ _ _ _ _ Hbad).
    destruct (stranded_state (Scraper.bexar w) st0) as (Hf & _ & Hs).
    eexists. split; [reflexivity|]. split; [exact Hs|].
    exists []. rewrite Hf. simpl. rewrite app_nil_r. split; [reflexivity | apply incl_refl]. }
  injection Hv as Hb0 Hv. inversion Hok as [|? ? Hd0 Hok1]; subst b0. simpl in Hd0.
  destruct (RunStopFacts.scrape_summary csv_headers "Bexar County" "bexar"
              Extract.parse_accela_results (Scraper.bexar w) st0 Hd0)
    as (st1 & E1 & S1 & new1 & F1 & N1).
  rewrite bind_run, E1. clear Hok.
  destruct before as [|b1 before].
  { injection Hv as _ Hv _. subst v.
    rewrite bind_run, (ScraperFacts.scrape_without_driver _ _ _ _ _ _ _ Hbad).
    destruct (stranded_state (Scraper.hamilton w) st1) as (Hf & _ & Hs).
    eexists. split; [reflexivity|]. split; [rewrite Hs, S1; reflexivity|].
    exists new1. rewrite Hf. split; [exact F1 | exact N1]. }
  injection Hv as Hb1 Hv. inversion Hok1 as [|? ? Hd1 Hok2]; subst b1. simpl in Hd1.
  destruct (RunStopFacts.scrape_summary csv_headers "Hamilton County" "hamilton"
              Extract.parse_accela_results (Scraper.hamilton w) st1 Hd1)
    as (st2 & E2 & S2 & new2 & F2 & N2).
  rewrite bind_run, E2. clear Hok1.
  destruct before as [|b2 before].
  { injection Hv as _ Hv _. subst v.
    rewrite bind_run, (ScraperFacts.scrape_without_driver _ _ _ _ _ _ _ Hbad).
    destruct (stranded_state (Scraper.davidson w) st2) as (Hf & _ & Hs).
    eexists. split; [reflexivity|]. split; [rewrite Hs, S2, S1; reflexivity|].
    exists (new1 ++ new2). rewrite Hf, F2, F1, <- app_assoc. split; [reflexivity|].
    rewrite map_app. apply incl_app; intros nm Hnm.
    - destruct (N1 nm Hnm) as [<- | []]. left. reflexivity.
    - destruct (N2 nm Hnm) as [<- | []]. right. left. reflexivity. }
  injection Hv as Hb2 Hv. inversion Hok2 as [|? ? Hd2 Hok3]; subst b2. simpl in Hd2.
  destruct (RunStopFacts.scrape_summary csv_headers "Davidson County" "davidson"
              Extract.parse_nashville_results (Scraper.davidson w) st2 Hd2)
    as (st3 & E3 & S3 & new3 & F3 & N3).
  rewrite bind_run, E3. clear Hok2.
  destruct before as [|b3 before].
  { injection Hv as _ Hv _. subst v.
    rewrite bind_run, (ScraperFacts.scrape_without_driver _ _ _ _ _ _ _ Hbad).
    destruct (stranded_state (Scraper.travis w) st3) as (Hf & _ & Hs).
    eexists. split; [reflexivity|]. split; [rewrite Hs, S3, S2, S1; reflexivity|].
    exists (new1 ++ new2 ++ new3). rewrite Hf, F3, F2, F1, <- !app_assoc.
    split; [reflexivity|].
    rewrite !map_app. repeat apply incl_app; intros nm Hnm.
    - destruct (N1 nm Hnm) as [<- | []]. left. reflexivity.
    - destruct (N2 nm Hnm) as [<- | []]. right. left. reflexivity.
    - destruct (N3 nm Hnm) as [<- | []]. right. right. left. reflexivity. }
  exfalso. injection Hv as _ Hv. destruct before; discriminate Hv.
Qed.

Lemma run_all_stops_at_first_session_failure_witness :
  (exists st',
     Scraper.run_all field_names true ScraperSpec.hamilton_has_no_browser Records.initial
       = (Raise DriverError, st') /\
     sessions st' = 0) /\
  (exists st',
     Scraper.run_all field_names true ScraperSpec.hamilton_refuses_override Records.initial
       = (Raise DriverError, st') /\
     sessions st' = 1).
Proof.
  split.
  - destruct (run_all_stops_at_first_session_failure field_names true
                ScraperSpec.hamilton_has_no_browser Records.initial
                [("bexar", ScraperSpec.grid_visit)]
                [("davidson", ScraperSpec.grid_visit); ("travis", ScraperSpec.grid_visit)]
                "hamilton" ScraperSpec.no_browser_visit DriverError eq_refl)
      as (st' & E & Hs & _).
    + repeat constructor.
    + reflexivity.
    + exists st'. split; [exact E | exact Hs].
  - destruct (run_all_stops_at_first_session_failure field_names true
                ScraperSpec.hamilton_refuses_override Records.initial
                [("bexar", ScraperSpec.grid_visit)]
                [("davidson", ScraperSpec.grid_visit); ("travis", ScraperSpec.grid_visit)]
                "hamilton" ScraperSpec.refused_visit DriverError eq_refl)
      as (st' & E & Hs & _).
    + repeat constructor.
    + reflexivity.
    + exists st'. split; [exact E | exact Hs].
Defined.

(** X13.  When a source's session starts, its page loads and the
    extractor returns records the sink can take, the scrape returns
    normally with no error logged; the count in its closing "Scraped N
    permits" record is the number of records extracted, which is the
    number of data rows of the one file written, and for zero records
    no file is written at all. *)
Theorem scrape_logs_the_number_of_rows
  (csv_headers : list string) (county_name county_slug : string)
  (parse : node -> result (list permit)) (w : Scraper.visit) (st : state)
  (soup : node) (ps : list permit) :
  Scraper.driver w = Ok tt ->
  Scraper.page w = Ok soup ->
  parse soup = Ok ps ->
  Forall (sinkable csv_headers) ps ->
  exists rows middle,
    Permutation ps rows /\
    Scraper.scrape csv_headers county_name county_slug parse w st =
    (Ok tt,
     mk_state
       (files st ++
        match ps with
        | [] => []
        | _ :: _ => [(Sink.base_filename county_slug (Scraper.clock w),
                      csv_of csv_headers rows)]
        end)
       (log st ++ ScraperSpec.starting county_name :: middle
               ++ [scraped county_name (List.length rows)])
       (sessions st)) /\
    Forall (fun r => forall msg cause, r <> LogError msg cause) middle.
Proof.
  intros Hd Hp Hparse Hsink.
  rewrite ScraperFacts.scrape_steps, bind_run, (ScraperFacts.get_driver_ok w st Hd).
  unfold try_finally, ScraperSpec.attempt, try_except.
  rewrite bind_run. unfold logging at 1. cbn [files log sessions].
  unfold ScraperSpec.pipeline. rewrite bind_run. unfold lift at 1. rewrite Hp.
  rewrite bind_run. unfold lift at 1. rewrite Hparse.
  rewrite bind_run.
  destruct ps as [|p ps].
  - exists [], []. split; [constructor|]. split; [|constructor].
    cbn. rewrite app_nil_r, <- app_assoc. reflexivity.
  - rewrite FrameFacts.save_to_csv_steps, bind_run.
    match goal with |- context [SinkSpec.sort_step _ _ ?s] =>
      destruct (SaveEdgeFacts.sort_step_dated (p :: ps) county_slug s)
        as (l & st1 & -> & Hperm & Hf & Hs & Hl)
    end.
    { eapply Forall_impl; [|exact Hsink]. intros r Hr. apply Hr. }
    destruct (SinkSpec.write_step csv_headers county_slug false (Scraper.clock w) l st1)
      as [res st2] eqn:Ew.
    apply SaveFacts.write_step_primary in Ew.
    2:{ eapply Permutation_Forall; [exact Hperm|].
        eapply Forall_impl; [|exact Hsink]. intros r Hr. apply Hr. }
    destruct Ew as (_ & _ & Hres). destruct (Hres eq_refl) as [-> ->].
    cbn [files log sessions] in *.
    destruct Hl as [Hl | Hl].
    + exists l, [SinkSpec.saved_info county_slug (Scraper.clock w) (List.length l)].
      split; [exact Hperm|]. split.
      * unfold logging, Scraper.quit, scraped. cbn. rewrite Hf, Hl, Hs.
        rewrite <- !app_assoc. reflexivity.
      * repeat constructor. intros msg cause. discriminate.
    + exists l, [SinkSpec.sort_warning county_slug;
                 SinkSpec.saved_info county_slug (Scraper.clock w) (List.length l)].
      split; [exact Hperm|]. split.
      * unfold logging, Scraper.quit, scraped. cbn. rewrite Hf, Hl, Hs.
        rewrite <- !app_assoc. reflexivity.
      * repeat constructor; intros msg cause; discriminate.
Qed.

Lemma scrape_logs_the_number_of_rows_witness :
  exists rows, Permutation [Records.roof; Records.addition] rows /\
    files (snd (Scraper.scrape_bexar field_names ScraperSpec.grid_visit Records.initial)) =
    [(Sink.base_filename "bexar" "20240108_060000", csv_of field_names rows)].
Proof.
  destruct (scrape_logs_the_number_of_rows field_names "Bexar County" "bexar"
              Extract.parse_accela_results ScraperSpec.grid_visit Records.initial
              Pages.two_row_page [Records.roof; Records.addition]
              eq_refl eq_refl eq_refl)
    as (rows & middle & Hp & E & _).
  - repeat (apply Forall_cons;
            [apply SinkFacts.permit_record_sinkable; [reflexivity | apply incl_refl]|]).
    apply Forall_nil.
  - exists rows. split; [exact Hp|].
    unfold Scraper.scrape_bexar. rewrite E. reflexivity.
Defined.

(** ** The search window *)

(** X14.  Round trip of the date format: for every calendar date with
    a four-digit year, the text [strftime('%m/%d/%Y')] produces (as
    [scrape_davidson] types into the portal) is read back by
    [strptime(.., "%m/%d/%Y")] (as the sink's date sort does) as the
    same date. *)
Theorem strptime_reads_strftime (d : Date.datetime) :
  DateWindow.valid d = true ->
  1000 <= Date.year d <= 9999 ->
  Date.strptime (DateWindow.strftime d) = Ok d.
Proof. apply strptime_strftime. Qed.

Lemma strptime_reads_strftime_witness :
  Date.strptime (DateWindow.strftime (Date.mk_datetime 2024 2 29))
  = Ok (Date.mk_datetime 2024 2 29).
Proof.
  refine (strptime_reads_strftime (Date.mk_datetime 2024 2 29) eq_refl _).
  split; apply Nat.leb_le; reflexivity.
Defined.

Module CalendarFacts.
Import Date DateWindow WindowFacts.

Lemma step_div (p c : nat) :
  2 <= c -> S p / c = p / c + (if S p mod c =? 0 then 1 else 0).
Proof.
  intros Hc.
  pose proof (Nat.div_mod_eq (S p) c) as E1. pose proof (Nat.mod_upper_bound (S p) c) as B1.
  pose proof (Nat.div_mod_eq p c) as E2. pose proof (Nat.mod_upper_bound p c) as B2.
  destruct (S p mod c =? 0) eqn:E; rewrite ?Nat.eqb_eq, ?Nat.eqb_neq in E.
  - assert (p / c < S p / c) by nia. assert (S p / c <= p / c + 1) by nia. lia.
  - assert (p / c <= S p / c) by nia. assert (S p / c <= p / c) by nia. lia.
Qed.

(** A year has 365 days, 366 when it is a leap year. *)
Lemma year_length (y : nat) :
  1 <= y ->
  days_before_year (S y) = days_before_year y + 365 + (if is_leap y then 1 else 0).
Proof.
  intros H. unfold days_before_year, is_leap.
  destruct y as [|p]; [lia|].
  replace (S (S p) - 1) with (S p) by lia. replace (S p - 1) with p by lia.
  rewrite (step_div p 4), (step_div p 100), (step_div p 400) by lia.
  assert (Hq : p / 100 <= p / 4) by (apply Nat.div_le_compat_l; lia).
  assert (H100 : S p mod 100 = 0 -> S p mod 4 = 0).
  { intros E. pose proof (Nat.div_mod_eq (S p) 100). pose proof (Nat.div_mod_eq (S p) 4).
    pose proof (Nat.mod_upper_bound (S p) 4). lia. }
  assert (H400 : S p mod 400 = 0 -> S p mod 100 = 0).
  { intros E. pose proof (Nat.div_mod_eq (S p) 400). pose proof (Nat.div_mod_eq (S p) 100).
    pose proof (Nat.mod_upper_bound (S p) 100). lia. }
  destruct (S p mod 4 =? 0) eqn:E4; destruct (S p mod 100 =? 0) eqn:E100;
    destruct (S p mod 400 =? 0) eqn:E400; cbn [andb orb negb];
    rewrite ?Nat.eqb_eq, ?Nat.eqb_neq in *; try lia.
Qed.

Lemma days_before_december (y : nat) :
  days_before_month y 12 + 31 = 365 + (if is_leap y then 1 else 0).
Proof. cbn. destruct (is_leap y); reflexivity. Qed.

Lemma days_before_year_from_two (y : nat) : 2 <= y -> 365 <= days_before_year y.
Proof.
  intros H. unfold days_before_year.
  assert (y - 1 / 100 <= y) by lia.
  assert (Hq : (y - 1) / 100 <= (y - 1) / 4) by (apply Nat.div_le_compat_l; lia).
  nia.
Qed.

Lemma prev_day_valid (d d' : datetime) :
  valid d = true -> prev_day d = Some d' -> valid d' = true.
Proof.
  rewrite !valid_spec. intros (Hy & Hm & Hd). unfold prev_day.
  destruct (1 <? day d) eqn:E1.
  - intros H. injection H as <-. apply Nat.ltb_lt in E1. simpl. lia.
  - destruct (1 <? month d) eqn:E2.
    + intros H. injection H as <-. apply Nat.ltb_lt in E2. simpl.
      pose proof (days_in_month_bounds (year d) (month d - 1)). lia.
    + destruct (1 <? year d) eqn:E3; [|discriminate].
      intros H. injection H as <-. apply Nat.ltb_lt in E3. simpl. lia.
Qed.

(** The day before has the preceding ordinal. *)
Lemma prev_day_ordinal (d d' : datetime) :
  valid d = true -> prev_day d = Some d' -> toordinal d' + 1 = toordinal d.
Proof.
  rewrite valid_spec. intros (Hy & Hm & Hd). unfold prev_day, toordinal.
  destruct (1 <? day d) eqn:E1.
  - intros H. injection H as <-. apply Nat.ltb_lt in E1. simpl. lia.
  - apply Nat.ltb_ge in E1. destruct (1 <? month d) eqn:E2.
    + intros H. injection H as <-. apply Nat.ltb_lt in E2. simpl.
      destruct (month d) as [|[|k]]; try lia.
      replace (S (S k) - 1) with (S k) by lia.
      cbn [days_before_month]. destruct k; lia.
    + apply Nat.ltb_ge in E2. destruct (1 <? year d) eqn:E3; [|discriminate].
      intros H. injection H as <-. apply Nat.ltb_lt in E3.
      cbn [year month day].
      assert (Em : month d = 1) by lia. assert (Ed : day d = 1) by lia.
      rewrite Em, Ed.
      remember (year d) as yy eqn:Eyy. destruct yy as [|y]; [lia|].
      replace (S y - 1) with y by lia.
      change (days_before_month (S y) 1) with 0.
      rewrite (year_length y) by lia.
      pose proof (days_before_december y). lia.
Qed.

Lemma prev_day_first_day (d : datetime) :
  valid d = true -> prev_day d = None -> toordinal d = 1.
Proof.
  rewrite valid_spec. intros (Hy & Hm & Hd). unfold prev_day, toordinal.
  destruct (1 <? day d) eqn:E1; [discriminate|].
  destruct (1 <? month d) eqn:E2; [discriminate|].
  destruct (1 <? year d) eqn:E3; [discriminate|]. intros _.
  apply Nat.ltb_ge in E1, E2, E3.
  assert (Ey : year d = 1) by lia. assert (Em : month d = 1) by lia.
  rewrite Ey, Em. cbn. lia.
Qed.

(** [n] days back is the day whose ordinal is [n] less, as long as
    that does not pass the first day. *)
Lemma minus_days_ordinal (n : nat) (d : datetime) :
  valid d = true -> n < toordinal d ->
  exists w, minus_days n d = Some w /\ valid w = true /\ toordinal w + n = toordinal d.
Proof.
  revert d. induction n as [|n IH]; intros d Hv Hn.
  - exists d. split; [reflexivity|]. split; [exact Hv | lia].
  - simpl. destruct (prev_day d) as [d'|] eqn:E.
    + pose proof (prev_day_valid d d' Hv E) as Hv'.
      pose proof (prev_day_ordinal d d' Hv E) as Ho.
      destruct (IH d' Hv') as (w & Hw & Hvw & Hord); [lia|].
      exists w. split; [exact Hw|]. split; [exact Hvw | lia].
    + pose proof (prev_day_first_day d Hv E). lia.
Qed.

(** Going back fewer than four weeks changes the year by one at most. *)
Lemma minus_days_year (Y n k : nat) (x w : datetime) :
  k + n <= 27 ->
  year x = Y \/ (year x + 1 = Y /\ month x = 12 /\ 32 <= day x + k) ->
  valid x = true ->
  minus_days n x = Some w ->
  Y <= year w + 1 /\ year w <= Y.
Proof.
  revert k x. induction n as [|n IH]; intros k x Hk Hinv Hv H.
  - injection H as <-. lia.
  - simpl in H. destruct (prev_day x) as [x'|] eqn:E; [|discriminate].
    pose proof (prev_day_valid x x' Hv E) as Hv'.
    apply (IH (S k) x'); [lia| |exact Hv'|exact H].
    apply valid_spec in Hv. destruct Hv as (Hy & Hm & Hd).
    unfold prev_day in E.
    destruct (1 <? day x) eqn:E1.
    + injection E as <-. simpl. destruct Hinv as [Hs | (Hs & Hm12 & Hday)]; [left; exact Hs|].
      right. apply Nat.ltb_lt in E1. lia.
    + apply Nat.ltb_ge in E1. destruct Hinv as [Hs | (Hs & Hm12 & Hday)]; [|lia].
      destruct (1 <? month x) eqn:E2.
      * injection E as <-. left. exact Hs.
      * destruct (1 <? year x) eqn:E3; [|discriminate].
        injection E as <-. apply Nat.ltb_lt in E3. right. simpl. lia.
Qed.

End CalendarFacts.

(** X15.  The search window of [scrape_davidson] is exactly seven days:
    for every calendar day [today] on which it runs (years 1001 to
    9999), the "from" string is the formatted date whose ordinal is
    seven less than today's, the "to" string is today's formatted date,
    and both strings are read back by [strptime] as those dates. *)
Theorem davidson_window_is_seven_days (today : Date.datetime) :
  DateWindow.valid today = true ->
  1001 <= Date.year today <= 9999 ->
  exists week_ago,
    DateWindow.date_window today
      = Some (DateWindow.strftime week_ago, DateWindow.strftime today) /\
    DateWindow.valid week_ago = true /\
    DateWindow.toordinal week_ago + 7 = DateWindow.toordinal today /\
    Date.strptime (DateWindow.strftime week_ago) = Ok week_ago /\
    Date.strptime (DateWindow.strftime today) = Ok today.
Proof.
  intros Hv [Hlo Hhi].
  destruct (CalendarFacts.minus_days_ordinal 7 today Hv) as (w & Hw & Hvw & Hord).
  { unfold DateWindow.toordinal.
    pose proof (CalendarFacts.days_before_year_from_two (Date.year today)). lia. }
  destruct (CalendarFacts.minus_days_year (Date.year today) 7 0 today w) as [Hy1 Hy2];
    [lia | left; reflexivity | exact Hv | exact Hw |].
  exists w. unfold DateWindow.date_window. rewrite Hw.
  split; [reflexivity|]. split; [exact Hvw|]. split; [exact Hord|]. split.
  - apply strptime_strftime; [exact Hvw|]. split; [lia|].
    eapply Nat.le_trans; [exact Hy2 | exact Hhi].
  - apply strptime_strftime; [exact Hv|]. split; [lia | exact Hhi].
Qed.

Lemma davidson_window_is_seven_days_witness :
  exists week_ago,
    DateWindow.date_window (Date.mk_datetime 2024 1 3)
      = Some (DateWindow.strftime week_ago, "01/03/2024") /\
    DateWindow.toordinal week_ago + 7 = DateWindow.toordinal (Date.mk_datetime 2024 1 3).
Proof.
  destruct (davidson_window_is_seven_days (Date.mk_datetime 2024 1 3) eq_refl)
    as (w & E & _ & Ho & _).
  - split; apply Nat.leb_le; reflexivity.
  - exists w. split; [exact E | exact Ho].
Defined.

(** ** The stand-in scrapers *)

Module MockFacts.
Import Mock MockSpec.

Lemma get_setitem_same (d : record) (k : string) (v : pyvalue) :
  get (setitem d k v) k = Some v.
Proof.
  induction d as [|[k' v'] d IH]; simpl.
  - rewrite String.eqb_refl. reflexivity.
  - destruct (String.eqb k' k) eqn:E; simpl; rewrite E; [reflexivity | exact IH].
Qed.

Lemma get_setitem_other (d : record) (k k0 : string) (v : pyvalue) :
  k0 <> k -> get (setitem d k v) k0 = get d k0.
Proof.
  intros Hne. induction d as [|[k' v'] d IH]; simpl.
  - apply String.eqb_neq in Hne. rewrite String.eqb_sym, Hne. reflexivity.
  - destruct (String.eqb k' k) eqn:E; simpl.
    + apply String.eqb_eq in E. subst k'.
      assert (String.eqb k k0 = false) as -> by (apply String.eqb_neq; congruence).
      reflexivity.
    + rewrite IH. reflexivity.
Qed.

Lemma keys_setitem (d : record) (k : string) (v : pyvalue) :
  incl (map fst (setitem d k v)) (k :: map fst d).
Proof.
  induction d as [|[k' v'] d IH]; simpl.
  - intros x [<- | []]. left. reflexivity.
  - destruct (String.eqb k' k); simpl.
    + intros x Hx. right. exact Hx.
    + intros x [<- | Hx]; [right; left; reflexivity|].
      destruct (IH x Hx) as [<- | H]; [left; reflexivity | right; right; exact H].
Qed.

Lemma dict_to_list_known (r : record) : known_keys r -> dict_to_list r = Ok (render r).
Proof.
  intros H. unfold dict_to_list.
  replace (forallb _ _) with true; [reflexivity|].
  symmetry. apply forallb_forall. intros k Hk.
  apply RecordFacts.existsb_eqb_In, H, Hk.
Qed.

Lemma dict_to_list_unknown (r : record) : ~ known_keys r -> dict_to_list r = Raise ValueError.
Proof.
  intros H. unfold dict_to_list. destruct (forallb _ _) eqn:E; [|reflexivity].
  exfalso. apply H. intros k Hk. rewrite forallb_forall in E.
  apply RecordFacts.existsb_eqb_In, E, Hk.
Qed.

Lemma known_keys_dated (r : record) (v : pyvalue) :
  known_keys r -> known_keys (setitem r "date" v).
Proof.
  intros H k Hk. destruct (keys_setitem r "date" v k Hk) as [<- | Hin].
  - unfold fieldnames. simpl. auto 10.
  - apply H, Hin.
Qed.

(** The writer quotes a field exactly when it holds one of the four
    characters, and doubles its quotes. *)
Lemma needs_quotes_spec (f : string) :
  needs_quotes f =
  existsb (fun c => CsvText.has_char c f) [","%char; "034"%char; "013"%char; "010"%char].
Proof.
  induction f as [|c f IH]; [reflexivity|].
  cbn [needs_quotes existsb CsvText.has_char]. rewrite IH. cbn [existsb].
  unfold special, quotechar.
  destruct (Ascii.eqb c ","), (Ascii.eqb c "034"), (Ascii.eqb c "013"), (Ascii.eqb c "010"),
    (CsvText.has_char "," f), (CsvText.has_char "034" f), (CsvText.has_char "013" f),
    (CsvText.has_char "010" f); reflexivity.
Qed.

Lemma doubled_spec (f : string) : doubled f = quotes_doubled f.
Proof.
  unfold quotes_doubled, quote, PyStr.join.
  induction f as [|c f IH]; [reflexivity|].
  cbn [doubled PyStr.split]. unfold quotechar in *. rewrite IH.
  pose proof (CsvFacts.split_nonempty "034"%char f) as Hn.
  destruct (Ascii.eqb c "034") eqn:E.
  - apply Ascii.eqb_eq in E. subst c.
    destruct (PyStr.split "034" f) as [|w ws]; [congruence | reflexivity].
  - destruct (PyStr.split "034" f) as [|w ws]; [congruence|].
    destruct ws; reflexivity.
Qed.

Lemma field_text_written (f : string) : field_text f = written f.
Proof.
  unfold field_text, written. rewrite needs_quotes_spec, doubled_spec. reflexivity.
Qed.

Lemma line_of_many (a b : string) (l : list string) :
  line_of (a :: b :: l) =
  (PyStr.join "," (map written (a :: b :: l)) ++ crlf)%string.
Proof.
  unfold line_of. rewrite (map_ext _ _ field_text_written).
  destruct a; reflexivity.
Qed.

Lemma line_of_render (r : record) : line_of (render r) = line_text r.
Proof. unfold line_text, render, fieldnames. cbn [map]. apply line_of_many. Qed.

Lemma write_rows_known (today : nat -> string) (permits : list record) :
  Forall known_keys permits ->
  forall i file,
    write_rows today i permits file =
    (Ok (dated_from today i permits),
     (file ++ String.concat "" (map line_text (dated_from today i permits)))%string).
Proof.
  induction 1 as [|p ps Hp _ IH]; intros i file; cbn [write_rows dated_from map].
  - cbn. rewrite append_empty_r. reflexivity.
  - rewrite (dict_to_list_known _ (known_keys_dated p _ Hp)), IH, line_of_render.
    rewrite append_assoc. do 2 f_equal.
    destruct (dated_from today (S i) ps); cbn; [rewrite append_empty_r|];
      reflexivity.
Qed.

Lemma stand_in_records_known (c : county) : Forall known_keys (permits_of c).
Proof.
  destruct c; repeat (apply Forall_cons;
    [intros k Hk; simpl in Hk; unfold fieldnames;
     repeat (destruct Hk as [<- | Hk]; [simpl; auto 10|]); destruct Hk|]);
    apply Forall_nil.
Qed.

Lemma header_line_written : line_of fieldnames = header_line.
Proof. reflexivity. Qed.

Lemma run_appends (c : county) (today : nat -> string) (file : string) :
  run c today file =
  (Ok (dated_from today 0 (permits_of c)), (with_header file ++ lines_of (c, today))%string).
Proof.
  assert (E : run c today file = scrape (permits_of c) today file) by (destruct c; reflexivity).
  rewrite E. unfold scrape. rewrite header_line_written. fold (with_header file).
  rewrite (write_rows_known today _ (stand_in_records_known c)).
  do 2 f_equal. destruct c; vm_compute; reflexivity.
Qed.

Lemma with_header_nonempty (file rows : string) :
  with_header (with_header file ++ rows) = (with_header file ++ rows)%string.
Proof. destruct file; reflexivity. Qed.

End MockFacts.

(** X16.  However many times and in whatever order the three stand-in
    scrapers are called, no call raises and the text of
    [data/permits.csv] ends as what it held before, followed by the
    header line only if it was absent or empty before the first call,
    followed by the two lines of each call in call order, each with
    the address between quotes and ended by CR LF.  Earlier content is
    kept as it is (a last line without a line break is continued by
    the first new line) and the header is never written twice. *)
Theorem stand_ins_append_under_one_header
  (calls : list (Mock.county * (nat -> string))) (file : string) :
  Mock.run_all calls file =
  (Ok tt,
   (match calls with
    | [] => file
    | _ :: _ => MockSpec.with_header file
    end ++ String.concat "" (map MockSpec.lines_of calls))%string).
Proof.
  revert file. induction calls as [|[c today] calls IH]; intros file.
  - cbn. rewrite append_empty_r. reflexivity.
  - cbn [Mock.run_all map]. rewrite MockFacts.run_appends, IH.
    destruct calls as [|call calls].
    + cbn. rewrite append_empty_r. reflexivity.
    + rewrite MockFacts.with_header_nonempty, append_assoc. reflexivity.
Qed.

(** X17.  The body the stand-ins share, on any records whose keys are
    field names: it returns the records with the date of their turn
    under the key [date] (replaced if present, appended otherwise, the
    other entries as they were), and the text it appends is exactly
    one line for each returned record: its values in field-name order,
    comma-separated, a value that holds a comma, a quote or a line
    break between quotes with its quotes doubled; a record with
    another key stops the call with [ValueError] before its line is
    written. *)
Theorem stand_in_returns_what_it_writes
  (permits : list Mock.record) (today : nat -> string) (file : string) :
  Forall MockSpec.known_keys permits ->
  Mock.scrape permits today file =
  (Ok (MockSpec.dated_from today 0 permits),
   (MockSpec.with_header file ++
    String.concat "" (map MockSpec.line_text (MockSpec.dated_from today 0 permits)))%string) /\
  (forall r v, Mock.get (Mock.setitem r "date" v) "date" = Some v) /\
  (forall r v k, k <> "date" -> Mock.get (Mock.setitem r "date" v) k = Mock.get r k) /\
  (forall r, ~ MockSpec.known_keys (Mock.setitem r "date" (Mock.VStr (today 0))) ->
             Mock.scrape (r :: permits) today file
             = (Raise ValueError, MockSpec.with_header file)).
Proof.
  intros H. split; [|split; [|split]].
  - unfold Mock.scrape. rewrite MockFacts.header_line_written.
    fold (MockSpec.with_header file).
    apply MockFacts.write_rows_known, H.
  - intros r v. apply MockFacts.get_setitem_same.
  - intros r v k Hk. apply MockFacts.get_setitem_other, Hk.
  - intros r Hr. unfold Mock.scrape. rewrite MockFacts.header_line_written.
    fold (MockSpec.with_header file).
    cbn [Mock.write_rows]. rewrite (MockFacts.dict_to_list_unknown _ Hr). reflexivity.
Qed.

Lemma stand_in_returns_what_it_writes_witness :
  snd (Mock.scrape_bexar (fun _ => "2024-01-08") "") =
  (MockSpec.header_line ++
   MockSpec.line "Bexar" "BEX-001" "456 Main St, San Antonio, TX" "Residential Addition"
     75000 "Adding a master bathroom to existing home" "2024-01-08" ++
   MockSpec.line "Bexar" "BEX-002" "789 Oak Ave, San Antonio, TX" "Commercial Renovation"
     200000 "Restaurant kitchen remodel" "2024-01-08")%string.
Proof.
  unfold Mock.scrape_bexar.
  rewrite (proj1 (stand_in_returns_what_it_writes Mock.bexar_permits
                    (fun _ => "2024-01-08") ""
                    (MockFacts.stand_in_records_known Mock.Bexar))).
  vm_compute. reflexivity.
Defined.

(** ** Result cards *)

Module CardFacts.
Import PyStr Extract ExtractSpec ExtractFacts Cards.







End CardFacts.



(** X19.  A header list that omits a field does not stop a source from
    returning normally: when the extractor yields records that all have
    a key outside the header list, the scrape catches the [ValueError]
    of the first row and logs it as the source's error, leaves a
    primary file holding the header row only, logs no "Scraped" record
    and releases the session. *)
Theorem scrape_with_short_header_list
  (csv_headers : list string) (county_name county_slug : string)
  (parse : node -> result (list permit)) (w : Scraper.visit) (st : state)
  (soup : node) (ps : list permit) :
  Scraper.driver w = Ok tt ->
  Scraper.page w = Ok soup ->
  parse soup = Ok ps ->
  ps <> [] ->
  Forall dated ps ->
  Forall (fun r => ~ incl (dict_keys r) csv_headers) ps ->
  exists middle,
    Scraper.scrape csv_headers county_name county_slug parse w st =
    (Ok tt,
     mk_state
       (files st ++ [(Sink.base_filename county_slug (Scraper.clock w), [csv_headers])])
       (log st ++ ScraperSpec.starting county_name :: middle
               ++ [ScraperSpec.failed county_name ValueError])
       (sessions st)) /\
    (middle = [] \/ middle = [SinkSpec.sort_warning county_slug]).
Proof.
  intros Hd Hp Hparse Hne Hdated Hbad.
  rewrite ScraperFacts.scrape_steps, bind_run, (ScraperFacts.get_driver_ok w st Hd).
  unfold try_finally, ScraperSpec.attempt, try_except.
  rewrite bind_run. unfold logging at 1. cbn [files log sessions].
  unfold ScraperSpec.pipeline. rewrite bind_run. unfold lift at 1. rewrite Hp.
  rewrite bind_run. unfold lift at 1. rewrite Hparse.
  rewrite bind_run.
  match goal with |- context [Sink.save_to_csv _ _ _ _ _ ?s] =>
    destruct (save_to_csv_unwritable csv_headers ps county_slug false (Scraper.clock w) s
                Hne Hdated Hbad) as (log' & -> & Hl)
  end.
  cbn [files log sessions] in Hl. unfold logging, Scraper.quit. cbn.
  destruct Hl as [-> | ->].
  - exists []. split; [|left; reflexivity]. rewrite <- !app_assoc. reflexivity.
  - exists [SinkSpec.sort_warning county_slug]. split; [|right; reflexivity].
    rewrite <- !app_assoc. reflexivity.
Qed.

Lemma scrape_with_short_header_list_witness :
  exists middle,
    Scraper.scrape_bexar ["permit_number"; "issue_date"] ScraperSpec.grid_visit
      Records.initial =
    (Ok tt,
     mk_state
       [(Sink.base_filename "bexar" "20240108_060000", [["permit_number"; "issue_date"]])]
       (ScraperSpec.starting "Bexar County" :: middle
        ++ [ScraperSpec.failed "Bexar County" ValueError])
       0) /\
    (middle = [] \/ middle = [SinkSpec.sort_warning "bexar"]).
Proof.
  refine (scrape_with_short_header_list ["permit_number"; "issue_date"]
            "Bexar County" "bexar" Extract.parse_accela_results ScraperSpec.grid_visit
            Records.initial Pages.two_row_page [Records.roof; Records.addition]
            eq_refl eq_refl eq_refl _ _ _).
  - discriminate.
  - repeat (apply Forall_cons; [unfold dated; simpl; discriminate|]). apply Forall_nil.
  - repeat (apply Forall_cons;
            [intros H; destruct (H "address") as [E | [E | []]];
             [simpl; auto | discriminate E | discriminate E]|]).
    apply Forall_nil.
Defined.

(** ** Valuations that can be read *)

Module ValuationFacts.
Import PyStr ValuationSpec.

Lemma digit_is_no_dot (c : ascii) : is_digit c = true -> is_dot c = false.
Proof.
  intros H. unfold is_dot. destruct (Ascii.eqb_spec c "."); [subst; discriminate | reflexivity].
Qed.

Lemma count_digits_kept (v : string) :
  count is_digit (Sink.digits_and_dots v) = count is_digit v.
Proof.
  unfold Sink.digits_and_dots.
  induction v as [|c v IH]; [reflexivity|].
  cbn [filter count]. destruct (is_digit c) eqn:E; cbn [orb].
  - cbn [count]. rewrite E, IH. reflexivity.
  - destruct (Ascii.eqb c ".") eqn:D; [cbn [count]; rewrite E|]; rewrite IH; reflexivity.
Qed.

Lemma count_dots_kept (v : string) :
  count is_dot (Sink.digits_and_dots v) = count is_dot v.
Proof.
  unfold Sink.digits_and_dots.
  induction v as [|c v IH]; [reflexivity|].
  cbn [filter count]. destruct (is_digit c) eqn:E; cbn [orb].
  - cbn [count]. rewrite IH. reflexivity.
  - unfold is_dot at 2.
    destruct (Ascii.eqb c ".") eqn:D; [cbn [count]; unfold is_dot at 1; rewrite D|];
      rewrite IH; reflexivity.
Qed.

Lemma digits_and_dots_plain (v : string) : plain (Sink.digits_and_dots v).
Proof.
  unfold Sink.digits_and_dots.
  induction v as [|c v IH]; [exact I|].
  cbn [filter]. destruct (is_digit c) eqn:E; cbn [orb].
  - split; [left; exact E | exact IH].
  - destruct (Ascii.eqb c ".") eqn:D; [split; [right; exact D | exact IH] | exact IH].
Qed.

(** What [digits] leaves: the digits read are counted, the rest is
    empty or starts with a character that is no digit. *)
Lemma digits_spec (s : string) :
  forall acc n, exists a k rest,
    Float.digits s acc n = (a, n + k, rest) /\
    count is_digit s = k + count is_digit rest /\
    count is_dot s = count is_dot rest /\
    (plain s -> plain rest) /\
    (rest = EmptyString \/ exists c t, rest = String c t /\ is_digit c = false).
Proof.
  induction s as [|c s IH]; intros acc n.
  - exists acc, 0, EmptyString. cbn. rewrite Nat.add_0_r.
    repeat split; auto.
  - cbn [Float.digits]. destruct (is_digit c) eqn:E.
    + destruct (IH (10 * acc + Z.of_nat (nat_of_ascii c - 48))%Z (S n))
        as (a & k & rest & -> & Hd & Hp & Hpl & Hr).
      exists a, (S k), rest. cbn [count]. rewrite E, (digit_is_no_dot c E), Hd, Hp.
      split; [f_equal; f_equal; lia|]. split; [reflexivity|]. split; [reflexivity|].
      split; [intros [_ H]; apply Hpl, H | exact Hr].
    + exists acc, 0, (String c s). rewrite Nat.add_0_r.
      split; [reflexivity|]. split; [reflexivity|]. split; [reflexivity|].
      split; [exact (fun H => H)|]. right. exists c, s. auto.
Qed.

Lemma float_of_string_plain (s : string) :
  plain s ->
  (readable s = true -> exists f, Float.float_of_string s = Ok f) /\
  (readable s = false -> Float.float_of_string s = Raise ValueError).
Proof.
  intros Hplain. unfold Float.float_of_string, readable.
  destruct (digits_spec s 0%Z 0) as (ip & ni & rest & -> & Hd & Hp & Hpl & Hr).
  cbn [Nat.add]. rewrite Hd, Hp.
  destruct Hr as [-> | (c & t & -> & Hc)].
  - cbn [count]. rewrite Nat.add_0_r. destruct ni as [|ni].
    + split; [discriminate | reflexivity].
    + split; [eauto | discriminate].
  - destruct (Hpl Hplain) as [[Hc' | Hdot] Ht]; [congruence|].
    unfold is_dot in Hdot. apply Ascii.eqb_eq in Hdot. subst c.
    destruct (digits_spec t ip 0) as (fp & nf & rest' & -> & Hd' & Hp' & Hpl' & Hr').
    cbn [Nat.add count]. rewrite Hc, Hd', Hp'.
    change (is_dot ".") with true. cbn [Nat.add].
    destruct Hr' as [-> | (c' & t' & -> & Hc'')].
    + cbn [count]. rewrite !Nat.add_0_r.
      destruct (ni + nf) as [|m] eqn:Em.
      * split; [discriminate | reflexivity].
      * split; [eauto | discriminate].
    + destruct (Hpl' Ht) as [[Hc' | Hdot'] _]; [congruence|].
      cbn [count]. rewrite Hdot'. cbn [Nat.add Nat.leb].
      rewrite Bool.andb_false_r. split; [discriminate | reflexivity].
Qed.

End ValuationFacts.

(** X20.  Which valuations the valuation sort key can read: for a
    non-empty valuation the key is a number exactly when the string
    holds at least one digit and at most one dot, whatever other
    characters it has; with no digit, or with two dots or more (as in
    "1.2.3" or a sentence with an amount), the key raises
    [ValueError]. *)
Theorem valuation_key_reads_one_number (x : permit) (v : string) :
  dict_get x "valuation" = Some v ->
  v <> EmptyString ->
  (ValuationSpec.readable v = true -> exists f, Sink.valuation_key x = Ok f) /\
  (ValuationSpec.readable v = false -> Sink.valuation_key x = Raise ValueError).
Proof.
  intros Hv Hne.
  assert (Hkey : Sink.valuation_key x = Float.float_of_string (Sink.digits_and_dots v)).
  { unfold Sink.valuation_key, dict_getitem. rewrite Hv. cbn [rbind].
    destruct v; [congruence | reflexivity]. }
  rewrite Hkey.
  assert (Hr : ValuationSpec.readable (Sink.digits_and_dots v) = ValuationSpec.readable v).
  { unfold ValuationSpec.readable.
    rewrite ValuationFacts.count_digits_kept, ValuationFacts.count_dots_kept. reflexivity. }
  rewrite <- Hr.
  apply ValuationFacts.float_of_string_plain, ValuationFacts.digits_and_dots_plain.
Qed.

Lemma valuation_key_reads_one_number_witness :
  (exists f, Sink.valuation_key [("valuation", "$1,200.50")] = Ok f) /\
  Sink.valuation_key [("valuation", "1.2.3")] = Raise ValueError.
Proof.
  split.
  - refine (proj1 (valuation_key_reads_one_number [("valuation", "$1,200.50")]
                     "$1,200.50" eq_refl _) eq_refl).
    discriminate.
  - refine (proj2 (valuation_key_reads_one_number [("valuation", "1.2.3")]
                     "1.2.3" eq_refl _) eq_refl).
    discriminate.
Defined.
